(** * ynab-mcp-server: the resilient API client and the aggregation engine

    A shallow embedding of the Go packages [internal/ynab] (models, unit
    conversion, the retrying HTTP client, the list-then-scan point lookups)
    and [internal/tools] (date helpers, the category / month / payee
    aggregation functions and the aggregation tool handlers), followed by the
    properties the specification states about them.

    Conventions of the embedding:
    - [int64] and [int] values are integers in [Z]; a counter bounded by a
      slice length cannot wrap, and the sums of balances and amounts the
      text tools make are reduced to 64 bits ([Int64.add]).
    - [float64] values are Rocq's primitive binary64 floats, so every float
      operation of the source ([/], [*], [+], [<], unary [-]) is the IEEE 754
      operation the Go compiler emits.
    - Go maps are [gmap]s; the pointers stored in the aggregation maps are
      owned by the map alone, so updating through the pointer is an insert.
    - the unspecified iteration order of a Go map is a parameter.
    - [error] values keep their message and the error they wrap ([%w]).
    - the network is an oracle that answers every HTTP exchange from the
      history of events so far; a call returns its value together with the
      events (exchanges and sleeps) it caused. *)

From Stdlib Require Import ZArith String Ascii List Floats Uint63 Lia Sorted Permutation DecimalString.
From stdpp Require Import gmap strings list.

Local Open Scope string_scope.
Local Open Scope list_scope.
Local Open Scope Z_scope.

(** ** float64 and its conversions *)

Module Float64.

(** [float64(z)] for [0 <= z <= 2^63]: round to nearest, ties to even. *)
Definition of_nonneg (z : Z) : float :=
  if z <? 2 ^ 63 then PrimFloat.of_uint63 (Uint63.of_Z z) else 0x1p63%float.

(** [float64(z)] for an [int64] [z]. *)
Definition of_int64 (z : Z) : float :=
  if z <? 0 then (- of_nonneg (- z))%float else of_nonneg z.

(** The integer part (rounding toward zero) of a finite float. *)
Definition trunc (f : float) : option Z :=
  match Prim2SF f with
  | S754_zero _ => Some 0
  | S754_finite s m e =>
      let mag := if 0 <=? e then Z.shiftl (Z.pos m) e else Z.shiftr (Z.pos m) (- e) in
      Some (if s then - mag else mag)
  | S754_infinity _ | S754_nan => None
  end.

Definition min_int64 : Z := - 2 ^ 63.
Definition max_int64 : Z := 2 ^ 63 - 1.

(** [int64(f)] (and [int(f)] on a 64-bit target): the fraction is discarded;
    a NaN, an infinity or a value that does not fit is implementation
    specific in Go, and yields the "integer indefinite" value [-2^63] on
    amd64 (CVTTSD2SI), which is what is modelled. *)
Definition to_int64 (f : float) : Z :=
  match trunc f with
  | Some z => if (min_int64 <=? z) && (z <=? max_int64) then z else min_int64
  | None => min_int64
  end.

(** The class of a float that is a zero, a positive finite number or
    [+Inf]: what a sum of magnitudes can be. *)
Definition nonneg_class (f : float) : Prop :=
  match Prim2SF f with
  | S754_zero _ | S754_finite false _ _ | S754_infinity false => True
  | _ => False
  end.

(** The same class on the specification side of a float. *)
Definition SFnonneg (f : spec_float) : Prop :=
  match f with
  | S754_zero _ | S754_finite false _ _ | S754_infinity false => True
  | _ => False
  end.

(** Floats of that class are ordered as these triples are,
    lexicographically. *)
Definition key (f : spec_float) : Z * Z * Z :=
  match f with
  | S754_zero _ => (0, 0, 0)
  | S754_finite _ m e => (1, e, Z.pos m)
  | S754_infinity _ => (2, 0, 0)
  | S754_nan => (3, 0, 0)
  end.

Definition lex_lt (a b : Z * Z * Z) : Prop :=
  let '(a1, a2, a3) := a in
  let '(b1, b2, b3) := b in
  a1 < b1 \/ (a1 = b1 /\ (a2 < b2 \/ (a2 = b2 /\ a3 < b3))).

End Float64.

(** ** Strings and formatting *)

(** [%d] of [fmt]. *)
Definition fmt_d (z : Z) : string := NilZero.string_of_int (Z.to_int z).

(** ** Errors

    [fmt.Errorf] builds an error from its formatted message; with the verb
    [%w] the result also wraps the operand. *)

Inductive error : Type :=
| Errorf (msg : string)
| Wrapf (msg : string) (wrapped : error).

Definition Error (e : error) : string :=
  match e with Errorf m | Wrapf m _ => m end.

Definition Unwrap (e : error) : option error :=
  match e with Errorf _ => None | Wrapf _ w => Some w end.

(** [%w] / [%v] of an error value that may be nil. *)
Definition fmt_w (e : option error) : string :=
  match e with
  | Some e => Error e
  | None => "%!w(<nil>)"
  end.

(** Go's ([T], [error]) result pair: exactly one side is meaningful. *)
Definition result (A : Type) : Type := error + A.

(** ** The outside world: HTTP exchanges and the clock

    A call of the client talks to the network and sleeps. Both are recorded
    as events; the network is an oracle deciding the outcome of the next
    exchange from the request and from everything that happened before. *)

Module Net.

Record Request := {
  req_Method : string;
  req_URL : string;
  req_Header : list (string * string);
  req_Body : option string;
}.

(** What [httpClient.Do] followed by [io.ReadAll] can produce. *)
Inductive HttpOutcome :=
| DoFails (err : error)
| ReadFails (StatusCode : Z) (err : error)
| Responds (StatusCode : Z) (respBody : string).

(** [time.Duration]: nanoseconds. *)
Definition Duration := Z.
Definition Second : Duration := 1000000000.
Definition Hour : Duration := 3600 * Second.

Inductive Event :=
| Exchange (req : Request) (out : HttpOutcome)
| Sleep (d : Duration).

Definition Network := list Event -> Request -> HttpOutcome.

(** A computation reads the network oracle and extends the history. *)
Definition IO (A : Type) : Type := Network -> list Event -> A * list Event.

#[global] Instance IO_ret : MRet IO := fun A a _ h => (a, h).
#[global] Instance IO_bind : MBind IO :=
  fun A B k m net h => let '(a, h') := m net h in k a net h'.

(** [c.httpClient.Do(req)] and the read of the body. *)
Definition httpDo (req : Request) : IO HttpOutcome :=
  fun net h => let out := net h req in (out, h ++ [Exchange req out]).

(** [time.Sleep(d)]. *)
Definition sleep (d : Duration) : IO unit :=
  fun _ h => (tt, h ++ [Sleep d]).

(** Running a computation from an empty history. *)
Definition run {A} (m : IO A) (net : Network) : A * list Event := m net [].

Definition exchanges (h : list Event) : list (Request * HttpOutcome) :=
  omap (fun e => match e with Exchange r o => Some (r, o) | Sleep _ => None end) h.
Definition sleeps (h : list Event) : list Duration :=
  omap (fun e => match e with Sleep d => Some d | Exchange _ _ => None end) h.

End Net.

(** ** Package time of the Go standard library

    What the tools use of it: parsing with the layout [2006-01-02],
    formatting with the layout [2006-01], and comparing and subtracting the
    resulting instants. A parsed date is the instant at midnight UTC of a
    civil date, so an instant is modelled by that date. *)

Module time.

Record Time := {
  Year : Z;
  Month : Z;
  Day : Z;
}.

Definition isDigit (c : ascii) : bool :=
  (48 <=? Z.of_nat (nat_of_ascii c)) && (Z.of_nat (nat_of_ascii c) <=? 57).

Definition digitVal (c : ascii) : Z := Z.of_nat (nat_of_ascii c) - 48.

(** The chunk [2006] of a layout: exactly four digits. *)
Definition getLongYear (value : string) : option (Z * string) :=
  match value with
  | String c0 (String c1 (String c2 (String c3 rest))) =>
      if isDigit c0 && isDigit c1 && isDigit c2 && isDigit c3
      then Some (((digitVal c0 * 10 + digitVal c1) * 10 + digitVal c2) * 10 + digitVal c3, rest)
      else None
  | _ => None
  end.

(** [getnum(s, true)]: exactly two digits. *)
Definition getnum_fixed (s : string) : option (Z * string) :=
  match s with
  | String c0 (String c1 rest) =>
      if isDigit c0 && isDigit c1 then Some (digitVal c0 * 10 + digitVal c1, rest) else None
  | _ => None
  end.

(** [skip(value, "-")]. *)
Definition skipDash (value : string) : option string :=
  match value with
  | String c rest => if Ascii.eqb c "-" then Some rest else None
  | EmptyString => None
  end.

Definition isLeap (year : Z) : bool :=
  (year mod 4 =? 0) && (negb (year mod 100 =? 0) || (year mod 400 =? 0)).

Definition daysIn (m year : Z) : Z :=
  if m =? 2 then (if isLeap year then 29 else 28)
  else if (m =? 4) || (m =? 6) || (m =? 9) || (m =? 11) then 30
  else 31.

(** The text of a [*time.ParseError], shortened to what went wrong. *)
Definition ParseError (value what : string) : error :=
  Errorf ("parsing time " +:+ value +:+ what).

(** [time.Parse("2006-01-02", value)]. *)
Definition Parse_date (value : string) : result Time :=
  match getLongYear value with
  | None => inl (ParseError value ": cannot parse as 2006")
  | Some (year, value1) =>
  match skipDash value1 with
  | None => inl (ParseError value ": cannot parse as -")
  | Some value2 =>
  match getnum_fixed value2 with
  | None => inl (ParseError value ": cannot parse as 01")
  | Some (month, value3) =>
  if (month <=? 0) || (12 <? month) then inl (ParseError value ": month out of range") else
  match skipDash value3 with
  | None => inl (ParseError value ": cannot parse as -")
  | Some value4 =>
  match getnum_fixed value4 with
  | None => inl (ParseError value ": cannot parse as 02")
  | Some (day, value5) =>
  if negb (String.eqb value5 "") then inl (ParseError value ": extra text")
  else if (day <? 1) || (daysIn month year <? day)
  then inl (ParseError value ": day out of range")
  else inr {| Year := year; Month := month; Day := day |}
  end end end end end.

(** Days from 1970-01-01 to a civil date of the proleptic Gregorian
    calendar. *)
Definition unixDays (t : Time) : Z :=
  let y := if Month t <=? 2 then Year t - 1 else Year t in
  let era := y / 400 in
  let yoe := y - era * 400 in
  let mp := if 2 <? Month t then Month t - 3 else Month t + 9 in
  let doy := (153 * mp + 2) / 5 + Day t - 1 in
  let doe := yoe * 365 + yoe / 4 - yoe / 100 + doy in
  era * 146097 + doe - 719468.

(** Nanoseconds since the Unix epoch. *)
Definition unixNano (t : Time) : Z := unixDays t * 24 * Net.Hour.

(** [t.Before(u)] and [t.After(u)]. *)
Definition Before (t u : Time) : bool := unixNano t <? unixNano u.
Definition After (t u : Time) : bool := unixNano u <? unixNano t.

Definition minDuration : Net.Duration := - 2 ^ 63.
Definition maxDuration : Net.Duration := 2 ^ 63 - 1.

(** [t.Sub(u)]: the difference, saturated at the ends of [Duration]. *)
Definition Sub (t u : Time) : Net.Duration :=
  let d := unixNano t - unixNano u in
  if (minDuration <=? d) && (d <=? maxDuration) then d
  else if Before t u then minDuration
  else maxDuration.

Definition digitChar (d : Z) : ascii := ascii_of_nat (Z.to_nat (48 + d)).

(** A number printed with two, respectively four, digits. *)
Definition fmt2 (n : Z) : string :=
  String (digitChar (n / 10 mod 10)) (String (digitChar (n mod 10)) "").
Definition fmt4 (n : Z) : string :=
  String (digitChar (n / 1000 mod 10)) (String (digitChar (n / 100 mod 10)) (fmt2 n)).

(** [t.Format("2006-01")], for the years a parsed date can have. *)
Definition Format_month (t : Time) : string :=
  fmt4 (Year t) +:+ "-" +:+ fmt2 (Month t).

(** [t.Format("2006-01-02")], for the years a parsed date can have. *)
Definition Format_date (t : Time) : string :=
  fmt4 (Year t) +:+ "-" +:+ fmt2 (Month t) +:+ "-" +:+ fmt2 (Day t).

(** A civil date that exists, with a four-digit year. *)
Definition ValidDate (t : Time) : Prop :=
  0 <= Year t <= 9999 /\ 1 <= Month t <= 12 /\ 1 <= Day t <= daysIn (Month t) (Year t).

(** The day after a civil date. *)
Definition nextDay (t : Time) : Time :=
  if Day t <? daysIn (Month t) (Year t)
  then {| Year := Year t; Month := Month t; Day := Day t + 1 |}
  else if Month t <? 12
       then {| Year := Year t; Month := Month t + 1; Day := 1 |}
       else {| Year := Year t + 1; Month := 1; Day := 1 |}.

(** [time.Parse("2006-01", value)]; the day of the result is 1. *)
Definition Parse_month (value : string) : result Time :=
  match getLongYear value with
  | None => inl (ParseError value ": cannot parse as 2006")
  | Some (year, value1) =>
  match skipDash value1 with
  | None => inl (ParseError value ": cannot parse as -")
  | Some value2 =>
  match getnum_fixed value2 with
  | None => inl (ParseError value ": cannot parse as 01")
  | Some (month, value3) =>
  if (month <=? 0) || (12 <? month) then inl (ParseError value ": month out of range")
  else if negb (String.eqb value3 "") then inl (ParseError value ": extra text")
  else inr {| Year := year; Month := month; Day := 1 |}
  end end end.

(** [t.AddDate(0, months, 0)], in a location without zone transitions.
    [AddDate] hands the year, the month plus [months] and the day to [Date],
    which normalises the month into 1..12, carrying into the year, and lets
    the days past the end of that month run on into the next one. The day
    of a date is at most 31 and a month has at least 28 days, so the days
    left over fit the next month. *)
Definition AddDate_months (t : Time) (months : Z) : Time :=
  let m := Month t - 1 + months in
  let year := Year t + m / 12 in
  let month := m mod 12 + 1 in
  if Day t <=? daysIn month year then {| Year := year; Month := month; Day := Day t |}
  else
    let day := Day t - daysIn month year in
    if month <? 12 then {| Year := year; Month := month + 1; Day := day |}
    else {| Year := year + 1; Month := 1; Day := day |}.

End time.

(** ** int64 arithmetic *)

Module Int64.

(** The value an [int64] holds after an operation whose exact result is
    [z]: [z] reduced into [-2^63 .. 2^63 - 1]. *)
Definition wrap (z : Z) : Z := (z + 2 ^ 63) mod 2 ^ 64 - 2 ^ 63.

(** [a + b] on [int64]. *)
Definition add (a b : Z) : Z := wrap (a + b).

End Int64.

(** ** Package fmt and package strings of the Go standard library *)

Module fmt.

(** A line feed. *)
Definition nl : string := String (ascii_of_nat 10) "".

(** The verb [%t]. *)
Definition t (b : bool) : string := if b then "true" else "false".

(** [num / den] rounded to the nearest integer, ties to the even one, for
    [0 <= num] and [0 < den]. *)
Definition roundHalfEven (num den : Z) : Z :=
  let q := num / den in
  let r := num mod den in
  if 2 * r <? den then q
  else if den <? 2 * r then q + 1
  else if Z.even q then q else q + 1.

(** The verb [%.2f]: the decimal expansion of the exact value of the
    float, rounded to two decimals, ties to even; the sign is that of the
    float, also when the digits are all zero. *)
Definition f2 (f : float) : string :=
  match Prim2SF f with
  | S754_nan => "NaN"
  | S754_infinity s => if s then "-Inf" else "+Inf"
  | S754_zero s => (if s then "-" else "") +:+ "0.00"
  | S754_finite s m e =>
      let hundredths := if 0 <=? e then Z.pos m * 2 ^ e * 100
                        else roundHalfEven (Z.pos m * 100) (2 ^ (- e)) in
      (if s then "-" else "") +:+ fmt_d (hundredths / 100) +:+ "."
      +:+ time.fmt2 (hundredths mod 100)
  end.

(** [strings.Join(elems, sep)]. *)
Definition Join (elems : list string) (sep : string) : string :=
  match elems with
  | [] => ""
  | first :: rest => fold_left (fun joined e => joined +:+ sep +:+ e) rest first
  end.

End fmt.

(** ** Package ynab: models *)

Module ynab.

(** [APIErrorResponse]: the error envelope of the upstream API. *)
Record APIErrorResponse := {
  err_ID : string;
  err_Name : string;
  err_Detail : string;
}.

Record Account := {
  acc_ID : string;
  acc_Name : string;
  acc_Type : string;
  acc_OnBudget : bool;
  acc_Closed : bool;
  acc_Note : string;
  acc_Balance : Z;
  acc_ClearedBalance : Z;
  acc_UnclearedBalance : Z;
  acc_TransferPayeeID : string;
  acc_DirectImportLinked : bool;
  acc_DirectImportInError : bool;
  acc_Deleted : bool;
}.

Record SubTransaction := {
  sub_ID : string;
  sub_TransactionID : string;
  sub_Amount : Z;
  sub_Memo : string;
  sub_PayeeID : string;
  sub_PayeeName : string;
  sub_CategoryID : string;
  sub_CategoryName : string;
  sub_TransferAccountID : string;
  sub_TransferTransactionID : string;
  sub_Deleted : bool;
}.

Record Transaction := {
  tx_ID : string;
  tx_Date : string;
  tx_Amount : Z;
  tx_Memo : string;
  tx_Cleared : string;
  tx_Approved : bool;
  tx_FlagColor : string;
  tx_FlagName : string;
  tx_AccountID : string;
  tx_AccountName : string;
  tx_PayeeID : string;
  tx_PayeeName : string;
  tx_CategoryID : string;
  tx_CategoryName : string;
  tx_TransferAccountID : string;
  tx_TransferTransactionID : string;
  tx_MatchedTransactionID : string;
  tx_ImportID : string;
  tx_ImportPayeeName : string;
  tx_ImportPayeeNameOriginal : string;
  tx_DebtTransactionType : string;
  tx_Deleted : bool;
  tx_Subtransactions : list SubTransaction;
}.

Record Category := {
  cat_ID : string;
  cat_CategoryGroupID : string;
  cat_CategoryGroupName : string;
  cat_Name : string;
  cat_Hidden : bool;
  cat_OriginalCategoryGroupID : string;
  cat_Note : string;
  cat_Budgeted : Z;
  cat_Activity : Z;
  cat_Balance : Z;
  cat_GoalType : string;
  cat_GoalDay : Z;
  cat_GoalCadence : Z;
  cat_GoalCadenceFrequency : Z;
  cat_GoalCreationMonth : string;
  cat_GoalTarget : Z;
  cat_GoalTargetMonth : string;
  cat_GoalPercentageComplete : Z;
  cat_GoalMonthsToBudget : Z;
  cat_GoalUnderFunded : Z;
  cat_GoalOverallFunded : Z;
  cat_GoalOverallLeft : Z;
  cat_Deleted : bool;
}.

Record CategoryGroup := {
  grp_ID : string;
  grp_Name : string;
  grp_Hidden : bool;
  grp_Deleted : bool;
  grp_Categories : list Category;
}.

Record Payee := {
  payee_ID : string;
  payee_Name : string;
  payee_TransferAccountID : string;
  payee_Deleted : bool;
}.

(** [DateFormat] represents budget date format settings. *)
Record DateFormat := {
  df_Format : string;
}.

(** [CurrencyFormat] represents budget currency format settings. *)
Record CurrencyFormat := {
  cf_ISOCode : string;
  cf_ExampleFormat : string;
  cf_DecimalDigits : Z;
  cf_DecimalSeparator : string;
  cf_SymbolFirst : bool;
  cf_GroupSeparator : string;
  cf_CurrencySymbol : string;
  cf_DisplaySymbol : bool;
}.

(** [Month] represents a budget month. *)
Record Month := {
  mon_Month : string;
  mon_Note : string;
  mon_Income : Z;
  mon_Budgeted : Z;
  mon_Activity : Z;
  mon_ToBeBudgeted : Z;
  mon_AgeOfMoney : Z;
  mon_Deleted : bool;
  mon_Categories : list Category;
}.

(** [ScheduledTransaction] represents a scheduled transaction. *)
Record ScheduledTransaction := {
  st_ID : string;
  st_DateFirst : string;
  st_DateNext : string;
  st_Frequency : string;
  st_Amount : Z;
  st_Memo : string;
  st_FlagColor : string;
  st_FlagName : string;
  st_AccountID : string;
  st_AccountName : string;
  st_PayeeID : string;
  st_PayeeName : string;
  st_CategoryID : string;
  st_CategoryName : string;
  st_TransferAccountID : string;
  st_Deleted : bool;
}.

(** [Budget] represents a YNAB budget; the two pointer fields are
    options. *)
Record Budget := {
  bud_ID : string;
  bud_Name : string;
  bud_LastModifiedOn : string;
  bud_FirstMonth : string;
  bud_LastMonth : string;
  bud_DateFormat : option DateFormat;
  bud_CurrencyFormat : option CurrencyFormat;
  bud_Accounts : list Account;
  bud_Categories : list Category;
  bud_CategoryGroups : list CategoryGroup;
  bud_Payees : list Payee;
  bud_Months : list Month;
  bud_Transactions : list Transaction;
  bud_ScheduledTransactions : list ScheduledTransaction;
}.

(** The zero values of the structs a response is decoded into. *)
Definition zeroTransaction : Transaction :=
  {| tx_ID := ""; tx_Date := ""; tx_Amount := 0; tx_Memo := ""; tx_Cleared := "";
     tx_Approved := false; tx_FlagColor := ""; tx_FlagName := ""; tx_AccountID := "";
     tx_AccountName := ""; tx_PayeeID := ""; tx_PayeeName := ""; tx_CategoryID := "";
     tx_CategoryName := ""; tx_TransferAccountID := ""; tx_TransferTransactionID := "";
     tx_MatchedTransactionID := ""; tx_ImportID := ""; tx_ImportPayeeName := "";
     tx_ImportPayeeNameOriginal := ""; tx_DebtTransactionType := ""; tx_Deleted := false;
     tx_Subtransactions := [] |}.

Definition zeroCategory : Category :=
  {| cat_ID := ""; cat_CategoryGroupID := ""; cat_CategoryGroupName := ""; cat_Name := "";
     cat_Hidden := false; cat_OriginalCategoryGroupID := ""; cat_Note := ""; cat_Budgeted := 0;
     cat_Activity := 0; cat_Balance := 0; cat_GoalType := ""; cat_GoalDay := 0;
     cat_GoalCadence := 0; cat_GoalCadenceFrequency := 0; cat_GoalCreationMonth := "";
     cat_GoalTarget := 0; cat_GoalTargetMonth := ""; cat_GoalPercentageComplete := 0;
     cat_GoalMonthsToBudget := 0; cat_GoalUnderFunded := 0; cat_GoalOverallFunded := 0;
     cat_GoalOverallLeft := 0; cat_Deleted := false |}.

Definition zeroBudget : Budget :=
  {| bud_ID := ""; bud_Name := ""; bud_LastModifiedOn := ""; bud_FirstMonth := "";
     bud_LastMonth := ""; bud_DateFormat := None; bud_CurrencyFormat := None;
     bud_Accounts := []; bud_Categories := []; bud_CategoryGroups := []; bud_Payees := [];
     bud_Months := []; bud_Transactions := []; bud_ScheduledTransactions := [] |}.

(** A transaction with its list of splits replaced. *)
Definition with_Subtransactions (subs : list SubTransaction) (tx : Transaction) : Transaction :=
  {| tx_ID := tx_ID tx; tx_Date := tx_Date tx; tx_Amount := tx_Amount tx;
     tx_Memo := tx_Memo tx; tx_Cleared := tx_Cleared tx; tx_Approved := tx_Approved tx;
     tx_FlagColor := tx_FlagColor tx; tx_FlagName := tx_FlagName tx;
     tx_AccountID := tx_AccountID tx; tx_AccountName := tx_AccountName tx;
     tx_PayeeID := tx_PayeeID tx; tx_PayeeName := tx_PayeeName tx;
     tx_CategoryID := tx_CategoryID tx; tx_CategoryName := tx_CategoryName tx;
     tx_TransferAccountID := tx_TransferAccountID tx;
     tx_TransferTransactionID := tx_TransferTransactionID tx;
     tx_MatchedTransactionID := tx_MatchedTransactionID tx;
     tx_ImportID := tx_ImportID tx; tx_ImportPayeeName := tx_ImportPayeeName tx;
     tx_ImportPayeeNameOriginal := tx_ImportPayeeNameOriginal tx;
     tx_DebtTransactionType := tx_DebtTransactionType tx;
     tx_Deleted := tx_Deleted tx;
     tx_Subtransactions := subs |}.

(** *** Unit conversion helpers *)

(** [MilliunitsToFloat]: [float64(milliunits) / 1000.0]. *)
Definition MilliunitsToFloat (milliunits : Z) : float :=
  (Float64.of_int64 milliunits / 1000)%float.

(** [FloatToMilliunits]: [int64(amount * 1000)]. *)
Definition FloatToMilliunits (amount : float) : Z :=
  Float64.to_int64 (amount * 1000)%float.

(** [FormatCurrency] formats milliunits as a currency string:
    [fmt.Sprintf("$%.2f", MilliunitsToFloat(milliunits))]. *)
Definition FormatCurrency (milliunits : Z) : string :=
  "$" +:+ fmt.f2 (MilliunitsToFloat milliunits).

(** *** API response wrappers *)

Record AccountsResponse := {
  ar_Accounts : list Account;
  ar_ServerKnowledge : Z;
}.

Record TransactionsResponse := {
  tr_Transactions : list Transaction;
  tr_ServerKnowledge : Z;
}.

Record CategoriesResponse := {
  cr_CategoryGroups : list CategoryGroup;
  cr_ServerKnowledge : Z;
}.

Record PayeesResponse := {
  pr_Payees : list Payee;
  pr_ServerKnowledge : Z;
}.

(** [TransactionQuery] holds parameters for querying transactions. *)
Record TransactionQuery := {
  q_SinceDate : string;
  q_Type : string;
}.

(** [BudgetSummaryResponse] wraps the budget list response. *)
Record BudgetSummaryResponse := {
  bsr_Budgets : list Budget;
  bsr_DefaultBudget : option Budget;
}.

(** [BudgetDetailResponse] wraps a single budget response. *)
Record BudgetDetailResponse := {
  bdr_Budget : Budget;
  bdr_ServerKnowledge : Z;
}.

(** [TransactionResponse] wraps a single transaction response. *)
Record TransactionResponse := {
  txr_Transaction : Transaction;
  txr_ServerKnowledge : Z;
}.

(** The anonymous response struct of [GetCategoryByMonth]. *)
Record CategoryResponse := {
  catr_Category : Category;
}.

(** [CreateTransactionRequest] represents a request to create a
    transaction. *)
Record CreateTransactionRequest := {
  ctr_AccountID : string;
  ctr_Date : string;
  ctr_Amount : Z;
  ctr_PayeeID : string;
  ctr_PayeeName : string;
  ctr_CategoryID : string;
  ctr_Memo : string;
  ctr_Cleared : string;
  ctr_Approved : bool;
  ctr_FlagColor : string;
}.

(** [UpdateTransactionRequest] represents a request to update a
    transaction; [Approved] is a pointer. *)
Record UpdateTransactionRequest := {
  utr_AccountID : string;
  utr_Date : string;
  utr_Amount : Z;
  utr_PayeeID : string;
  utr_PayeeName : string;
  utr_CategoryID : string;
  utr_Memo : string;
  utr_Cleared : string;
  utr_Approved : option bool;
  utr_FlagColor : string;
}.

(** *** The client *)

(** [encoding/json], per Go type. *)
Class JsonMarshal (A : Type) := json_Marshal : A -> result string.
Class JsonUnmarshal (A : Type) := json_Unmarshal : string -> result A.

Definition baseURL : string := "https://api.ynab.com/v1".
Definition requestTimeout : Net.Duration := 30 * Net.Second.
Definition maxRetries : Z := 3.

Record Client := {
  accessToken : string;
}.

(** [fmt.Errorf(prefix + "%w", err)] for an [err] that may be nil. *)
Definition Errorf_w (prefix : string) (err : option error) : error :=
  match err with
  | Some e => Wrapf (prefix +:+ Error e) e
  | None => Errorf (prefix +:+ fmt_w None)
  end.

Section client.
(** The parts of the Go runtime the client relies on: the error, if any,
    [http.NewRequest] reports for a method and a URL, [url.QueryEscape],
    and the decoder of the error envelope. *)
Variable http_NewRequest_error : string -> string -> option error.
Variable url_QueryEscape : string -> string.
Context `{!JsonUnmarshal APIErrorResponse}.

Section doRequest.
Context {B R : Type} `{!JsonMarshal B}.
Variable c : Client.
Variables method path : string.
Variable body : option B.
Variable result : option (JsonUnmarshal R).

(** The headers [doRequest] sets, in order. *)
Definition headers : list (string * string) :=
  [("Authorization", "Bearer " +:+ accessToken c)]
  ++ match body with Some _ => [("Content-Type", "application/json")] | None => [] end
  ++ [("Accept", "application/json")].

(** The loop of [doRequest], entered with [attempt] and [lastErr];
    [fuel] counts the iterations left, [maxRetries - attempt]. *)
Fixpoint doRequest_from (fuel : nat) (attempt : Z) (lastErr : option error)
  : Net.IO (error + option R) :=
  match fuel with
  | O =>
      mret (inl (Errorf_w ("request failed after " +:+ fmt_d maxRetries +:+ " attempts: ") lastErr))
  | S fuel' =>
      _ ← (if 0 <? attempt
           then Net.sleep (Z.shiftl 1 (attempt - 1) * Net.Second)
           else mret tt);
      match (match body with
             | Some b => match json_Marshal b with
                         | inl err => inl err
                         | inr jsonBody => inr (Some jsonBody)
                         end
             | None => inr None
             end) with
      | inl err => mret (inl (Wrapf ("failed to marshal request body: " +:+ Error err) err))
      | inr bodyReader =>
          let url := baseURL +:+ path in
          match http_NewRequest_error method url with
          | Some err => mret (inl (Wrapf ("failed to create request: " +:+ Error err) err))
          | None =>
              let req := {| Net.req_Method := method; Net.req_URL := url;
                            Net.req_Header := headers; Net.req_Body := bodyReader |} in
              out ← Net.httpDo req;
              match out with
              | Net.DoFails err =>
                  doRequest_from fuel' (attempt + 1)
                    (Some (Wrapf ("request failed: " +:+ Error err) err))
              | Net.ReadFails _ err =>
                  doRequest_from fuel' (attempt + 1)
                    (Some (Wrapf ("failed to read response: " +:+ Error err) err))
              | Net.Responds StatusCode respBody =>
                  if decide (StatusCode = 429) then
                    doRequest_from fuel' (attempt + 1) (Some (Errorf "rate limit exceeded"))
                  else if 400 <=? StatusCode then
                    match json_Unmarshal (A := APIErrorResponse) respBody with
                    | inr apiErr =>
                        if decide (err_Detail apiErr = "")
                        then mret (inl (Errorf ("YNAB API error: status " +:+ fmt_d StatusCode)))
                        else mret (inl (Errorf ("YNAB API error (" +:+ fmt_d StatusCode +:+ "): "
                                                +:+ err_Detail apiErr)))
                    | inl _ =>
                        mret (inl (Errorf ("YNAB API error: status " +:+ fmt_d StatusCode)))
                    end
                  else
                    match result with
                    | Some unmarshal =>
                        match unmarshal respBody with
                        | inl err => mret (inl (Wrapf ("failed to parse response: " +:+ Error err) err))
                        | inr r => mret (inr (Some r))
                        end
                    | None => mret (inr None)
                    end
              end
          end
      end
  end.

(** [doRequest] executes an HTTP request with retry logic and rate
    limit handling. *)
Definition doRequest : Net.IO (error + option R) :=
  doRequest_from (Z.to_nat maxRetries) 0 None.

(** *** Vocabulary for the properties of [doRequest] *)

(** The request every attempt sends, once the body is marshalled. *)
Definition requestOf (jsonBody : option string) : Net.Request :=
  {| Net.req_Method := method; Net.req_URL := baseURL +:+ path;
     Net.req_Header := headers; Net.req_Body := jsonBody |}.

(** The call can reach the network: the body marshals to [jsonBody]
    (nothing for a nil body), and [http.NewRequest] accepts the method and
    the URL. *)
Definition sendable (jsonBody : option string) : Prop :=
  match body with
  | Some b => exists s, json_Marshal b = inr s /\ jsonBody = Some s
  | None => jsonBody = None
  end
  /\ http_NewRequest_error method (baseURL +:+ path) = None.

(** The events before the exchange of attempt number [attempt]: a sleep of
    [2^(attempt-1)] seconds, except before the first attempt. *)
Definition backoff (attempt : Z) : list Net.Event :=
  if 0 <? attempt then [Net.Sleep (2 ^ (attempt - 1) * Net.Second)] else [].

(** The events of the attempts with the outcomes [outs], from attempt
    number [attempt] on. *)
Fixpoint schedule (req : Net.Request) (attempt : Z) (outs : list Net.HttpOutcome)
  : list Net.Event :=
  match outs with
  | [] => []
  | out :: outs' =>
      backoff attempt ++ [Net.Exchange req out] ++ schedule req (attempt + 1) outs'
  end.

(** The error of a terminal HTTP status: the detail of the error envelope
    when the body parses and the detail is not empty, the status code
    otherwise. *)
Definition terminalError (StatusCode : Z) (respBody : string) : error :=
  match json_Unmarshal (A := APIErrorResponse) respBody with
  | inr apiErr =>
      if decide (err_Detail apiErr = "")
      then Errorf ("YNAB API error: status " +:+ fmt_d StatusCode)
      else Errorf ("YNAB API error (" +:+ fmt_d StatusCode +:+ "): " +:+ err_Detail apiErr)
  | inl _ => Errorf ("YNAB API error: status " +:+ fmt_d StatusCode)
  end.

(** How the call ends on a response that is neither a 429 nor read in
    vain. *)
Definition finish (out : Net.HttpOutcome) : error + option R :=
  match out with
  | Net.Responds StatusCode respBody =>
      if 400 <=? StatusCode then inl (terminalError StatusCode respBody)
      else
        match result with
        | Some unmarshal =>
            match unmarshal respBody with
            | inl err => inl (Wrapf ("failed to parse response: " +:+ Error err) err)
            | inr r => inr (Some r)
            end
        | None => inr None
        end
  | Net.DoFails _ | Net.ReadFails _ _ => inr None
  end.
End doRequest.

(** An outcome after which [doRequest] tries again: a network-level
    failure, a failure to read the response, or the status 429. *)
Definition transient (out : Net.HttpOutcome) : Prop :=
  match out with
  | Net.DoFails _ | Net.ReadFails _ _ => True
  | Net.Responds StatusCode _ => StatusCode = 429
  end.

(** The error [doRequest] keeps in [lastErr] for a transient outcome. *)
Definition transientError (out : Net.HttpOutcome) : error :=
  match out with
  | Net.DoFails err => Wrapf ("request failed: " +:+ Error err) err
  | Net.ReadFails _ err => Wrapf ("failed to read response: " +:+ Error err) err
  | Net.Responds _ _ => Errorf "rate limit exceeded"
  end.

(** [lastErr] after the transient outcomes [outs]. *)
Definition lastErrAfter (lastErr : option error) (outs : list Net.HttpOutcome) : option error :=
  fold_left (fun _ out => Some (transientError out)) outs lastErr.

(** The error returned when the attempts run out. *)
Definition exhausted (lastErr : option error) : error :=
  Errorf_w ("request failed after " +:+ fmt_d maxRetries +:+ " attempts: ") lastErr.

(** Where the message of an error of [doRequest] starts. *)
Definition fromDoRequest (e : error) : Prop :=
  exists rest, Error e = "request failed after " +:+ rest
               \/ Error e = "failed to " +:+ rest
               \/ Error e = "YNAB API error" +:+ rest.

(** A request without a body ([body == nil]). *)
#[local] Instance no_body : JsonMarshal Empty_set := fun b => match b with end.

(** [get] performs a GET request. *)
Definition get {R} (c : Client) (path : string) (result : option (JsonUnmarshal R))
  : Net.IO (error + option R) :=
  doRequest (B := Empty_set) c "GET" path None result.

(** [post] performs a POST request. *)
Definition post {B R} `{!JsonMarshal B} (c : Client) (path : string) (body : option B)
    (result : option (JsonUnmarshal R)) : Net.IO (error + option R) :=
  doRequest c "POST" path body result.

(** [put] performs a PUT request. *)
Definition put {B R} `{!JsonMarshal B} (c : Client) (path : string) (body : option B)
    (result : option (JsonUnmarshal R)) : Net.IO (error + option R) :=
  doRequest c "PUT" path body result.

Context `{!JsonUnmarshal AccountsResponse} `{!JsonUnmarshal CategoriesResponse}
        `{!JsonUnmarshal PayeesResponse} `{!JsonUnmarshal TransactionsResponse}.

(** The value left in [var resp T] after [c.get(path, &resp)] succeeded:
    the decoded body. *)
Definition decoded {T A} (zero : A) (f : T -> A) (r : option T) : A :=
  match r with Some resp => f resp | None => zero end.

(** [ListAccounts] returns all accounts for a budget. *)
Definition ListAccounts (c : Client) (budgetID : string) : Net.IO (result (list Account)) :=
  let path := "/budgets/" +:+ budgetID +:+ "/accounts" in
  r ← get c path (Some json_Unmarshal);
  match r with
  | inl err => mret (inl err)
  | inr resp => mret (inr (decoded [] ar_Accounts resp))
  end.

(** The [range] loop of [GetAccount]: the first account with the ID. *)
Fixpoint scanAccounts (accounts : list Account) (accountID : string) : option Account :=
  match accounts with
  | [] => None
  | account :: rest =>
      if decide (acc_ID account = accountID) then Some account
      else scanAccounts rest accountID
  end.

(** [GetAccount] returns a single account. *)
Definition GetAccount (c : Client) (budgetID accountID : string) : Net.IO (result Account) :=
  r ← ListAccounts c budgetID;
  match r with
  | inl err => mret (inl err)
  | inr accounts =>
      match scanAccounts accounts accountID with
      | Some account => mret (inr account)
      | None => mret (inl (Errorf ("account not found: " +:+ accountID)))
      end
  end.

(** [ListCategories] returns all category groups and categories. *)
Definition ListCategories (c : Client) (budgetID : string)
  : Net.IO (result (list CategoryGroup)) :=
  let path := "/budgets/" +:+ budgetID +:+ "/categories" in
  r ← get c path (Some json_Unmarshal);
  match r with
  | inl err => mret (inl err)
  | inr resp => mret (inr (decoded [] cr_CategoryGroups resp))
  end.

(** The inner loop of [GetCategory], over the categories of one group. *)
Fixpoint scanCategories (categories : list Category) (categoryID : string) : option Category :=
  match categories with
  | [] => None
  | category :: rest =>
      if decide (cat_ID category = categoryID) then Some category
      else scanCategories rest categoryID
  end.

(** The outer loop of [GetCategory], across all groups. *)
Fixpoint scanGroups (categoryGroups : list CategoryGroup) (categoryID : string)
  : option Category :=
  match categoryGroups with
  | [] => None
  | group :: rest =>
      match scanCategories (grp_Categories group) categoryID with
      | Some category => Some category
      | None => scanGroups rest categoryID
      end
  end.

(** [GetCategory] returns a single category by ID. *)
Definition GetCategory (c : Client) (budgetID categoryID : string) : Net.IO (result Category) :=
  r ← ListCategories c budgetID;
  match r with
  | inl err => mret (inl err)
  | inr categoryGroups =>
      match scanGroups categoryGroups categoryID with
      | Some category => mret (inr category)
      | None => mret (inl (Errorf ("category not found: " +:+ categoryID)))
      end
  end.

(** [ListPayees] returns all payees for a budget. *)
Definition ListPayees (c : Client) (budgetID : string) : Net.IO (result (list Payee)) :=
  let path := "/budgets/" +:+ budgetID +:+ "/payees" in
  r ← get c path (Some json_Unmarshal);
  match r with
  | inl err => mret (inl err)
  | inr resp => mret (inr (decoded [] pr_Payees resp))
  end.

(** The [range] loop of [GetPayee]. *)
Fixpoint scanPayees (payees : list Payee) (payeeID : string) : option Payee :=
  match payees with
  | [] => None
  | payee :: rest =>
      if decide (payee_ID payee = payeeID) then Some payee
      else scanPayees rest payeeID
  end.

(** [GetPayee] returns a single payee by ID. *)
Definition GetPayee (c : Client) (budgetID payeeID : string) : Net.IO (result Payee) :=
  r ← ListPayees c budgetID;
  match r with
  | inl err => mret (inl err)
  | inr payees =>
      match scanPayees payees payeeID with
      | Some payee => mret (inr payee)
      | None => mret (inl (Errorf ("payee not found: " +:+ payeeID)))
      end
  end.

(** [params.Encode()] for the two parameters a query can add; the keys
    come out sorted, ["since_date"] before ["type"]. The result is empty
    exactly when no parameter was added. *)
Definition encodeQuery (query : TransactionQuery) : string :=
  let since := if decide (q_SinceDate query = "") then []
               else ["since_date=" +:+ url_QueryEscape (q_SinceDate query)] in
  let type := if decide (q_Type query = "") then []
              else ["type=" +:+ url_QueryEscape (q_Type query)] in
  match (since ++ type)%list with
  | [] => ""
  | [p] => "?" +:+ p
  | p :: p' :: _ => "?" +:+ p +:+ "&" +:+ p'
  end.

Definition withQuery (path : string) (query : option TransactionQuery) : string :=
  match query with
  | Some q => path +:+ encodeQuery q
  | None => path
  end.

(** [ListTransactions] returns all transactions for a budget. *)
Definition ListTransactions (c : Client) (budgetID : string) (query : option TransactionQuery)
  : Net.IO (result (list Transaction)) :=
  let path := withQuery ("/budgets/" +:+ budgetID +:+ "/transactions") query in
  r ← get c path (Some json_Unmarshal);
  match r with
  | inl err => mret (inl err)
  | inr resp => mret (inr (decoded [] tr_Transactions resp))
  end.

(** [ListAccountTransactions] returns all transactions of one account. *)
Definition ListAccountTransactions (c : Client) (budgetID accountID : string)
    (query : option TransactionQuery) : Net.IO (result (list Transaction)) :=
  let path := withQuery ("/budgets/" +:+ budgetID +:+ "/accounts/" +:+ accountID
                         +:+ "/transactions") query in
  r ← get c path (Some json_Unmarshal);
  match r with
  | inl err => mret (inl err)
  | inr resp => mret (inr (decoded [] tr_Transactions resp))
  end.

Context `{!JsonUnmarshal TransactionResponse} `{!JsonUnmarshal BudgetSummaryResponse}
        `{!JsonUnmarshal BudgetDetailResponse} `{!JsonUnmarshal CategoryResponse}.
Context `{!JsonMarshal CreateTransactionRequest} `{!JsonMarshal UpdateTransactionRequest}.

(** [GetTransaction] returns a single transaction. *)
Definition GetTransaction (c : Client) (budgetID transactionID : string)
  : Net.IO (result Transaction) :=
  let path := "/budgets/" +:+ budgetID +:+ "/transactions/" +:+ transactionID in
  r ← get c path (Some json_Unmarshal);
  match r with
  | inl err => mret (inl err)
  | inr resp => mret (inr (decoded zeroTransaction txr_Transaction resp))
  end.

(** [CreateTransaction] creates a new transaction. *)
Definition CreateTransaction (c : Client) (budgetID : string) (req : CreateTransactionRequest)
  : Net.IO (result Transaction) :=
  let path := "/budgets/" +:+ budgetID +:+ "/transactions" in
  r ← post c path (Some req) (Some json_Unmarshal);
  match r with
  | inl err => mret (inl err)
  | inr resp => mret (inr (decoded zeroTransaction txr_Transaction resp))
  end.

(** [UpdateTransaction] updates an existing transaction. *)
Definition UpdateTransaction (c : Client) (budgetID transactionID : string)
    (req : UpdateTransactionRequest) : Net.IO (result Transaction) :=
  let path := "/budgets/" +:+ budgetID +:+ "/transactions/" +:+ transactionID in
  r ← put c path (Some req) (Some json_Unmarshal);
  match r with
  | inl err => mret (inl err)
  | inr resp => mret (inr (decoded zeroTransaction txr_Transaction resp))
  end.

(** [ListBudgets] returns all budgets. *)
Definition ListBudgets (c : Client) : Net.IO (result (list Budget)) :=
  r ← get c "/budgets" (Some json_Unmarshal);
  match r with
  | inl err => mret (inl err)
  | inr resp => mret (inr (decoded [] bsr_Budgets resp))
  end.

(** [GetBudget] returns a single budget with all related entities. *)
Definition GetBudget (c : Client) (budgetID : string) : Net.IO (result Budget) :=
  let path := "/budgets/" +:+ budgetID in
  r ← get c path (Some json_Unmarshal);
  match r with
  | inl err => mret (inl err)
  | inr resp => mret (inr (decoded zeroBudget bdr_Budget resp))
  end.

(** [GetBudgetSettings] returns budget settings. *)
Definition GetBudgetSettings (c : Client) (budgetID : string) : Net.IO (result Budget) :=
  let path := "/budgets/" +:+ budgetID +:+ "/settings" in
  r ← get c path (Some json_Unmarshal);
  match r with
  | inl err => mret (inl err)
  | inr resp => mret (inr (decoded zeroBudget bdr_Budget resp))
  end.

(** [GetCategoryByMonth] returns category details for a specific month. *)
Definition GetCategoryByMonth (c : Client) (budgetID month categoryID : string)
  : Net.IO (result Category) :=
  let path := "/budgets/" +:+ budgetID +:+ "/months/" +:+ month +:+ "/categories/"
              +:+ categoryID in
  r ← get c path (Some json_Unmarshal);
  match r with
  | inl err => mret (inl err)
  | inr resp => mret (inr (decoded zeroCategory catr_Category resp))
  end.

End client.

End ynab.

(** ** Package sort of the Go standard library

    [sort.Slice] is an unstable comparison sort. It is modelled by the
    insertion sort the package runs on short slices: element [i] sinks
    toward the front while it is [less] than its predecessor. The sorted
    prefix is kept reversed, its last element first. *)

Module sort.

Fixpoint sink {A} (less : A -> A -> bool) (x : A) (revPrefix : list A) : list A :=
  match revPrefix with
  | [] => [x]
  | y :: rest => if less x y then y :: sink less x rest else x :: y :: rest
  end.

Definition Slice {A} (less : A -> A -> bool) (data : list A) : list A :=
  rev (fold_left (fun revPrefix x => sink less x revPrefix) data []).

End sort.

(** ** Package tools: helpers of the aggregation tools *)

Module tools.
Import ynab.

(** [isTransfer] checks if a transaction is a transfer. *)
Definition isTransfer (tx : Transaction) : bool :=
  negb (String.eqb (tx_TransferAccountID tx) "").

(** [parseDate] validates and parses a date string in YYYY-MM-DD format. *)
Definition parseDate (dateStr : string) : result time.Time :=
  if String.eqb dateStr "" then inl (Errorf "date string is empty")
  else match time.Parse_date dateStr with
       | inl err => inl (Wrapf ("invalid date format, expected YYYY-MM-DD: " +:+ Error err) err)
       | inr t => inr t
       end.

(** [validateDateRange] checks that dates are valid and the range is
    reasonable; [None] is the nil error. *)
Definition validateDateRange (sinceDate untilDate : string) : option error :=
  match parseDate sinceDate with
  | inl err => Some (Wrapf ("since_date: " +:+ Error err) err)
  | inr since =>
      match parseDate untilDate with
      | inl err => Some (Wrapf ("until_date: " +:+ Error err) err)
      | inr until =>
          if time.Before until since then
            Some (Errorf "until_date must be after since_date")
          else
            let duration := time.Sub until since in
            if 730 * 24 * Net.Hour <? duration then
              Some (Errorf "date range too large (max 2 years), consider using a smaller range for better performance")
            else None
      end
  end.

(** [getMonthString] returns YYYY-MM format for a time. *)
Definition getMonthString (t : time.Time) : string := time.Format_month t.

(** [parseMonth] validates and parses a month string in YYYY-MM format. *)
Definition parseMonth (monthStr : string) : result time.Time :=
  if String.eqb monthStr "" then inl (Errorf "month string is empty")
  else match time.Parse_month monthStr with
       | inl err => inl (Wrapf ("invalid month format, expected YYYY-MM: " +:+ Error err) err)
       | inr t => inr t
       end.

(** [getCurrentMonth] returns the current month in YYYY-MM format; [now]
    is the civil date [time.Now()] reports. *)
Definition getCurrentMonth (now : time.Time) : string := time.Format_month now.

(** The values of the loop variable of [getLastNMonths]: [n-1] down to 0. *)
Definition countdown (n : Z) : list Z := rev (seqZ 0 n).

(** [getLastNMonths] returns the month strings of the last [n] months,
    the current one included; [now] is what its one call of [time.Now()]
    reports. *)
Definition getLastNMonths (now : time.Time) (n : Z) : list string :=
  let n := if n <? 1 then 1 else n in
  let n := if 24 <? n then 24 else n in
  let months := replicate (Z.to_nat n) "" in
  fold_left (fun months i =>
               let monthDate := time.AddDate_months now (- i) in
               <[Z.to_nat (n - 1 - i) := getMonthString monthDate]> months)
            (countdown n) months.

(** [categorySummary] holds aggregated data for a category. *)
Record categorySummary := {
  cs_CategoryID : string;
  cs_CategoryName : string;
  cs_CategoryGroupName : string;
  cs_TotalOutflow : float;
  cs_TotalInflow : float;
  cs_Net : float;
  cs_TransactionCount : Z;
}.

(** [monthSummary] holds aggregated data for a month. *)
Record monthSummary := {
  ms_Month : string;
  ms_TotalOutflow : float;
  ms_TotalInflow : float;
  ms_Net : float;
  ms_TransactionCount : Z;
}.

(** [payeeSummary] holds aggregated data for a payee. *)
Record payeeSummary := {
  ps_PayeeID : string;
  ps_PayeeName : string;
  ps_TotalOutflow : float;
  ps_TotalInflow : float;
  ps_Net : float;
  ps_TransactionCount : Z;
}.

(** [accountBalance] holds account balance information. *)
Record accountBalance := {
  ab_AccountID : string;
  ab_AccountName : string;
  ab_AccountType : string;
  ab_OnBudget : bool;
  ab_Closed : bool;
  ab_ClearedBalance : float;
  ab_UnclearedBalance : float;
  ab_CurrentBalance : float;
}.

(** *** Aggregation by category *)

(** The "Aggregate amounts" block, on a category summary. *)
Definition categoryAdd (summary : categorySummary) (amount : float) : categorySummary :=
  {| cs_CategoryID := cs_CategoryID summary;
     cs_CategoryName := cs_CategoryName summary;
     cs_CategoryGroupName := cs_CategoryGroupName summary;
     cs_TotalOutflow := if (amount <? 0)%float
                        then (cs_TotalOutflow summary + - amount)%float
                        else cs_TotalOutflow summary;
     cs_TotalInflow := if (amount <? 0)%float
                       then cs_TotalInflow summary
                       else (cs_TotalInflow summary + amount)%float;
     cs_Net := (cs_Net summary + amount)%float;
     cs_TransactionCount := cs_TransactionCount summary + 1 |}.

(** The key a transaction is grouped under. *)
Definition categoryKey (tx : Transaction) : string :=
  if String.eqb (tx_CategoryID tx) "" then "uncategorized" else tx_CategoryID tx.

(** The summary created for a key that is not in the map yet. *)
Definition newCategorySummary (categoryID : string) (tx : Transaction) : categorySummary :=
  {| cs_CategoryID := categoryID;
     cs_CategoryName := if String.eqb categoryID "uncategorized"
                        then "Uncategorized" else tx_CategoryName tx;
     cs_CategoryGroupName := "";
     cs_TotalOutflow := 0; cs_TotalInflow := 0; cs_Net := 0;
     cs_TransactionCount := 0 |}.

(** One iteration of the loop of [aggregateByCategory]. *)
Definition categoryStep (summaries : gmap string categorySummary) (tx : Transaction)
  : gmap string categorySummary :=
  if isTransfer tx then summaries
  else if tx_Deleted tx then summaries
  else
    let categoryID := categoryKey tx in
    let summary := match summaries !! categoryID with
                   | Some summary => summary
                   | None => newCategorySummary categoryID tx
                   end in
    let amount := MilliunitsToFloat (tx_Amount tx) in
    <[categoryID := categoryAdd summary amount]> summaries.

(** [aggregateByCategory] groups transactions by category and sums
    amounts. *)
Definition aggregateByCategory (transactions : list Transaction) : gmap string categorySummary :=
  fold_left categoryStep transactions ∅.

(** *** Aggregation by month *)

Definition monthAdd (summary : monthSummary) (amount : float) : monthSummary :=
  {| ms_Month := ms_Month summary;
     ms_TotalOutflow := if (amount <? 0)%float
                        then (ms_TotalOutflow summary + - amount)%float
                        else ms_TotalOutflow summary;
     ms_TotalInflow := if (amount <? 0)%float
                       then ms_TotalInflow summary
                       else (ms_TotalInflow summary + amount)%float;
     ms_Net := (ms_Net summary + amount)%float;
     ms_TransactionCount := ms_TransactionCount summary + 1 |}.

(** [&monthSummary{Month: month}]. *)
Definition newMonthSummary (month : string) : monthSummary :=
  {| ms_Month := month; ms_TotalOutflow := 0; ms_TotalInflow := 0; ms_Net := 0;
     ms_TransactionCount := 0 |}.

(** The first loop of [aggregateByMonth]: all months start at zero. *)
Definition initMonths (months : list string) : gmap string monthSummary :=
  fold_left (fun summaries month => <[month := newMonthSummary month]> summaries) months ∅.

(** One iteration of the second loop of [aggregateByMonth]. *)
Definition monthStep (summaries : gmap string monthSummary) (tx : Transaction)
  : gmap string monthSummary :=
  if isTransfer tx then summaries
  else if tx_Deleted tx then summaries
  else
    match parseDate (tx_Date tx) with
    | inl _ => summaries
    | inr txDate =>
        let month := getMonthString txDate in
        match summaries !! month with
        | None => summaries
        | Some summary =>
            let amount := MilliunitsToFloat (tx_Amount tx) in
            <[month := monthAdd summary amount]> summaries
        end
    end.

(** [aggregateByMonth] groups transactions by month and sums amounts. *)
Definition aggregateByMonth (transactions : list Transaction) (months : list string)
  : gmap string monthSummary :=
  fold_left monthStep transactions (initMonths months).

(** *** Aggregation by payee *)

Definition payeeAdd (summary : payeeSummary) (amount : float) : payeeSummary :=
  {| ps_PayeeID := ps_PayeeID summary;
     ps_PayeeName := ps_PayeeName summary;
     ps_TotalOutflow := if (amount <? 0)%float
                        then (ps_TotalOutflow summary + - amount)%float
                        else ps_TotalOutflow summary;
     ps_TotalInflow := if (amount <? 0)%float
                       then ps_TotalInflow summary
                       else (ps_TotalInflow summary + amount)%float;
     ps_Net := (ps_Net summary + amount)%float;
     ps_TransactionCount := ps_TransactionCount summary + 1 |}.

Definition payeeKey (tx : Transaction) : string :=
  if String.eqb (tx_PayeeID tx) "" then "no-payee" else tx_PayeeID tx.

Definition newPayeeSummary (payeeID : string) (tx : Transaction) : payeeSummary :=
  {| ps_PayeeID := payeeID;
     ps_PayeeName := if String.eqb payeeID "no-payee" then "No Payee" else tx_PayeeName tx;
     ps_TotalOutflow := 0; ps_TotalInflow := 0; ps_Net := 0;
     ps_TransactionCount := 0 |}.

(** One iteration of the loop of [aggregateByPayee]. *)
Definition payeeStep (summaries : gmap string payeeSummary) (tx : Transaction)
  : gmap string payeeSummary :=
  if isTransfer tx then summaries
  else if tx_Deleted tx then summaries
  else
    let payeeID := payeeKey tx in
    let summary := match summaries !! payeeID with
                   | Some summary => summary
                   | None => newPayeeSummary payeeID tx
                   end in
    let amount := MilliunitsToFloat (tx_Amount tx) in
    <[payeeID := payeeAdd summary amount]> summaries.

(** [aggregateByPayee] groups transactions by payee and sums amounts. *)
Definition aggregateByPayee (transactions : list Transaction) : gmap string payeeSummary :=
  fold_left payeeStep transactions ∅.

(** *** The tool handlers

    The arguments of a tool call arrive as [map[string]interface{}]; a
    value is a string, a number ([float64]) or something else. *)

Inductive Arg :=
| ArgString (s : string)
| ArgNumber (n : float)
| ArgOther.

(** [args[key].(string)]. *)
Definition stringArg (args : gmap string Arg) (key : string) : string * bool :=
  match args !! key with
  | Some (ArgString s) => (s, true)
  | _ => ("", false)
  end.

(** [args[key].(float64)]. *)
Definition numberArg (args : gmap string Arg) (key : string) : float * bool :=
  match args !! key with
  | Some (ArgNumber n) => (n, true)
  | _ => (0%float, false)
  end.

(** [*mcp.CallToolResult], as built by [mcp.NewToolResultError] and
    [mcp.NewToolResultText]. *)
Inductive CallToolResult :=
| NewToolResultError (text : string)
| NewToolResultText (text : string).

(** The [result] maps the handlers marshal. *)
Record categoryResult := {
  cr_categories : list categorySummary;
  cr_total_outflow : float;
  cr_total_inflow : float;
  cr_date_range : string * string;
}.

Record payeeResult := {
  pr_payees : list payeeSummary;
  pr_date_range : string * string;
}.

Record balancesResult := {
  br_accounts : list accountBalance;
  br_total_on_budget : float;
  br_total_off_budget : float;
  br_net_worth : float;
}.

(** [json.MarshalIndent(result, "", "  ")] and the final result. *)
Definition formatResult {A} `{!JsonMarshal A} (result : A) : CallToolResult :=
  match json_Marshal result with
  | inl err => NewToolResultError ("Failed to format result: " +:+ Error err)
  | inr jsonResult => NewToolResultText jsonResult
  end.

(** The zero [time.Time], left in [untilTime] if [parseDate] failed. *)
Definition zeroTime : time.Time := {| time.Year := 1; time.Month := 1; time.Day := 1 |}.

(** The "filter to until_date" loop of the category and payee handlers. *)
Definition filterUntil (untilTime : time.Time) (transactions : list Transaction)
  : list Transaction :=
  fold_left (fun filteredTxs tx =>
               match parseDate (tx_Date tx) with
               | inl _ => filteredTxs
               | inr txDate =>
                   if negb (time.After txDate untilTime) then filteredTxs ++ [tx]
                   else filteredTxs
               end) transactions [].

(** The top-N of [get_payee_summary]. *)
Definition topN_of (args : gmap string Arg) : Z :=
  match numberArg args "top_n" with
  | (topNFloat, true) =>
      let topN := Float64.to_int64 topNFloat in
      if topN <? 1 then 20 else topN
  | (_, false) => 20
  end.

(** [payees[:topN]] when [len(payees) > topN]. *)
Definition limitTo {A} (topN : Z) (payees : list A) : list A :=
  if topN <? Z.of_nat (length payees) then take (Z.to_nat topN) payees else payees.

(** The account loop of [get_account_balances]: the balances listed so
    far and the two running totals. *)
Definition balanceOf (account : Account) : accountBalance :=
  {| ab_AccountID := acc_ID account;
     ab_AccountName := acc_Name account;
     ab_AccountType := acc_Type account;
     ab_OnBudget := acc_OnBudget account;
     ab_Closed := acc_Closed account;
     ab_ClearedBalance := MilliunitsToFloat (acc_ClearedBalance account);
     ab_UnclearedBalance := MilliunitsToFloat (acc_UnclearedBalance account);
     ab_CurrentBalance := MilliunitsToFloat (acc_Balance account) |}.

Definition balancesStep (st : list accountBalance * float * float) (account : Account)
  : list accountBalance * float * float :=
  let '(accountBalances, totalOnBudget, totalOffBudget) := st in
  if acc_Deleted account then st
  else
    let balance := balanceOf account in
    let accountBalances := accountBalances ++ [balance] in
    if negb (acc_Closed account) then
      if acc_OnBudget account
      then (accountBalances, (totalOnBudget + ab_CurrentBalance balance)%float, totalOffBudget)
      else (accountBalances, totalOnBudget, (totalOffBudget + ab_CurrentBalance balance)%float)
    else (accountBalances, totalOnBudget, totalOffBudget).

(** The result [get_account_balances] builds from the fetched accounts. *)
Definition accountBalances (accounts : list Account) : balancesResult :=
  let '(accountBalances, totalOnBudget, totalOffBudget) :=
    fold_left balancesStep accounts ([], 0%float, 0%float) in
  {| br_accounts := accountBalances;
     br_total_on_budget := totalOnBudget;
     br_total_off_budget := totalOffBudget;
     br_net_worth := (totalOnBudget + totalOffBudget)%float |}.

(** The collection loop of [get_spending_by_month]: one entry per
    requested month, read from the map. Dereferencing a missing entry
    would panic; that is [None]. *)
Definition monthData (summaries : gmap string monthSummary) (months : list string)
  : option (list monthSummary) :=
  mapM (fun month => summaries !! month) months.

(** A handler returns, or the goroutine panics. *)
Inductive outcome (A : Type) :=
| Returns (a : A)
| Panics (msg : string).
Arguments Returns {A} a.
Arguments Panics {A} msg.

(** The [result] map of [get_spending_by_month]. *)
Record monthResult := {
  mr_months : list monthSummary;
  mr_category_name : string;
  mr_average_monthly_outflow : float;
  mr_average_monthly_inflow : float;
}.

(** The "filter by category" loop of [get_spending_by_month]. *)
Definition filterCategory (categoryID : string) (transactions : list Transaction)
  : list Transaction :=
  fold_left (fun filtered tx =>
               if decide (tx_CategoryID tx = categoryID) then filtered ++ [tx] else filtered)
            transactions [].

(** The collection loop of [get_spending_by_month] with its two running
    totals: [summaries[month]] is dereferenced for every requested month,
    in order; [None] is the panic on a month without an entry. *)
Definition collectMonths (summaries : gmap string monthSummary) (months : list string)
  : option (list monthSummary * float * float) :=
  fold_left (fun st month =>
               match st with
               | None => None
               | Some (monthData, totalOutflow, totalInflow) =>
                   match summaries !! month with
                   | None => None
                   | Some summary =>
                       Some (monthData ++ [summary],
                             (totalOutflow + ms_TotalOutflow summary)%float,
                             (totalInflow + ms_TotalInflow summary)%float)
                   end
               end) months (Some ([], 0%float, 0%float)).

(** [if v, ok := args[key].(string); ok && v != ""]: the value of an
    optional string argument that is present and not empty. *)
Definition optionalArg (args : gmap string Arg) (key : string) : option string :=
  let '(v, ok) := stringArg args key in
  if ok && negb (String.eqb v "") then Some v else None.

(** *** The text tools: what they write for the entities fetched *)

Import fmt.

(** What [list_accounts] writes for the account at index [i]. *)
Definition accountEntry (i : Z) (account : Account) : string :=
  let status := if acc_Closed account then ["CLOSED"] else [] in
  let status := if negb (acc_OnBudget account) then status ++ ["OFF BUDGET"] else status in
  let statusStr := if (0 <? length status)%nat
                   then " [" +:+ Join status ", " +:+ "]" else "" in
  fmt_d (i + 1) +:+ ". " +:+ acc_Name account +:+ statusStr +:+ nl
  +:+ "   ID: " +:+ acc_ID account +:+ nl
  +:+ "   Type: " +:+ acc_Type account +:+ nl
  +:+ "   Balance: " +:+ FormatCurrency (acc_Balance account) +:+ nl
  +:+ "   Cleared: " +:+ FormatCurrency (acc_ClearedBalance account) +:+ nl
  +:+ "   Uncleared: " +:+ FormatCurrency (acc_UnclearedBalance account) +:+ nl
  +:+ (if negb (String.eqb (acc_Note account) "")
       then "   Note: " +:+ acc_Note account +:+ nl else "")
  +:+ nl.

(** The loop of [list_accounts]: the index, the text so far and the two
    totals. *)
Definition listAccountsStep (st : Z * string * Z * Z) (account : Account)
  : Z * string * Z * Z :=
  let '(i, result, onBudgetTotal, offBudgetTotal) := st in
  if acc_Deleted account then (i + 1, result, onBudgetTotal, offBudgetTotal)
  else
    let '(onBudgetTotal, offBudgetTotal) :=
      if negb (acc_OnBudget account)
      then (onBudgetTotal, Int64.add offBudgetTotal (acc_Balance account))
      else (Int64.add onBudgetTotal (acc_Balance account), offBudgetTotal) in
    (i + 1, result +:+ accountEntry i account, onBudgetTotal, offBudgetTotal).

(** The text of [list_accounts] for a list of accounts that is not
    empty. *)
Definition listAccountsText (accounts : list Account) : string :=
  let result := "Found " +:+ fmt_d (Z.of_nat (length accounts)) +:+ " account(s):" +:+ nl +:+ nl in
  let '(_, result, onBudgetTotal, offBudgetTotal) :=
    fold_left listAccountsStep accounts (0, result, 0, 0) in
  result
  +:+ "On Budget Total: " +:+ FormatCurrency onBudgetTotal +:+ nl
  +:+ "Off Budget Total: " +:+ FormatCurrency offBudgetTotal +:+ nl
  +:+ "Net Worth: " +:+ FormatCurrency (Int64.add onBudgetTotal offBudgetTotal) +:+ nl.

(** The text of [get_account_details]. *)
Definition accountDetailsText (account : Account) : string :=
  "Account: " +:+ acc_Name account +:+ nl
  +:+ "ID: " +:+ acc_ID account +:+ nl
  +:+ "Type: " +:+ acc_Type account +:+ nl +:+ nl
  +:+ "Balances:" +:+ nl
  +:+ "  Total: " +:+ FormatCurrency (acc_Balance account) +:+ nl
  +:+ "  Cleared: " +:+ FormatCurrency (acc_ClearedBalance account) +:+ nl
  +:+ "  Uncleared: " +:+ FormatCurrency (acc_UnclearedBalance account) +:+ nl +:+ nl
  +:+ "Status:" +:+ nl
  +:+ "  On Budget: " +:+ fmt.t (acc_OnBudget account) +:+ nl
  +:+ "  Closed: " +:+ fmt.t (acc_Closed account) +:+ nl
  +:+ "  Direct Import Linked: " +:+ fmt.t (acc_DirectImportLinked account) +:+ nl
  +:+ (if acc_DirectImportInError account
       then "  ⚠️  Direct Import Error: true" +:+ nl else "")
  +:+ (if negb (String.eqb (acc_Note account) "")
       then nl +:+ "Note: " +:+ acc_Note account +:+ nl else "").

(** What [list_budgets] writes for the budget at index [i]. *)
Definition budgetEntry (i : Z) (budget : Budget) : string :=
  fmt_d (i + 1) +:+ ". " +:+ bud_Name budget +:+ nl
  +:+ "   ID: " +:+ bud_ID budget +:+ nl
  +:+ "   Last Modified: " +:+ bud_LastModifiedOn budget +:+ nl
  +:+ match bud_CurrencyFormat budget with
      | Some currencyFormat => "   Currency: " +:+ cf_ISOCode currencyFormat +:+ nl
      | None => ""
      end
  +:+ nl.

(** The loop of [list_budgets]. *)
Definition listBudgetsStep (st : Z * string) (budget : Budget) : Z * string :=
  let '(i, result) := st in (i + 1, result +:+ budgetEntry i budget).

Definition listBudgetsText (budgets : list Budget) : string :=
  let result := "Found " +:+ fmt_d (Z.of_nat (length budgets)) +:+ " budget(s):" +:+ nl +:+ nl in
  snd (fold_left listBudgetsStep budgets (0, result)).

(** What [get_budget_details] writes for an account, with its status. *)
Definition budgetAccountLine (account : Account) (status : string) : string :=
  "  - " +:+ acc_Name account +:+ ": " +:+ FormatCurrency (acc_Balance account)
  +:+ status +:+ nl.

(** The account loop of [get_budget_details]: the text so far and the
    two balances. *)
Definition budgetAccountsStep (st : string * Z * Z) (account : Account) : string * Z * Z :=
  let '(result, onBudgetBalance, offBudgetBalance) := st in
  if acc_Deleted account || acc_Closed account then st
  else
    let '(onBudgetBalance, offBudgetBalance) :=
      if acc_OnBudget account
      then (Int64.add onBudgetBalance (acc_Balance account), offBudgetBalance)
      else (onBudgetBalance, Int64.add offBudgetBalance (acc_Balance account)) in
    let status := if acc_Closed account then " [CLOSED]" else "" in
    (result +:+ budgetAccountLine account status, onBudgetBalance, offBudgetBalance).

(** What [get_budget_details] writes for a category group. *)
Definition budgetGroupLine (group : CategoryGroup) : string :=
  "  - " +:+ grp_Name group +:+ " ("
  +:+ fmt_d (Z.of_nat (length (grp_Categories group))) +:+ " categories)" +:+ nl.

(** The category group loop of [get_budget_details]. *)
Definition budgetGroupsStep (result : string) (group : CategoryGroup) : string :=
  if grp_Deleted group || grp_Hidden group then result
  else result +:+ budgetGroupLine group.

(** The payee loop of [get_budget_details]: the payees not deleted. *)
Definition activePayees (payees : list Payee) : Z :=
  fold_left (fun activePayees payee =>
               if negb (payee_Deleted payee) then activePayees + 1 else activePayees)
            payees 0.

(** The text of [get_budget_details]. *)
Definition budgetDetailsText (budget : Budget) : string :=
  let result :=
    "Budget: " +:+ bud_Name budget +:+ nl
    +:+ "ID: " +:+ bud_ID budget +:+ nl
    +:+ "Last Modified: " +:+ bud_LastModifiedOn budget +:+ nl
    +:+ "First Month: " +:+ bud_FirstMonth budget +:+ nl
    +:+ "Last Month: " +:+ bud_LastMonth budget +:+ nl +:+ nl in
  let result :=
    match bud_CurrencyFormat budget with
    | Some currencyFormat =>
        result +:+ "Currency: " +:+ cf_ISOCode currencyFormat +:+ " ("
        +:+ cf_CurrencySymbol currencyFormat +:+ ")" +:+ nl +:+ nl
    | None => result
    end in
  let result :=
    if (0 <? length (bud_Accounts budget))%nat then
      let result := result +:+ "Accounts ("
                    +:+ fmt_d (Z.of_nat (length (bud_Accounts budget))) +:+ "):" +:+ nl in
      let '(result, onBudgetBalance, offBudgetBalance) :=
        fold_left budgetAccountsStep (bud_Accounts budget) (result, 0, 0) in
      result +:+ nl +:+ "On Budget Total: " +:+ FormatCurrency onBudgetBalance +:+ nl
      +:+ "Off Budget Total: " +:+ FormatCurrency offBudgetBalance +:+ nl +:+ nl
    else result in
  let result :=
    if (0 <? length (bud_CategoryGroups budget))%nat then
      let result := result +:+ "Category Groups ("
                    +:+ fmt_d (Z.of_nat (length (bud_CategoryGroups budget))) +:+ "):" +:+ nl in
      fold_left budgetGroupsStep (bud_CategoryGroups budget) result +:+ nl
    else result in
  if (0 <? length (bud_Payees budget))%nat
  then result +:+ "Total Payees: " +:+ fmt_d (activePayees (bud_Payees budget)) +:+ nl
  else result.

(** What [list_transactions] writes for the transaction at index [i]. *)
Definition transactionEntry (i : Z) (tx : Transaction) : string :=
  let clearedSymbol :=
    if String.eqb (tx_Cleared tx) "cleared" then "✓"
    else if String.eqb (tx_Cleared tx) "reconciled" then "🔒"
    else "⚪" in
  let approvalSymbol := if negb (tx_Approved tx) then " [UNAPPROVED]" else "" in
  fmt_d (i + 1) +:+ ". " +:+ tx_Date tx +:+ " " +:+ clearedSymbol +:+ " - "
  +:+ tx_PayeeName tx +:+ approvalSymbol +:+ nl
  +:+ "   ID: " +:+ tx_ID tx +:+ nl
  +:+ "   Amount: " +:+ FormatCurrency (tx_Amount tx) +:+ nl
  +:+ "   Account: " +:+ tx_AccountName tx +:+ nl
  +:+ (if negb (String.eqb (tx_CategoryName tx) "")
       then "   Category: " +:+ tx_CategoryName tx +:+ nl else "")
  +:+ (if negb (String.eqb (tx_Memo tx) "")
       then "   Memo: " +:+ tx_Memo tx +:+ nl else "")
  +:+ nl.

(** The loop of [list_transactions], over the transactions displayed:
    the index, the text so far and the total. *)
Definition listTransactionsStep (st : Z * string * Z) (tx : Transaction) : Z * string * Z :=
  let '(i, result, totalAmount) := st in
  if tx_Deleted tx then (i + 1, result, totalAmount)
  else (i + 1, result +:+ transactionEntry i tx, Int64.add totalAmount (tx_Amount tx)).

(** The text of [list_transactions] for a list of transactions that is
    not empty. *)
Definition listTransactionsText (transactions : list Transaction) : string :=
  let result := "Found " +:+ fmt_d (Z.of_nat (length transactions)) +:+ " transaction(s):"
                +:+ nl +:+ nl in
  let displayCount := Z.of_nat (length transactions) in
  let displayCount := if 50 <? displayCount then 50 else displayCount in
  let '(_, result, totalAmount) :=
    fold_left listTransactionsStep (take (Z.to_nat displayCount) transactions)
              (0, result, 0) in
  let result :=
    if displayCount <? Z.of_nat (length transactions)
    then result +:+ "... and " +:+ fmt_d (Z.of_nat (length transactions) - displayCount)
         +:+ " more transactions (showing most recent " +:+ fmt_d displayCount +:+ ")"
         +:+ nl +:+ nl
    else result in
  result +:+ "Total Amount (displayed): " +:+ FormatCurrency totalAmount +:+ nl.

(** The subtransaction loop of [get_transaction_details]. *)
Definition subtransactionsStep (st : Z * string) (sub : SubTransaction) : Z * string :=
  let '(i, result) := st in
  (i + 1,
   result +:+ "  " +:+ fmt_d (i + 1) +:+ ". " +:+ sub_CategoryName sub +:+ " - "
   +:+ sub_PayeeName sub +:+ ": " +:+ FormatCurrency (sub_Amount sub) +:+ nl
   +:+ (if negb (String.eqb (sub_Memo sub) "")
        then "     Memo: " +:+ sub_Memo sub +:+ nl else "")).

(** The text of [get_transaction_details]. *)
Definition transactionDetailsText (tx : Transaction) : string :=
  let result :=
    "Transaction Details" +:+ nl +:+ nl
    +:+ "Date: " +:+ tx_Date tx +:+ nl
    +:+ "Payee: " +:+ tx_PayeeName tx +:+ nl
    +:+ "Amount: " +:+ FormatCurrency (tx_Amount tx) +:+ nl
    +:+ "Account: " +:+ tx_AccountName tx +:+ nl
    +:+ (if negb (String.eqb (tx_CategoryName tx) "")
         then "Category: " +:+ tx_CategoryName tx +:+ nl else "")
    +:+ (if negb (String.eqb (tx_Memo tx) "") then "Memo: " +:+ tx_Memo tx +:+ nl else "")
    +:+ nl +:+ "Status:" +:+ nl
    +:+ "  Cleared: " +:+ tx_Cleared tx +:+ nl
    +:+ "  Approved: " +:+ fmt.t (tx_Approved tx) +:+ nl
    +:+ (if negb (String.eqb (tx_FlagColor tx) "")
         then "  Flag: " +:+ tx_FlagColor tx +:+ nl else "") in
  let result :=
    if (0 <? length (tx_Subtransactions tx))%nat then
      snd (fold_left subtransactionsStep (tx_Subtransactions tx)
             (0, result +:+ nl +:+ "Split into "
                 +:+ fmt_d (Z.of_nat (length (tx_Subtransactions tx)))
                 +:+ " subtransactions:" +:+ nl))
    else result in
  result +:+ nl +:+ "ID: " +:+ tx_ID tx +:+ nl.

(** The request [create_transaction] builds; [today] is
    [time.Now().Format("2006-01-02")]. *)
Definition createRequest (today : string) (args : gmap string Arg) (accountID : string)
    (amount : float) : CreateTransactionRequest :=
  let '(date, ok) := stringArg args "date" in
  let date := if negb ok || String.eqb date "" then today else date in
  {| ctr_AccountID := accountID;
     ctr_Date := date;
     ctr_Amount := FloatToMilliunits amount;
     ctr_PayeeID := "";
     ctr_PayeeName := match optionalArg args "payee_name" with Some v => v | None => "" end;
     ctr_CategoryID := match optionalArg args "category_id" with Some v => v | None => "" end;
     ctr_Memo := match optionalArg args "memo" with Some v => v | None => "" end;
     ctr_Cleared := match optionalArg args "cleared" with
                    | Some v => v
                    | None => "uncleared"
                    end;
     ctr_Approved := true;
     ctr_FlagColor := "" |}.

(** The text of [create_transaction] and of [update_transaction], after
    their first line. *)
Definition writtenTransactionText (tx : Transaction) : string :=
  "ID: " +:+ tx_ID tx +:+ nl
  +:+ "Date: " +:+ tx_Date tx +:+ nl
  +:+ "Payee: " +:+ tx_PayeeName tx +:+ nl
  +:+ "Amount: " +:+ FormatCurrency (tx_Amount tx) +:+ nl
  +:+ "Account: " +:+ tx_AccountName tx +:+ nl
  +:+ (if negb (String.eqb (tx_CategoryName tx) "")
       then "Category: " +:+ tx_CategoryName tx +:+ nl else "")
  +:+ (if negb (String.eqb (tx_Memo tx) "") then "Memo: " +:+ tx_Memo tx +:+ nl else "").

(** The request [update_transaction] builds: only the fields given. *)
Definition updateRequest (args : gmap string Arg) : UpdateTransactionRequest :=
  {| utr_AccountID := "";
     utr_Date := match optionalArg args "date" with Some v => v | None => "" end;
     utr_Amount := match numberArg args "amount" with
                   | (amount, true) => FloatToMilliunits amount
                   | (_, false) => 0
                   end;
     utr_PayeeID := "";
     utr_PayeeName := match optionalArg args "payee_name" with Some v => v | None => "" end;
     utr_CategoryID := match optionalArg args "category_id" with Some v => v | None => "" end;
     utr_Memo := match optionalArg args "memo" with Some v => v | None => "" end;
     utr_Cleared := match optionalArg args "cleared" with Some v => v | None => "" end;
     utr_Approved := None;
     utr_FlagColor := "" |}.

(** What [list_categories] writes for a category. *)
Definition categoryEntry (category : Category) : string :=
  let overspent := if cat_Balance category <? 0 then " ⚠️ OVERSPENT" else "" in
  "  - " +:+ cat_Name category +:+ overspent +:+ nl
  +:+ "    ID: " +:+ cat_ID category +:+ nl
  +:+ "    Budgeted: " +:+ FormatCurrency (cat_Budgeted category)
  +:+ " | Activity: " +:+ FormatCurrency (cat_Activity category)
  +:+ " | Available: " +:+ FormatCurrency (cat_Balance category) +:+ nl
  +:+ (if negb (String.eqb (cat_GoalType category) "") then
         "    Goal: " +:+ cat_GoalType category
         +:+ (if 0 <? cat_GoalTarget category
              then " - Target: " +:+ FormatCurrency (cat_GoalTarget category) else "")
         +:+ (if 0 <? cat_GoalPercentageComplete category
              then " (" +:+ fmt_d (cat_GoalPercentageComplete category) +:+ "% complete)"
              else "")
         +:+ nl
       else "").

(** The category loop of [list_categories], within one group: the text
    so far, the number of active categories and the three totals. *)
Definition listCategoriesStep (st : string * Z * Z * Z * Z) (category : Category)
  : string * Z * Z * Z * Z :=
  let '(result, activeCategories, totalBudgeted, totalActivity, totalBalance) := st in
  if cat_Deleted category || cat_Hidden category then st
  else
    (result +:+ categoryEntry category, activeCategories + 1,
     Int64.add totalBudgeted (cat_Budgeted category),
     Int64.add totalActivity (cat_Activity category),
     Int64.add totalBalance (cat_Balance category)).

(** The line that opens a group in [list_categories], and the line
    written for a group without an active category. *)
Definition groupHeading (group : CategoryGroup) : string := "📁 " +:+ grp_Name group +:+ nl.
Definition noActiveCategories : string := "  (no active categories)" +:+ nl.

(** The group loop of [list_categories]. *)
Definition listGroupsStep (st : string * Z * Z * Z) (group : CategoryGroup)
  : string * Z * Z * Z :=
  let '(result, totalBudgeted, totalActivity, totalBalance) := st in
  if grp_Deleted group || grp_Hidden group then st
  else
    let result := result +:+ groupHeading group in
    let '(result, activeCategories, totalBudgeted, totalActivity, totalBalance) :=
      fold_left listCategoriesStep (grp_Categories group)
                (result, 0, totalBudgeted, totalActivity, totalBalance) in
    let result := if activeCategories =? 0
                  then result +:+ noActiveCategories else result in
    (result +:+ nl, totalBudgeted, totalActivity, totalBalance).

(** The text of [list_categories] for a list of groups that is not
    empty. *)
Definition listCategoriesText (categoryGroups : list CategoryGroup) : string :=
  let result := "Category Groups and Categories:" +:+ nl +:+ nl in
  let '(result, totalBudgeted, totalActivity, totalBalance) :=
    fold_left listGroupsStep categoryGroups (result, 0, 0, 0) in
  result +:+ "Summary:" +:+ nl
  +:+ "  Total Budgeted: " +:+ FormatCurrency totalBudgeted +:+ nl
  +:+ "  Total Activity: " +:+ FormatCurrency totalActivity +:+ nl
  +:+ "  Total Available: " +:+ FormatCurrency totalBalance +:+ nl.

(** The text of [get_category_details]. *)
Definition categoryDetailsText (category : Category) : string :=
  "Category: " +:+ cat_Name category +:+ nl
  +:+ "ID: " +:+ cat_ID category +:+ nl
  +:+ "Group: " +:+ cat_CategoryGroupName category +:+ nl +:+ nl
  +:+ "Budget Information:" +:+ nl
  +:+ "  Budgeted: " +:+ FormatCurrency (cat_Budgeted category) +:+ nl
  +:+ "  Activity: " +:+ FormatCurrency (cat_Activity category) +:+ nl
  +:+ "  Available: " +:+ FormatCurrency (cat_Balance category) +:+ nl +:+ nl
  +:+ (if cat_Balance category <? 0
       then "⚠️  This category is overspent!" +:+ nl +:+ nl else "")
  +:+ (if negb (String.eqb (cat_GoalType category) "") then
         "Goal Information:" +:+ nl
         +:+ "  Type: " +:+ cat_GoalType category +:+ nl
         +:+ (if 0 <? cat_GoalTarget category
              then "  Target: " +:+ FormatCurrency (cat_GoalTarget category) +:+ nl else "")
         +:+ (if negb (String.eqb (cat_GoalTargetMonth category) "")
              then "  Target Month: " +:+ cat_GoalTargetMonth category +:+ nl else "")
         +:+ (if 0 <? cat_GoalPercentageComplete category
              then "  Progress: " +:+ fmt_d (cat_GoalPercentageComplete category)
                   +:+ "% complete" +:+ nl
              else "")
         +:+ (if 0 <? cat_GoalUnderFunded category
              then "  Under Funded: " +:+ FormatCurrency (cat_GoalUnderFunded category) +:+ nl
              else "")
         +:+ nl
       else "")
  +:+ (if negb (String.eqb (cat_Note category) "")
       then "Note: " +:+ cat_Note category +:+ nl else "").

(** The first loop of [list_payees]: the transfer payees and the regular
    payees, deleted ones left out. *)
Definition separatePayees (payees : list Payee) : list Payee * list Payee :=
  fold_left (fun '(transferPayees, regularPayees) payee =>
               if payee_Deleted payee then (transferPayees, regularPayees)
               else if negb (String.eqb (payee_TransferAccountID payee) "")
                    then (transferPayees ++ [payee], regularPayees)
                    else (transferPayees, regularPayees ++ [payee]))
            payees ([], []).

(** What [list_payees] writes for the regular, respectively the transfer,
    payee at index [i] of its list. *)
Definition regularPayeeEntry (i : Z) (payee : Payee) : string :=
  fmt_d (i + 1) +:+ ". " +:+ payee_Name payee +:+ nl
  +:+ "   ID: " +:+ payee_ID payee +:+ nl.

Definition transferPayeeEntry (i : Z) (payee : Payee) : string :=
  fmt_d (i + 1) +:+ ". " +:+ payee_Name payee +:+ nl
  +:+ "   ID: " +:+ payee_ID payee +:+ nl
  +:+ "   Transfer Account: " +:+ payee_TransferAccountID payee +:+ nl.

(** A display loop of [list_payees]. *)
Definition payeesStep (entry : Z -> Payee -> string) (st : Z * string) (payee : Payee)
  : Z * string :=
  let '(i, result) := st in (i + 1, result +:+ entry i payee).

(** The text of [list_payees] for a list of payees that is not empty. *)
Definition listPayeesText (payees : list Payee) : string :=
  let result := "Found " +:+ fmt_d (Z.of_nat (length payees)) +:+ " payee(s):" +:+ nl +:+ nl in
  let '(transferPayees, regularPayees) := separatePayees payees in
  let result :=
    if (0 <? length regularPayees)%nat
    then snd (fold_left (payeesStep regularPayeeEntry) regularPayees
                (0, result +:+ "Payees:" +:+ nl)) +:+ nl
    else result in
  let result :=
    if (0 <? length transferPayees)%nat
    then snd (fold_left (payeesStep transferPayeeEntry) transferPayees
                (0, result +:+ "Transfer Payees (Account Transfers):" +:+ nl))
    else result in
  result +:+ nl +:+ "Total: " +:+ fmt_d (Z.of_nat (length regularPayees))
  +:+ " regular payees, " +:+ fmt_d (Z.of_nat (length transferPayees))
  +:+ " transfer payees" +:+ nl.

(** *** The budget summary tool *)

(** The entries of the [result] map of [get_budget_summary]; a [nil] is
    [None]. *)
Record budgetCategory := {
  bc_category_id : string;
  bc_category_name : string;
  bc_budgeted : float;
  bc_activity : float;
  bc_available : float;
  bc_goal_target : option float;
  bc_goal_type : option string;
}.

Record budgetGroup := {
  bg_category_group_id : string;
  bg_category_group_name : string;
  bg_categories : list budgetCategory;
}.

Record budgetSummaryResult := {
  bs_month : string;
  bs_category_groups : list budgetGroup;
  bs_age_of_money : option Z;
  bs_to_be_budgeted : option Z;
}.

(** The entry of [get_budget_summary] for a category. *)
Definition summaryCategory (cat : Category) : budgetCategory :=
  {| bc_category_id := cat_ID cat;
     bc_category_name := cat_Name cat;
     bc_budgeted := MilliunitsToFloat (cat_Budgeted cat);
     bc_activity := MilliunitsToFloat (cat_Activity cat);
     bc_available := MilliunitsToFloat (cat_Balance cat);
     bc_goal_target := if 0 <? cat_GoalTarget cat
                       then Some (MilliunitsToFloat (cat_GoalTarget cat))
                       else None;
     bc_goal_type := if negb (String.eqb (cat_GoalType cat) "")
                     then Some (cat_GoalType cat) else None |}.

(** The category loop of [get_budget_summary], within one group. *)
Definition summaryCategoriesStep (categories : list budgetCategory) (cat : Category)
  : list budgetCategory :=
  if cat_Deleted cat || cat_Hidden cat then categories
  else categories ++ [summaryCategory cat].

(** The group loop of [get_budget_summary]. *)
Definition summaryGroupsStep (categoryGroups : list budgetGroup) (group : CategoryGroup)
  : list budgetGroup :=
  if grp_Deleted group || grp_Hidden group then categoryGroups
  else
    let categories := fold_left summaryCategoriesStep (grp_Categories group) [] in
    if (0 <? length categories)%nat
    then categoryGroups ++ [{| bg_category_group_id := grp_ID group;
                               bg_category_group_name := grp_Name group;
                               bg_categories := categories |}]
    else categoryGroups.

Section handlers.
Variable http_NewRequest_error : string -> string -> option error.
Variable url_QueryEscape : string -> string.
Context `{!JsonUnmarshal APIErrorResponse} `{!JsonUnmarshal AccountsResponse}
        `{!JsonUnmarshal CategoriesResponse} `{!JsonUnmarshal PayeesResponse}
        `{!JsonUnmarshal TransactionsResponse}.
Context `{!JsonMarshal categoryResult} `{!JsonMarshal payeeResult}
        `{!JsonMarshal balancesResult}.

(** The order in which [range] visits the entries of a map: every entry
    once, in an order the language leaves open. *)
Variable rangeOrder : forall V, gmap string V -> list (string * V).
Hypothesis rangeOrder_perm : forall V (m : gmap string V), rangeOrder V m ≡ₚ map_to_list m.

#[local] Abbreviation ListTransactions := (ListTransactions http_NewRequest_error url_QueryEscape).
#[local] Abbreviation ListAccountTransactions :=
  (ListAccountTransactions http_NewRequest_error url_QueryEscape).
#[local] Abbreviation ListAccounts := (ListAccounts http_NewRequest_error).

(** The tail of the handler of [get_payee_summary]: aggregate by payee,
    collect the summaries, sort by total outflow descending, limit to
    the top N. *)
Definition rankPayees (topN : Z) (filteredTxs : list Transaction) : list payeeSummary :=
  let summaries := aggregateByPayee filteredTxs in
  let payees := map snd (rangeOrder _ summaries) in
  let payees :=
    sort.Slice (fun pi pj => (ps_TotalOutflow pj <? ps_TotalOutflow pi)%float) payees in
  limitTo topN payees.

(** The handler of [get_spending_by_category], up to the [result] map. *)
Definition getSpendingByCategory_result (client : Client) (args : gmap string Arg)
  : Net.IO (CallToolResult + categoryResult) :=
  let '(budgetID, ok) := stringArg args "budget_id" in
  if negb ok || String.eqb budgetID "" then
    mret (inl (NewToolResultError "budget_id is required"))
  else
  let '(sinceDate, ok) := stringArg args "since_date" in
  if negb ok || String.eqb sinceDate "" then
    mret (inl (NewToolResultError "since_date is required (YYYY-MM-DD format)"))
  else
  let '(untilDate, ok) := stringArg args "until_date" in
  if negb ok || String.eqb untilDate "" then
    mret (inl (NewToolResultError "until_date is required (YYYY-MM-DD format)"))
  else
  match validateDateRange sinceDate untilDate with
  | Some err => mret (inl (NewToolResultError (Error err)))
  | None =>
      let query := {| q_SinceDate := sinceDate; q_Type := "" |} in
      r ← (let '(accountID, ok) := stringArg args "account_id" in
           if ok && negb (String.eqb accountID "")
           then ListAccountTransactions client budgetID accountID (Some query)
           else ListTransactions client budgetID (Some query));
      match r with
      | inl err =>
          mret (inl (NewToolResultError ("Failed to fetch transactions: " +:+ Error err)))
      | inr transactions =>
          let untilTime := match parseDate untilDate with
                           | inr t => t
                           | inl _ => zeroTime
                           end in
          let filteredTxs := filterUntil untilTime transactions in
          let summaries := aggregateByCategory filteredTxs in
          let '(categories, totalOutflow, totalInflow) :=
            fold_left (fun '(categories, totalOutflow, totalInflow) '(_, summary) =>
                         (categories ++ [summary],
                          (totalOutflow + cs_TotalOutflow summary)%float,
                          (totalInflow + cs_TotalInflow summary)%float))
                      (rangeOrder _ summaries) ([], 0%float, 0%float) in
          let categories :=
            sort.Slice (fun ci cj => (cs_TotalOutflow cj <? cs_TotalOutflow ci)%float)
                       categories in
          mret (inr {| cr_categories := categories;
                       cr_total_outflow := totalOutflow;
                       cr_total_inflow := totalInflow;
                       cr_date_range := (sinceDate, untilDate) |})
      end
  end.

(** The handler of [get_spending_by_category]. *)
Definition getSpendingByCategory (client : Client) (args : gmap string Arg)
  : Net.IO CallToolResult :=
  r ← getSpendingByCategory_result client args;
  match r with
  | inl early => mret early
  | inr result => mret (formatResult result)
  end.

(** The handler of [get_payee_summary], up to the [result] map. *)
Definition getPayeeSummary_result (client : Client) (args : gmap string Arg)
  : Net.IO (CallToolResult + payeeResult) :=
  let '(budgetID, ok) := stringArg args "budget_id" in
  if negb ok || String.eqb budgetID "" then
    mret (inl (NewToolResultError "budget_id is required"))
  else
  let '(sinceDate, ok) := stringArg args "since_date" in
  if negb ok || String.eqb sinceDate "" then
    mret (inl (NewToolResultError "since_date is required (YYYY-MM-DD format)"))
  else
  let '(untilDate, ok) := stringArg args "until_date" in
  if negb ok || String.eqb untilDate "" then
    mret (inl (NewToolResultError "until_date is required (YYYY-MM-DD format)"))
  else
  match validateDateRange sinceDate untilDate with
  | Some err => mret (inl (NewToolResultError (Error err)))
  | None =>
      let topN := topN_of args in
      let query := {| q_SinceDate := sinceDate; q_Type := "" |} in
      r ← ListTransactions client budgetID (Some query);
      match r with
      | inl err =>
          mret (inl (NewToolResultError ("Failed to fetch transactions: " +:+ Error err)))
      | inr transactions =>
          let untilTime := match parseDate untilDate with
                           | inr t => t
                           | inl _ => zeroTime
                           end in
          let filteredTxs := filterUntil untilTime transactions in
          let payees := rankPayees topN filteredTxs in
          mret (inr {| pr_payees := payees; pr_date_range := (sinceDate, untilDate) |})
      end
  end.

(** The handler of [get_payee_summary]. *)
Definition getPayeeSummary (client : Client) (args : gmap string Arg)
  : Net.IO CallToolResult :=
  r ← getPayeeSummary_result client args;
  match r with
  | inl early => mret early
  | inr result => mret (formatResult result)
  end.

(** The handler of [get_account_balances], up to the [result] map. *)
Definition getAccountBalances_result (client : Client) (args : gmap string Arg)
  : Net.IO (CallToolResult + balancesResult) :=
  let '(budgetID, ok) := stringArg args "budget_id" in
  if negb ok || String.eqb budgetID "" then
    mret (inl (NewToolResultError "budget_id is required"))
  else
  r ← ListAccounts client budgetID;
  match r with
  | inl err => mret (inl (NewToolResultError ("Failed to fetch accounts: " +:+ Error err)))
  | inr accounts => mret (inr (accountBalances accounts))
  end.

Context `{!JsonMarshal monthResult}.

#[local] Abbreviation GetCategory := (GetCategory http_NewRequest_error).

(** The handler of [get_spending_by_month], up to the [result] map; [now]
    is what the call of [time.Now()] in [getLastNMonths] reports. *)
Definition getSpendingByMonth_result (now : time.Time) (client : Client)
    (args : gmap string Arg) : Net.IO (outcome (CallToolResult + monthResult)) :=
  let '(budgetID, ok) := stringArg args "budget_id" in
  if negb ok || String.eqb budgetID "" then
    mret (Returns (inl (NewToolResultError "budget_id is required")))
  else
  let '(numMonthsFloat, ok) := numberArg args "num_months" in
  if negb ok then
    mret (Returns (inl (NewToolResultError "num_months is required (1-24)")))
  else
  let numMonths := Float64.to_int64 numMonthsFloat in
  if (numMonths <? 1) || (24 <? numMonths) then
    mret (Returns (inl (NewToolResultError "num_months must be between 1 and 24")))
  else
  named ← (let '(catID, ok) := stringArg args "category_id" in
           if ok && negb (String.eqb catID "") then
             r ← GetCategory client budgetID catID;
             match r with
             | inl err =>
                 mret (inl (NewToolResultError ("Failed to fetch category: " +:+ Error err)))
             | inr category => mret (inr (cat_Name category, catID))
             end
           else mret (inr ("All Categories", "")));
  match named with
  | inl early => mret (Returns (inl early))
  | inr (categoryName, categoryID) =>
      let months := getLastNMonths now numMonths in
      match months with
      | [] => mret (Returns (inl (NewToolResultError "Failed to calculate month range")))
      | oldest :: _ =>
          let sinceDate := oldest +:+ "-01" in
          let query := {| q_SinceDate := sinceDate; q_Type := "" |} in
          r ← (let '(accountID, ok) := stringArg args "account_id" in
               if ok && negb (String.eqb accountID "")
               then ListAccountTransactions client budgetID accountID (Some query)
               else ListTransactions client budgetID (Some query));
          match r with
          | inl err =>
              mret (Returns (inl (NewToolResultError
                                    ("Failed to fetch transactions: " +:+ Error err))))
          | inr transactions =>
              let transactions :=
                if negb (String.eqb categoryID "")
                then filterCategory categoryID transactions
                else transactions in
              let summaries := aggregateByMonth transactions months in
              match collectMonths summaries months with
              | None => mret (Panics "invalid memory address or nil pointer dereference")
              | Some (monthData, totalOutflow, totalInflow) =>
                  let '(avgOutflow, avgInflow) :=
                    if 0 <? numMonths
                    then ((totalOutflow / Float64.of_int64 numMonths)%float,
                          (totalInflow / Float64.of_int64 numMonths)%float)
                    else (0%float, 0%float) in
                  mret (Returns (inr {| mr_months := monthData;
                                        mr_category_name := categoryName;
                                        mr_average_monthly_outflow := avgOutflow;
                                        mr_average_monthly_inflow := avgInflow |}))
              end
          end
      end
  end.

(** The handler of [get_spending_by_month]. *)
Definition getSpendingByMonth (now : time.Time) (client : Client) (args : gmap string Arg)
  : Net.IO (outcome CallToolResult) :=
  r ← getSpendingByMonth_result now client args;
  match r with
  | Returns (inl early) => mret (Returns early)
  | Returns (inr result) => mret (Returns (formatResult result))
  | Panics msg => mret (Panics msg)
  end.

Context `{!JsonUnmarshal TransactionResponse} `{!JsonUnmarshal BudgetSummaryResponse}
        `{!JsonUnmarshal BudgetDetailResponse}.
Context `{!JsonMarshal CreateTransactionRequest} `{!JsonMarshal UpdateTransactionRequest}
        `{!JsonMarshal budgetSummaryResult}.

#[local] Abbreviation GetAccount := (GetAccount http_NewRequest_error).
#[local] Abbreviation ListCategories := (ListCategories http_NewRequest_error).
#[local] Abbreviation ListPayees := (ListPayees http_NewRequest_error).
#[local] Abbreviation GetTransaction := (GetTransaction http_NewRequest_error).
#[local] Abbreviation CreateTransaction := (CreateTransaction http_NewRequest_error).
#[local] Abbreviation UpdateTransaction := (UpdateTransaction http_NewRequest_error).
#[local] Abbreviation ListBudgets := (ListBudgets http_NewRequest_error).
#[local] Abbreviation GetBudget := (GetBudget http_NewRequest_error).

(** The handler of [get_budget_summary], up to the [result] map; [now]
    is what the call of [time.Now()] in [getCurrentMonth] reports. *)
Definition getBudgetSummary_result (now : time.Time) (client : Client)
    (args : gmap string Arg) : Net.IO (CallToolResult + budgetSummaryResult) :=
  let '(budgetID, ok) := stringArg args "budget_id" in
  if negb ok || String.eqb budgetID "" then
    mret (inl (NewToolResultError "budget_id is required"))
  else
  let month := getCurrentMonth now in
  match (match optionalArg args "month" with
         | Some monthArg =>
             match parseMonth monthArg with
             | inl err => inl (NewToolResultError ("Invalid month format: " +:+ Error err))
             | inr _ => inr monthArg
             end
         | None => inr month
         end) with
  | inl early => mret (inl early)
  | inr month =>
      r ← GetBudget client budgetID;
      match r with
      | inl err => mret (inl (NewToolResultError ("Failed to fetch budget: " +:+ Error err)))
      | inr budget =>
          let categoryGroups := fold_left summaryGroupsStep (bud_CategoryGroups budget) [] in
          mret (inr {| bs_month := month;
                       bs_category_groups := categoryGroups;
                       bs_age_of_money := None;
                       bs_to_be_budgeted := None |})
      end
  end.

(** The handler of [get_budget_summary]. *)
Definition getBudgetSummary (now : time.Time) (client : Client) (args : gmap string Arg)
  : Net.IO CallToolResult :=
  r ← getBudgetSummary_result now client args;
  match r with
  | inl early => mret early
  | inr result => mret (formatResult result)
  end.

(** The handler of [list_budgets]. *)
Definition listBudgets (client : Client) (args : gmap string Arg) : Net.IO CallToolResult :=
  r ← ListBudgets client;
  match r with
  | inl err => mret (NewToolResultError ("Failed to fetch budgets: " +:+ Error err))
  | inr budgets =>
      if (length budgets =? 0)%nat then mret (NewToolResultText "No budgets found.")
      else mret (NewToolResultText (listBudgetsText budgets))
  end.

(** The handler of [get_budget_details]. *)
Definition getBudgetDetails (client : Client) (args : gmap string Arg)
  : Net.IO CallToolResult :=
  let '(budgetID, ok) := stringArg args "budget_id" in
  if negb ok || String.eqb budgetID "" then mret (NewToolResultError "budget_id is required")
  else
  r ← GetBudget client budgetID;
  match r with
  | inl err => mret (NewToolResultError ("Failed to fetch budget: " +:+ Error err))
  | inr budget => mret (NewToolResultText (budgetDetailsText budget))
  end.

(** The handler of [list_accounts]. *)
Definition listAccounts (client : Client) (args : gmap string Arg) : Net.IO CallToolResult :=
  let '(budgetID, ok) := stringArg args "budget_id" in
  if negb ok || String.eqb budgetID "" then mret (NewToolResultError "budget_id is required")
  else
  r ← ListAccounts client budgetID;
  match r with
  | inl err => mret (NewToolResultError ("Failed to fetch accounts: " +:+ Error err))
  | inr accounts =>
      if (length accounts =? 0)%nat then mret (NewToolResultText "No accounts found.")
      else mret (NewToolResultText (listAccountsText accounts))
  end.

(** The handler of [get_account_details]. *)
Definition getAccountDetails (client : Client) (args : gmap string Arg)
  : Net.IO CallToolResult :=
  let '(budgetID, ok) := stringArg args "budget_id" in
  if negb ok || String.eqb budgetID "" then mret (NewToolResultError "budget_id is required")
  else
  let '(accountID, ok) := stringArg args "account_id" in
  if negb ok || String.eqb accountID "" then mret (NewToolResultError "account_id is required")
  else
  r ← GetAccount client budgetID accountID;
  match r with
  | inl err => mret (NewToolResultError ("Failed to fetch account: " +:+ Error err))
  | inr account => mret (NewToolResultText (accountDetailsText account))
  end.

(** The handler of [list_transactions]. *)
Definition listTransactions (client : Client) (args : gmap string Arg)
  : Net.IO CallToolResult :=
  let '(budgetID, ok) := stringArg args "budget_id" in
  if negb ok || String.eqb budgetID "" then mret (NewToolResultError "budget_id is required")
  else
  let query :=
    {| q_SinceDate := match optionalArg args "since_date" with Some v => v | None => "" end;
       q_Type := match optionalArg args "type" with Some v => v | None => "" end |} in
  r ← match optionalArg args "account_id" with
      | Some accountID => ListAccountTransactions client budgetID accountID (Some query)
      | None => ListTransactions client budgetID (Some query)
      end;
  match r with
  | inl err => mret (NewToolResultError ("Failed to fetch transactions: " +:+ Error err))
  | inr transactions =>
      if (length transactions =? 0)%nat then mret (NewToolResultText "No transactions found.")
      else mret (NewToolResultText (listTransactionsText transactions))
  end.

(** The handler of [get_transaction_details]. *)
Definition getTransactionDetails (client : Client) (args : gmap string Arg)
  : Net.IO CallToolResult :=
  let '(budgetID, ok) := stringArg args "budget_id" in
  if negb ok || String.eqb budgetID "" then mret (NewToolResultError "budget_id is required")
  else
  let '(transactionID, ok) := stringArg args "transaction_id" in
  if negb ok || String.eqb transactionID "" then
    mret (NewToolResultError "transaction_id is required")
  else
  r ← GetTransaction client budgetID transactionID;
  match r with
  | inl err => mret (NewToolResultError ("Failed to fetch transaction: " +:+ Error err))
  | inr tx => mret (NewToolResultText (transactionDetailsText tx))
  end.

(** The handler of [create_transaction]; [now] is what [time.Now()]
    reports. *)
Definition createTransaction (now : time.Time) (client : Client) (args : gmap string Arg)
  : Net.IO CallToolResult :=
  let '(budgetID, ok) := stringArg args "budget_id" in
  if negb ok || String.eqb budgetID "" then mret (NewToolResultError "budget_id is required")
  else
  let '(accountID, ok) := stringArg args "account_id" in
  if negb ok || String.eqb accountID "" then mret (NewToolResultError "account_id is required")
  else
  let '(amount, ok) := numberArg args "amount" in
  if negb ok then mret (NewToolResultError "amount is required and must be a number")
  else
  let req := createRequest (time.Format_date now) args accountID amount in
  r ← CreateTransaction client budgetID req;
  match r with
  | inl err => mret (NewToolResultError ("Failed to create transaction: " +:+ Error err))
  | inr tx =>
      mret (NewToolResultText ("Transaction created successfully!" +:+ fmt.nl +:+ fmt.nl
                               +:+ writtenTransactionText tx))
  end.

(** The handler of [update_transaction]. *)
Definition updateTransaction (client : Client) (args : gmap string Arg)
  : Net.IO CallToolResult :=
  let '(budgetID, ok) := stringArg args "budget_id" in
  if negb ok || String.eqb budgetID "" then mret (NewToolResultError "budget_id is required")
  else
  let '(transactionID, ok) := stringArg args "transaction_id" in
  if negb ok || String.eqb transactionID "" then
    mret (NewToolResultError "transaction_id is required")
  else
  let req := updateRequest args in
  r ← UpdateTransaction client budgetID transactionID req;
  match r with
  | inl err => mret (NewToolResultError ("Failed to update transaction: " +:+ Error err))
  | inr tx =>
      mret (NewToolResultText ("Transaction updated successfully!" +:+ fmt.nl +:+ fmt.nl
                               +:+ writtenTransactionText tx
                               +:+ "Cleared: " +:+ tx_Cleared tx +:+ fmt.nl))
  end.

(** The handler of [list_categories]. *)
Definition listCategories (client : Client) (args : gmap string Arg)
  : Net.IO CallToolResult :=
  let '(budgetID, ok) := stringArg args "budget_id" in
  if negb ok || String.eqb budgetID "" then mret (NewToolResultError "budget_id is required")
  else
  r ← ListCategories client budgetID;
  match r with
  | inl err => mret (NewToolResultError ("Failed to fetch categories: " +:+ Error err))
  | inr categoryGroups =>
      if (length categoryGroups =? 0)%nat
      then mret (NewToolResultText "No category groups found.")
      else mret (NewToolResultText (listCategoriesText categoryGroups))
  end.

(** The handler of [get_category_details]. *)
Definition getCategoryDetails (client : Client) (args : gmap string Arg)
  : Net.IO CallToolResult :=
  let '(budgetID, ok) := stringArg args "budget_id" in
  if negb ok || String.eqb budgetID "" then mret (NewToolResultError "budget_id is required")
  else
  let '(categoryID, ok) := stringArg args "category_id" in
  if negb ok || String.eqb categoryID "" then
    mret (NewToolResultError "category_id is required")
  else
  r ← GetCategory client budgetID categoryID;
  match r with
  | inl err => mret (NewToolResultError ("Failed to fetch category: " +:+ Error err))
  | inr category => mret (NewToolResultText (categoryDetailsText category))
  end.

(** The handler of [list_payees]. *)
Definition listPayees (client : Client) (args : gmap string Arg) : Net.IO CallToolResult :=
  let '(budgetID, ok) := stringArg args "budget_id" in
  if negb ok || String.eqb budgetID "" then mret (NewToolResultError "budget_id is required")
  else
  r ← ListPayees client budgetID;
  match r with
  | inl err => mret (NewToolResultError ("Failed to fetch payees: " +:+ Error err))
  | inr payees =>
      if (length payees =? 0)%nat then mret (NewToolResultText "No payees found.")
      else mret (NewToolResultText (listPayeesText payees))
  end.

(** The fetch of the transactions in [get_spending_by_category] and
    [get_spending_by_month]: those of one account when [account_id] is
    given, those of the whole budget otherwise. *)
Definition transactionsCall (client : Client) (args : gmap string Arg) (budgetID : string)
    (query : option TransactionQuery) : Net.IO (result (list Transaction)) :=
  match optionalArg args "account_id" with
  | Some accountID => ListAccountTransactions client budgetID accountID query
  | None => ListTransactions client budgetID query
  end.

End handlers.

(** *** Vocabulary for the properties of the aggregation *)

(** A transaction the shared exclusion rule lets through. *)
Definition counted (tx : Transaction) : Prop :=
  tx_TransferAccountID tx = "" /\ tx_Deleted tx = false.

(** The month bucket a transaction is counted in, if any. *)
Definition monthOf (tx : Transaction) : option string :=
  if isTransfer tx then None
  else if tx_Deleted tx then None
  else match parseDate (tx_Date tx) with
       | inl _ => None
       | inr txDate => Some (getMonthString txDate)
       end.

(** The month buckets are those of the supplied months, each under its own
    month string. *)
Definition month_keyed (months : list string) (summaries : gmap string monthSummary) : Prop :=
  forall m, match summaries !! m with
            | Some s => m ∈ months /\ ms_Month s = m
            | None => m ∉ months
            end.

(** What holds of the payee bucket stored under [key]. *)
Definition payee_ok (key : string) (s : payeeSummary) : Prop :=
  ps_PayeeID s = key
  /\ Float64.nonneg_class (ps_TotalOutflow s)
  /\ (key = "no-payee" -> ps_PayeeName s = "No Payee").

(** [a] may stand before [b] in a list sorted by total outflow,
    descending. *)
Definition by_outflow_desc (a b : payeeSummary) : Prop :=
  (ps_TotalOutflow b <=? ps_TotalOutflow a)%float = true.

(** The top-N as the specification words it: 20 when [top_n] is absent, the
    supplied value raised to at least 1 otherwise. *)
Definition spec_topN (args : gmap string Arg) : Z :=
  match numberArg args "top_n" with
  | (topNFloat, true) => Z.max 1 (Float64.to_int64 topNFloat)
  | (_, false) => 20
  end.

(** The sum of the displayed balances of [accounts], in list order, on top
    of [start]. *)
Definition sumBalances (start : float) (accounts : list Account) : float :=
  fold_left (fun total a => (total + MilliunitsToFloat (acc_Balance a))%float) accounts start.

(** The accounts that are listed, and those that count toward the
    on-budget ([true]) or the off-budget ([false]) total. *)
Definition listed (a : Account) : Prop := acc_Deleted a = false.
Definition inTotals (onBudget : bool) (a : Account) : Prop :=
  acc_Deleted a = false /\ acc_Closed a = false /\ acc_OnBudget a = onBudget.

(** The number of months [getLastNMonths] returns for [n]. *)
Definition clampMonths (n : Z) : Z := Z.max 1 (Z.min 24 n).

(** Months counted from year 0: the index of the month of a date, and the
    first day of the month with an index. *)
Definition monthIndex (t : time.Time) : Z := 12 * time.Year t + time.Month t - 1.
Definition ofMonthIndex (i : Z) : time.Time :=
  {| time.Year := i / 12; time.Month := i mod 12 + 1; time.Day := 1 |}.

(** The number of days of the month before that of a date. *)
Definition previousMonthDays (t : time.Time) : Z :=
  if time.Month t =? 1 then time.daysIn 12 (time.Year t - 1)
  else time.daysIn (time.Month t - 1) (time.Year t).

(** The sums of the outflows and of the inflows of month buckets, added
    up in list order from zero. *)
Definition sumOutflow (data : list monthSummary) : float :=
  fold_left (fun total b => (total + ms_TotalOutflow b)%float) data 0%float.
Definition sumInflow (data : list monthSummary) : float :=
  fold_left (fun total b => (total + ms_TotalInflow b)%float) data 0%float.

(** A transaction the "filter to until_date" loop keeps: its date parses
    and is not after [untilTime]. *)
Definition keptUntil (untilTime : time.Time) (tx : Transaction) : bool :=
  match parseDate (tx_Date tx) with
  | inr txDate => time.unixDays txDate <=? time.unixDays untilTime
  | inl _ => false
  end.

(** What holds of the category bucket stored under [key]. *)
Definition category_ok (key : string) (s : categorySummary) : Prop :=
  cs_CategoryID s = key
  /\ Float64.nonneg_class (cs_TotalOutflow s)
  /\ cs_CategoryGroupName s = ""
  /\ (key = "uncategorized" -> cs_CategoryName s = "Uncategorized").

(** [a] may stand before [b] in a list of categories sorted by total
    outflow, descending. *)
Definition by_category_outflow_desc (a b : categorySummary) : Prop :=
  (cs_TotalOutflow b <=? cs_TotalOutflow a)%float = true.

(** A category, respectively a category group, that is neither deleted
    nor hidden. *)
Definition visibleCategory (c : Category) : bool := negb (cat_Deleted c || cat_Hidden c).
Definition visibleGroup (g : CategoryGroup) : bool := negb (grp_Deleted g || grp_Hidden g).

(** The group [get_budget_summary] shows for a category group, if any:
    none for a group that is deleted, hidden, or without a visible
    category. *)
Definition shownGroup (g : CategoryGroup) : option budgetGroup :=
  if visibleGroup g then
    match map summaryCategory (List.filter visibleCategory (grp_Categories g)) with
    | [] => None
    | categories => Some {| bg_category_group_id := grp_ID g;
                            bg_category_group_name := grp_Name g;
                            bg_categories := categories |}
    end
  else None.

(** The sum of [f] over a list, as an exact integer. *)
Definition sumZ {A} (f : A -> Z) (l : list A) : Z := fold_right (fun x total => f x + total) 0 l.

(** The concatenation of strings. *)
Definition concatStrings (l : list string) : string := fold_right String.append "" l.

(** The elements of a list, each with its index, counted from [i0],
    respectively from 0. *)
Definition indexedFrom {A} (i0 : Z) (l : list A) : list (Z * A) :=
  imap (fun k x => (i0 + Z.of_nat k, x)) l.


(** The accounts [get_budget_details] lists: neither deleted nor closed. *)
Definition openAccount (a : Account) : bool := negb (acc_Deleted a || acc_Closed a).

Definition livePayee (p : Payee) : bool := negb (payee_Deleted p).




(** The three required string arguments are present and not empty. *)
Definition requiredArgs (args : gmap string Arg) (budgetID sinceDate untilDate : string) : Prop :=
  args !! "budget_id" = Some (ArgString budgetID) /\ budgetID <> ""
  /\ args !! "since_date" = Some (ArgString sinceDate) /\ sinceDate <> ""
  /\ args !! "until_date" = Some (ArgString untilDate) /\ untilDate <> "".

(** *** Vocabulary for the buckets and for the requests of a tool *)

(** The amount of a transaction as the aggregation adds it. *)
Definition amountOf (tx : Transaction) : float := MilliunitsToFloat (tx_Amount tx).

(** The transactions counted under the category key, the payee key and
    the month [k]. *)
Definition inCategory (k : string) (tx : Transaction) : bool :=
  negb (isTransfer tx) && negb (tx_Deleted tx) && String.eqb (categoryKey tx) k.

Definition inPayee (k : string) (tx : Transaction) : bool :=
  negb (isTransfer tx) && negb (tx_Deleted tx) && String.eqb (payeeKey tx) k.

Definition inMonth (k : string) (tx : Transaction) : bool :=
  match monthOf tx with
  | Some month => String.eqb month k
  | None => false
  end.

(** A bucket as the additions leave it: the amounts of the transactions
    [own] added, in order, to the summary [init] when there is one and
    otherwise to the summary made for the first of [own]. *)
Definition bucketFrom {S} (add : S -> float -> S) (new : Transaction -> S)
    (init : option S) (own : list Transaction) : option S :=
  match init, own with
  | Some s, _ => Some (fold_left add (map amountOf own) s)
  | None, [] => None
  | None, first :: _ => Some (fold_left add (map amountOf own) (new first))
  end.

(** Whatever the network answers, the computation [m] only adds to the
    history: at most [n] exchanges, each of a request with the method
    [method], and sleeps of at most [n] seconds in all. *)
Definition sends {A} (method : string) (n : nat) (m : Net.IO A) : Prop :=
  forall net h, exists rest,
    snd (m net h) = h ++ rest
    /\ Forall (fun e => Net.req_Method (fst e) = method) (Net.exchanges rest)
    /\ (length (Net.exchanges rest) <= n)%nat
    /\ sumZ id (Net.sleeps rest) <= Z.of_nat n * Net.Second.

End tools.

(** ** Concrete data for the examples *)

Module examples.
Import ynab tools.

Definition mkTransaction (id date : string) (amount : Z) (payeeID categoryID transferAccountID : string)
    (deleted : bool) (subs : list SubTransaction) : Transaction :=
  {| tx_ID := id; tx_Date := date; tx_Amount := amount; tx_Memo := ""; tx_Cleared := "cleared";
     tx_Approved := true; tx_FlagColor := ""; tx_FlagName := "";
     tx_AccountID := "acct"; tx_AccountName := "Checking";
     tx_PayeeID := payeeID; tx_PayeeName := payeeID;
     tx_CategoryID := categoryID; tx_CategoryName := categoryID;
     tx_TransferAccountID := transferAccountID; tx_TransferTransactionID := "";
     tx_MatchedTransactionID := ""; tx_ImportID := ""; tx_ImportPayeeName := "";
     tx_ImportPayeeNameOriginal := ""; tx_DebtTransactionType := "";
     tx_Deleted := deleted; tx_Subtransactions := subs |}.

Definition mkSub (id : string) (amount : Z) (payeeID categoryID : string) : SubTransaction :=
  {| sub_ID := id; sub_TransactionID := "split"; sub_Amount := amount; sub_Memo := "";
     sub_PayeeID := payeeID; sub_PayeeName := payeeID;
     sub_CategoryID := categoryID; sub_CategoryName := categoryID;
     sub_TransferAccountID := ""; sub_TransferTransactionID := ""; sub_Deleted := false |}.

Definition groceries : Transaction :=
  mkTransaction "t1" "2024-01-15" (-45670) "market" "food" "" false [].
Definition salary : Transaction :=
  mkTransaction "t2" "2024-02-01" 1000000 "" "" "" false [].
Definition rent : Transaction :=
  mkTransaction "t3" "2024-02-03" (-900000) "landlord" "housing" "" false [].
Definition removed : Transaction :=
  mkTransaction "t4" "2024-01-20" (-10000) "market" "food" "" true [].
Definition transfer : Transaction :=
  mkTransaction "t5" "2024-01-21" (-250000) "savings" "" "acct-2" false [].
Definition undated : Transaction :=
  mkTransaction "t6" "01/22/2024" (-5000) "market" "food" "" false [].
Definition lastYear : Transaction :=
  mkTransaction "t7" "2023-12-31" (-7000) "market" "food" "" false [].
Definition split : Transaction :=
  mkTransaction "t8" "2024-01-25" (-30000) "market" "food" "" false
    [mkSub "s1" (-20000) "baker" "bread"; mkSub "s2" (-10000) "butcher" "meat"].
Definition unassigned : Transaction :=
  mkTransaction "t9" "2024-01-26" (-12000) "" "" "" false
    [mkSub "s3" (-8000) "baker" "bread"; mkSub "s4" (-4000) "butcher" "meat"].

Definition mkAccount (id : string) (balance : Z) (onBudget closed deleted : bool) : Account :=
  {| acc_ID := id; acc_Name := id; acc_Type := "checking"; acc_OnBudget := onBudget;
     acc_Closed := closed; acc_Note := ""; acc_Balance := balance;
     acc_ClearedBalance := balance; acc_UnclearedBalance := 0;
     acc_TransferPayeeID := ""; acc_DirectImportLinked := false;
     acc_DirectImportInError := false; acc_Deleted := deleted |}.

(** The accounts of the scenario of the specification. *)
Definition scenarioAccounts : list Account :=
  [mkAccount "A" 100000 true false false; mkAccount "B" 50000 false false false;
   mkAccount "C" 99999 true true false].

(** The double quote, and the body [{"error":{"detail":"transaction not
    found"}}]. *)
Definition dq : string := String (ascii_of_nat 34) "".
Definition notFoundBody : string :=
  "{" +:+ dq +:+ "error" +:+ dq +:+ ":{" +:+ dq +:+ "detail" +:+ dq +:+ ":" +:+ dq
  +:+ "transaction not found" +:+ dq +:+ "}}".

(** Decoders that know the bodies of the examples. *)
Definition decodeAPIError : JsonUnmarshal APIErrorResponse :=
  fun body =>
    if String.eqb body notFoundBody
    then inr {| err_ID := ""; err_Name := ""; err_Detail := "transaction not found" |}
    else inl (Errorf "unexpected end of JSON input").

Definition decodeTransactions : JsonUnmarshal TransactionsResponse :=
  fun body => inr {| tr_Transactions := [groceries; rent]; tr_ServerKnowledge := 0 |}.

Definition decodeText : JsonUnmarshal string := fun body => inr body.

Definition encodeCategoryResult : JsonMarshal categoryResult := fun _ => inr "{}".
Definition encodePayeeResult : JsonMarshal payeeResult := fun _ => inr "{}".

Definition acceptAll : string -> string -> option error := fun _ _ => None.

(** A network that refuses the first connection, answers the second
    request with 429 and the third with 200. *)
Definition flakyNet : Net.Network :=
  fun h _ =>
    match length (Net.exchanges h) with
    | O => Net.DoFails (Errorf "dial tcp: connection refused")
    | S O => Net.Responds 429 ""
    | _ => Net.Responds 200 "ok"
    end.

(** A network that is down, and one that knows no transaction. *)
Definition downNet : Net.Network :=
  fun _ _ => Net.DoFails (Errorf "dial tcp: connection refused").
Definition notFoundNet : Net.Network :=
  fun _ _ => Net.Responds 404 notFoundBody.

Definition client : Client := {| accessToken := "token" |}.

(** Some map iteration order: that of [map_to_list]. *)
Definition listOrder : forall V, gmap string V -> list (string * V) :=
  fun V m => map_to_list m.

Definition rangeArgs (sinceDate untilDate : string) : gmap string Arg :=
  {[ "budget_id" := ArgString "budget"; "since_date" := ArgString sinceDate;
     "until_date" := ArgString untilDate ]}.

(** Arguments of [get_payee_summary]: no [top_n], [top_n = 0], [top_n = 1]. *)
Definition noTopN : gmap string Arg := rangeArgs "2024-01-01" "2024-03-31".
Definition zeroTopN : gmap string Arg := <["top_n" := ArgNumber 0]> noTopN.
Definition oneTopN : gmap string Arg := <["top_n" := ArgNumber 1]> noTopN.

(** A payee list with a soft-deleted entry, its decoder, and a network
    that answers every request with 200. *)
Definition corner : Payee :=
  {| payee_ID := "p1"; payee_Name := "Corner shop"; payee_TransferAccountID := "";
     payee_Deleted := false |}.
Definition closedShop : Payee :=
  {| payee_ID := "p2"; payee_Name := "Closed shop"; payee_TransferAccountID := "";
     payee_Deleted := true |}.
Definition decodePayees : JsonUnmarshal PayeesResponse :=
  fun body => inr {| pr_Payees := [corner; closedShop]; pr_ServerKnowledge := 0 |}.
Definition okNet : Net.Network := fun _ _ => Net.Responds 200 "{}".

(** Categories, a category group, a budget, and their decoders. *)
Definition mkCategory (id name : string) (budgeted activity balance : Z) (hidden deleted : bool)
  : Category :=
  {| cat_ID := id; cat_CategoryGroupID := "g"; cat_CategoryGroupName := "Everyday";
     cat_Name := name; cat_Hidden := hidden; cat_OriginalCategoryGroupID := ""; cat_Note := "";
     cat_Budgeted := budgeted; cat_Activity := activity; cat_Balance := balance;
     cat_GoalType := ""; cat_GoalDay := 0; cat_GoalCadence := 0; cat_GoalCadenceFrequency := 0;
     cat_GoalCreationMonth := ""; cat_GoalTarget := 0; cat_GoalTargetMonth := "";
     cat_GoalPercentageComplete := 0; cat_GoalMonthsToBudget := 0; cat_GoalUnderFunded := 0;
     cat_GoalOverallFunded := 0; cat_GoalOverallLeft := 0; cat_Deleted := deleted |}.

Definition food : Category := mkCategory "food" "Food" 500000 (-45670) 454330 false false.
Definition housing : Category := mkCategory "housing" "Housing" 900000 (-900000) 0 false false.
Definition oldHobby : Category := mkCategory "hobby" "Hobby" 0 0 0 true false.

Definition everyday : CategoryGroup :=
  {| grp_ID := "g"; grp_Name := "Everyday"; grp_Hidden := false; grp_Deleted := false;
     grp_Categories := [food; housing; oldHobby] |}.
Definition archive : CategoryGroup :=
  {| grp_ID := "a"; grp_Name := "Archive"; grp_Hidden := false; grp_Deleted := false;
     grp_Categories := [oldHobby] |}.

Definition decodeCategories : JsonUnmarshal CategoriesResponse :=
  fun body => inr {| cr_CategoryGroups := [everyday; archive]; cr_ServerKnowledge := 0 |}.

Definition household : Budget :=
  {| bud_ID := "budget"; bud_Name := "Household"; bud_LastModifiedOn := "";
     bud_FirstMonth := "2024-01-01"; bud_LastMonth := "2024-03-01"; bud_DateFormat := None;
     bud_CurrencyFormat := None; bud_Accounts := scenarioAccounts; bud_Categories := [];
     bud_CategoryGroups := [everyday; archive]; bud_Payees := [corner; closedShop];
     bud_Months := []; bud_Transactions := []; bud_ScheduledTransactions := [] |}.

Definition decodeBudget : JsonUnmarshal BudgetDetailResponse :=
  fun body => inr {| bdr_Budget := household; bdr_ServerKnowledge := 0 |}.

Definition decodeTransaction : JsonUnmarshal TransactionResponse :=
  fun body => inr {| txr_Transaction := groceries; txr_ServerKnowledge := 0 |}.

Definition encodeCreate : JsonMarshal CreateTransactionRequest := fun _ => inr "{}".

(** A network that answers the first request with a response whose body
    cannot be read, and every later one with 201. *)
Definition halfReadNet : Net.Network :=
  fun h _ =>
    match length (Net.exchanges h) with
    | O => Net.ReadFails 201 (Errorf "unexpected EOF")
    | _ => Net.Responds 201 "{}"
    end.

(** Dates of the examples, and arguments of the tools. *)
Definition feb10 : time.Time := {| time.Year := 2024; time.Month := 2; time.Day := 10 |}.
Definition mar15 : time.Time := {| time.Year := 2024; time.Month := 3; time.Day := 15 |}.
Definition mar31 : time.Time := {| time.Year := 2024; time.Month := 3; time.Day := 31 |}.

Definition monthArgs : gmap string Arg :=
  {[ "budget_id" := ArgString "budget"; "num_months" := ArgNumber 2;
     "category_id" := ArgString "food" ]}.

Definition summaryArgs : gmap string Arg :=
  {[ "budget_id" := ArgString "budget"; "month" := ArgString "2023-11" ]}.

Definition createArgs : gmap string Arg :=
  {[ "budget_id" := ArgString "budget"; "account_id" := ArgString "acct";
     "amount" := ArgNumber (-45.5) ]}.

End examples.

(** * Properties *)

Import ynab tools.

(** Proof steps used more than once. *)

(** Linear arithmetic with division and modulo by constants. *)
Ltac div_lia := Z.div_mod_to_equations; lia.

(** The monad of [Net.IO], unfolded. *)
Ltac unfold_io := unfold mbind, Net.IO_bind, mret, Net.IO_ret.

(** A step of an aggregation loop on an excluded transaction; [transfer]
    relates [isTransfer] to the field it tests. *)
Ltac skip_excluded transfer :=
  let Hd := fresh "Hd" in
  let Ht := fresh "Ht" in
  intros [Hd | Ht];
  [rewrite Hd; by destruct (isTransfer _) | apply transfer in Ht; by rewrite Ht].

(** A scan past the entities whose ID differs from the one looked up. *)
Ltac scan_past :=
  induction 1; simpl; [first [by rewrite decide_True | done] | by rewrite decide_False].

(** The components of two tuples built alike are compared one by one. *)
Ltac tuple_eq :=
  repeat match goal with
         | |- (_, _) = (_, _) => f_equal
         end;
  try done; try lia; try (f_equal; lia).

(** ** Dates: parsing, the calendar, and the validation of a range *)

Lemma append_String c (s t : string) : String c s +:+ t = String c (s +:+ t).
Proof. reflexivity. Qed.

Lemma append_assoc (a b c : string) : (a +:+ b) +:+ c = a +:+ (b +:+ c).
Proof. induction a as [|x a IH]; [done|]. rewrite !append_String. by rewrite IH. Qed.

Lemma append_empty_r (a : string) : a +:+ "" = a.
Proof. induction a as [|x a IH]; [done|]. rewrite append_String. by rewrite IH. Qed.

Lemma isDigit_spec c :
  time.isDigit c = true -> 0 <= time.digitVal c <= 9 /\ time.digitChar (time.digitVal c) = c.
Proof.
  unfold time.isDigit, time.digitVal, time.digitChar. intros [H1 H2]%andb_prop.
  apply Z.leb_le in H1, H2. split; [lia|].
  replace (Z.to_nat (48 + (Z.of_nat (nat_of_ascii c) - 48))) with (nat_of_ascii c) by lia.
  apply ascii_nat_embedding.
Qed.

Lemma digitChar_spec d :
  0 <= d <= 9 -> time.isDigit (time.digitChar d) = true /\ time.digitVal (time.digitChar d) = d.
Proof.
  intros H.
  assert (d = 0 \/ d = 1 \/ d = 2 \/ d = 3 \/ d = 4 \/ d = 5 \/ d = 6 \/ d = 7 \/ d = 8 \/ d = 9)
    as Hd by lia.
  repeat (destruct Hd as [-> | Hd]; [by vm_compute|]). subst. by vm_compute.
Qed.

Lemma daysIn_le m y : time.daysIn m y <= 31.
Proof. unfold time.daysIn. repeat case_match; lia. Qed.

Lemma fmt2_digits d0 d1 :
  0 <= d0 <= 9 -> 0 <= d1 <= 9 ->
  time.fmt2 (d0 * 10 + d1) = String (time.digitChar d0) (String (time.digitChar d1) "").
Proof.
  intros H0 H1. unfold time.fmt2.
  replace ((d0 * 10 + d1) / 10 mod 10) with d0 by (div_lia).
  replace ((d0 * 10 + d1) mod 10) with d1 by (div_lia).
  done.
Qed.

Lemma fmt4_digits d0 d1 d2 d3 :
  0 <= d0 <= 9 -> 0 <= d1 <= 9 -> 0 <= d2 <= 9 -> 0 <= d3 <= 9 ->
  time.fmt4 (((d0 * 10 + d1) * 10 + d2) * 10 + d3)
  = String (time.digitChar d0) (String (time.digitChar d1)
      (String (time.digitChar d2) (String (time.digitChar d3) ""))).
Proof.
  intros H0 H1 H2 H3. unfold time.fmt4, time.fmt2.
  set (y := ((d0 * 10 + d1) * 10 + d2) * 10 + d3).
  replace (y / 1000 mod 10) with d0 by (subst y; div_lia).
  replace (y / 100 mod 10) with d1 by (subst y; div_lia).
  replace (y / 10 mod 10) with d2 by (subst y; div_lia).
  replace (y mod 10) with d3 by (subst y; div_lia).
  done.
Qed.

Lemma getLongYear_inv value year rest :
  time.getLongYear value = Some (year, rest) ->
  0 <= year <= 9999 /\ value = time.fmt4 year +:+ rest.
Proof.
  unfold time.getLongYear. destruct value as [|c0 [|c1 [|c2 [|c3 r]]]]; try done.
  destruct (time.isDigit c0) eqn:E0; [|done]. destruct (time.isDigit c1) eqn:E1; [|done].
  destruct (time.isDigit c2) eqn:E2; [|done]. destruct (time.isDigit c3) eqn:E3; [|done].
  simpl. intros [= <- <-].
  apply isDigit_spec in E0 as [R0 C0], E1 as [R1 C1], E2 as [R2 C2], E3 as [R3 C3].
  split; [lia|]. rewrite fmt4_digits by done. by rewrite C0, C1, C2, C3.
Qed.

Lemma getnum_fixed_inv s n rest :
  time.getnum_fixed s = Some (n, rest) -> 0 <= n <= 99 /\ s = time.fmt2 n +:+ rest.
Proof.
  unfold time.getnum_fixed. destruct s as [|c0 [|c1 r]]; try done.
  destruct (time.isDigit c0) eqn:E0; [|done]. destruct (time.isDigit c1) eqn:E1; [|done].
  simpl. intros [= <- <-].
  apply isDigit_spec in E0 as [R0 C0], E1 as [R1 C1].
  split; [lia|]. rewrite fmt2_digits by done. by rewrite C0, C1.
Qed.

Lemma skipDash_inv value rest : time.skipDash value = Some rest -> value = "-" +:+ rest.
Proof.
  destruct value as [|c r]; [done|]. simpl.
  destruct (Ascii.eqb_spec c "-"); [|done]. intros [= <-]. by subst.
Qed.

Lemma skipDash_dash rest : time.skipDash ("-" +:+ rest) = Some rest.
Proof. reflexivity. Qed.

Lemma getLongYear_fmt4 year rest :
  0 <= year <= 9999 -> time.getLongYear (time.fmt4 year +:+ rest) = Some (year, rest).
Proof.
  intros H. unfold time.fmt4, time.fmt2. simpl.
  destruct (digitChar_spec (year / 1000 mod 10)) as [-> ->]; [div_lia|].
  destruct (digitChar_spec (year / 100 mod 10)) as [-> ->]; [div_lia|].
  destruct (digitChar_spec (year / 10 mod 10)) as [-> ->]; [div_lia|].
  destruct (digitChar_spec (year mod 10)) as [-> ->]; [div_lia|].
  simpl. do 2 f_equal. div_lia.
Qed.

Lemma getnum_fixed_fmt2 n rest :
  0 <= n <= 99 -> time.getnum_fixed (time.fmt2 n +:+ rest) = Some (n, rest).
Proof.
  intros H. unfold time.fmt2. simpl.
  destruct (digitChar_spec (n / 10 mod 10)) as [-> ->]; [div_lia|].
  destruct (digitChar_spec (n mod 10)) as [-> ->]; [div_lia|].
  simpl. do 2 f_equal. div_lia.
Qed.

(** Parsing succeeds on the ten-character rendering of a valid date, and on
    nothing else. *)
Lemma Parse_date_inv value t :
  time.Parse_date value = inr t -> time.ValidDate t /\ value = time.Format_date t.
Proof.
  unfold time.Parse_date.
  destruct (time.getLongYear value) as [[year v1]|] eqn:E1; [|done].
  destruct (time.skipDash v1) as [v2|] eqn:E2; [|done].
  destruct (time.getnum_fixed v2) as [[month v3]|] eqn:E3; [|done].
  destruct ((month <=? 0) || (12 <? month)) eqn:Em; [done|].
  destruct (time.skipDash v3) as [v4|] eqn:E4; [|done].
  destruct (time.getnum_fixed v4) as [[day v5]|] eqn:E5; [|done].
  destruct (String.eqb_spec v5 ""); [|done]. simpl.
  destruct ((day <? 1) || (time.daysIn month year <? day)) eqn:Ed; [done|].
  intros [= <-]. apply orb_false_elim in Em as [Em1 Em2], Ed as [Ed1 Ed2].
  apply getLongYear_inv in E1 as [Hy ->]. apply skipDash_inv in E2 as ->.
  apply getnum_fixed_inv in E3 as [_ ->]. apply skipDash_inv in E4 as ->.
  apply getnum_fixed_inv in E5 as [_ ->]. subst v5.
  split; [unfold time.ValidDate; simpl; lia|].
  unfold time.Format_date. simpl time.Year; simpl time.Month; simpl time.Day.
  rewrite ?append_assoc. by rewrite append_empty_r.
Qed.

Lemma Parse_date_Format t : time.ValidDate t -> time.Parse_date (time.Format_date t) = inr t.
Proof.
  intros (Hy & Hm & Hd). pose proof (daysIn_le (time.Month t) (time.Year t)).
  unfold time.Parse_date, time.Format_date. rewrite ?append_assoc.
  rewrite getLongYear_fmt4 by done. rewrite skipDash_dash.
  rewrite getnum_fixed_fmt2 by lia.
  replace ((time.Month t <=? 0) || (12 <? time.Month t)) with false
    by (symmetry; apply orb_false_intro; lia).
  rewrite skipDash_dash. rewrite <- (append_empty_r (time.fmt2 (time.Day t))).
  rewrite getnum_fixed_fmt2 by lia. simpl.
  replace ((time.Day t <? 1) || (time.daysIn (time.Month t) (time.Year t) <? time.Day t))
    with false by (symmetry; apply orb_false_intro; lia).
  by destruct t.
Qed.

(** The day count is the calendar's: it is 0 on 1970-01-01 and grows by one
    from each day to the next, across months, years and leap days. *)
Lemma unixDays_epoch : time.unixDays {| time.Year := 1970; time.Month := 1; time.Day := 1 |} = 0.
Proof. reflexivity. Qed.

Lemma unixDays_nextDay t :
  1 <= time.Month t <= 12 -> 1 <= time.Day t <= time.daysIn (time.Month t) (time.Year t) ->
  time.unixDays (time.nextDay t) = time.unixDays t + 1.
Proof.
  destruct t as [y m d]. simpl. intros Hm Hd. unfold time.nextDay. simpl.
  destruct (Z.ltb_spec d (time.daysIn m y)) as [Hlt|Hge].
  - unfold time.unixDays. simpl. lia.
  - assert (d = time.daysIn m y) as -> by lia. clear Hd Hge.
    assert (m = 1 \/ m = 2 \/ m = 3 \/ m = 4 \/ m = 5 \/ m = 6 \/ m = 7 \/ m = 8 \/ m = 9
            \/ m = 10 \/ m = 11 \/ m = 12) as Hcases by lia.
    unfold time.unixDays, time.daysIn, time.isLeap.
    destruct Hcases as [->|[->|[->|[->|[->|[->|[->|[->|[->|[->|[->| ->]]]]]]]]]]]; simpl;
      repeat match goal with
             | |- context [?a =? ?b] => destruct (Z.eqb_spec a b); simpl
             end;
      div_lia.
Qed.

Lemma parseDate_inr dateStr t :
  parseDate dateStr = inr t <-> time.Parse_date dateStr = inr t.
Proof.
  unfold parseDate. destruct (String.eqb_spec dateStr "") as [->|Hne].
  - split; intros H; [done | by vm_compute in H].
  - destruct (time.Parse_date dateStr); split; congruence.
Qed.

(** [parseDate] accepts exactly the valid calendar dates written
    YYYY-MM-DD. *)
Lemma parseDate_valid dateStr t :
  parseDate dateStr = inr t <-> time.ValidDate t /\ dateStr = time.Format_date t.
Proof.
  rewrite parseDate_inr. split.
  - apply Parse_date_inv.
  - intros [Hv ->]. by apply Parse_date_Format.
Qed.

(** The month key of a parsed date is the date string cut after the
    month. *)
Lemma getMonthString_prefix dateStr t :
  parseDate dateStr = inr t -> getMonthString t = substring 0 7 dateStr.
Proof. intros [_ ->]%parseDate_valid. reflexivity. Qed.

(** Saturation does not change the comparison with the two-year bound. *)
Lemma Sub_too_large until since :
  time.Before until since = false ->
  (730 * 24 * Net.Hour <? time.Sub until since)
  = (730 <? time.unixDays until - time.unixDays since).
Proof.
  unfold time.Before, time.Sub, time.Before, time.unixNano, time.minDuration, time.maxDuration,
    Net.Hour, Net.Second.
  intros Hb%Z.ltb_ge.
  set (du := time.unixDays until) in *. set (ds := time.unixDays since) in *.
  replace (du * 24 * (3600 * 1000000000) <? ds * 24 * (3600 * 1000000000)) with false
    by (symmetry; apply Z.ltb_ge; lia).
  destruct ((- 2 ^ 63 <=? du * 24 * (3600 * 1000000000) - ds * 24 * (3600 * 1000000000))
            && (du * 24 * (3600 * 1000000000) - ds * 24 * (3600 * 1000000000) <=? 2 ^ 63 - 1))
    eqn:E.
  - destruct (Z.ltb_spec 730 (du - ds)); [apply Z.ltb_lt | apply Z.ltb_ge]; lia.
  - apply andb_false_iff in E as [E|E]; [apply Z.leb_gt in E | apply Z.leb_gt in E].
    + lia.
    + transitivity true; [apply Z.ltb_lt; lia | symmetry; apply Z.ltb_lt; lia].
Qed.

Lemma validateDateRange_None sinceDate untilDate :
  validateDateRange sinceDate untilDate = None <->
  exists since until,
    parseDate sinceDate = inr since /\ parseDate untilDate = inr until
    /\ 0 <= time.unixDays until - time.unixDays since <= 730.
Proof.
  unfold validateDateRange.
  destruct (parseDate sinceDate) as [e|since]; [split; [done | by intros (?&?&?&_)]|].
  destruct (parseDate untilDate) as [e|until]; [split; [done | by intros (?&?&_&?&_)]|].
  destruct (time.Before until since) eqn:Hb.
  - split; [done|]. intros (s & u & [= <-] & [= <-] & Hr).
    unfold time.Before, time.unixNano, Net.Hour, Net.Second in Hb. apply Z.ltb_lt in Hb. lia.
  - rewrite Sub_too_large by done.
    unfold time.Before, time.unixNano, Net.Hour, Net.Second in Hb. apply Z.ltb_ge in Hb.
    destruct (Z.ltb_spec 730 (time.unixDays until - time.unixDays since)).
    + split; [done|]. intros (s & u & [= <-] & [= <-] & Hr). lia.
    + split; [|done]. intros _. exists since, until. repeat split; lia.
Qed.

Lemma validateDateRange_Some sinceDate untilDate :
  is_Some (validateDateRange sinceDate untilDate) <->
  (forall t, parseDate sinceDate <> inr t)
  \/ (forall t, parseDate untilDate <> inr t)
  \/ exists since until,
       parseDate sinceDate = inr since /\ parseDate untilDate = inr until
       /\ (time.unixDays until < time.unixDays since
           \/ 730 < time.unixDays until - time.unixDays since).
Proof.
  destruct (validateDateRange sinceDate untilDate) as [err|] eqn:E.
  - split; [intros _|eauto].
    destruct (parseDate sinceDate) as [e|since] eqn:Es; [by left|].
    destruct (parseDate untilDate) as [e|until] eqn:Eu; [by right; left|].
    right; right. exists since, until. split_and!; [done..|].
    destruct (Z.lt_ge_cases (time.unixDays until) (time.unixDays since)) as [|Hge]; [by left|].
    destruct (Z.lt_ge_cases 730 (time.unixDays until - time.unixDays since)) as [|Hle];
      [by right|].
    assert (Hnone : validateDateRange sinceDate untilDate = None).
    { apply validateDateRange_None. exists since, until. split_and!; [done..|lia|lia]. }
    congruence.
  - apply validateDateRange_None in E as (since & until & Hs & Hu & Hr).
    split; [by intros [? ?]|].
    intros [H | [H | (s & u & Hs' & Hu' & Hbad)]].
    + by destruct (H since).
    + by destruct (H until).
    + rewrite Hs in Hs'. rewrite Hu in Hu'. injection Hs' as <-. injection Hu' as <-. lia.
Qed.

Lemma eqb_empty_false s : s <> "" -> String.eqb s "" = false.
Proof. by destruct (String.eqb_spec s ""). Qed.

Section validation_facts.
Variable http_NewRequest_error : string -> string -> option error.
Variable url_QueryEscape : string -> string.
Context `{!JsonUnmarshal APIErrorResponse} `{!JsonUnmarshal TransactionsResponse}.
Context `{!JsonMarshal categoryResult} `{!JsonMarshal payeeResult}.
Variable rangeOrder : forall V, gmap string V -> list (string * V).

#[local] Abbreviation getSpendingByCategory :=
  (getSpendingByCategory http_NewRequest_error url_QueryEscape rangeOrder).
#[local] Abbreviation getPayeeSummary :=
  (getPayeeSummary http_NewRequest_error url_QueryEscape rangeOrder).

(** A rejected range ends both handlers with the validation error, before
    any exchange or sleep. *)
Lemma handlers_reject client args budgetID sinceDate untilDate err net h :
  requiredArgs args budgetID sinceDate untilDate ->
  validateDateRange sinceDate untilDate = Some err ->
  getSpendingByCategory client args net h = (NewToolResultError (Error err), h)
  /\ getPayeeSummary client args net h = (NewToolResultError (Error err), h).
Proof.
  intros (Hb & Hbne & Hs & Hsne & Hu & Hune) Hv.
  unfold tools.getSpendingByCategory, tools.getPayeeSummary,
    getSpendingByCategory_result, getPayeeSummary_result, stringArg.
  rewrite Hb, Hs, Hu, !eqb_empty_false by done. simpl. rewrite Hv. done.
Qed.

(** C5. [parseDate] accepts exactly the valid calendar dates written
    YYYY-MM-DD. [validateDateRange] returns an error exactly when an endpoint
    does not parse, or the end precedes the start, or the end is more than
    730 days after the start; it returns none exactly when both endpoints
    parse and the end is 0 to 730 days after the start, equal endpoints
    included. When it returns an error, the handlers of the category and the
    payee aggregation return that error with the history of network events
    unchanged. The two ranges of the specification are rejected. *)
Theorem date_range_validation (sinceDate untilDate : string) :
  (forall dateStr t,
      parseDate dateStr = inr t <-> time.ValidDate t /\ dateStr = time.Format_date t)
  /\ (is_Some (validateDateRange sinceDate untilDate) <->
      (forall t, parseDate sinceDate <> inr t)
      \/ (forall t, parseDate untilDate <> inr t)
      \/ exists since until,
           parseDate sinceDate = inr since /\ parseDate untilDate = inr until
           /\ (time.unixDays until < time.unixDays since
               \/ 730 < time.unixDays until - time.unixDays since))
  /\ (validateDateRange sinceDate untilDate = None <->
      exists since until,
        parseDate sinceDate = inr since /\ parseDate untilDate = inr until
        /\ 0 <= time.unixDays until - time.unixDays since <= 730)
  /\ (forall err client args budgetID net h,
         validateDateRange sinceDate untilDate = Some err ->
         requiredArgs args budgetID sinceDate untilDate ->
         getSpendingByCategory client args net h = (NewToolResultError (Error err), h)
         /\ getPayeeSummary client args net h = (NewToolResultError (Error err), h))
  /\ validateDateRange "2024-06-01" "2024-01-01"
     = Some (Errorf "until_date must be after since_date")
  /\ validateDateRange "2022-01-01" "2024-06-01"
     = Some (Errorf "date range too large (max 2 years), consider using a smaller range for better performance")
  /\ validateDateRange "2024-06-01" "2024-06-01" = None.
Proof.
  split_and!; [| | | |by vm_compute..].
  - apply parseDate_valid.
  - apply validateDateRange_Some.
  - apply validateDateRange_None.
  - intros err client args budgetID net h Hv Hargs. by eapply handlers_reject.
Qed.

End validation_facts.

(** The range that ends before it starts, sent to both handlers over a
    network that would answer: no event happens. *)
Lemma date_range_validation_witness :
  (validateDateRange "2024-06-01" "2024-01-01"
   = Some (Errorf "until_date must be after since_date")
   /\ requiredArgs (examples.rangeArgs "2024-06-01" "2024-01-01")
        "budget" "2024-06-01" "2024-01-01")
  /\ Net.run (tools.getSpendingByCategory examples.acceptAll id examples.listOrder
                (JsonUnmarshal0 := examples.decodeAPIError)
                (JsonUnmarshal4 := examples.decodeTransactions)
                (JsonMarshal0 := examples.encodeCategoryResult)
                examples.client (examples.rangeArgs "2024-06-01" "2024-01-01"))
             examples.flakyNet
     = (NewToolResultError "until_date must be after since_date", [])
  /\ Net.run (tools.getPayeeSummary examples.acceptAll id examples.listOrder
                (JsonUnmarshal0 := examples.decodeAPIError)
                (JsonUnmarshal4 := examples.decodeTransactions)
                (JsonMarshal1 := examples.encodePayeeResult)
                examples.client (examples.rangeArgs "2024-06-01" "2024-01-01"))
             examples.flakyNet
     = (NewToolResultError "until_date must be after since_date", []).
Proof.
  assert (Hv : validateDateRange "2024-06-01" "2024-01-01"
               = Some (Errorf "until_date must be after since_date")) by (by vm_compute).
  assert (Hargs : requiredArgs (examples.rangeArgs "2024-06-01" "2024-01-01")
                    "budget" "2024-06-01" "2024-01-01")
    by (unfold requiredArgs; split_and!; done || by vm_compute).
  split; [by split|].
  destruct (date_range_validation examples.acceptAll id
              (JsonUnmarshal0 := examples.decodeAPIError)
              (JsonUnmarshal1 := examples.decodeTransactions)
              (JsonMarshal0 := examples.encodeCategoryResult)
              (JsonMarshal1 := examples.encodePayeeResult)
              examples.listOrder "2024-06-01" "2024-01-01") as (_ & _ & _ & Hh & _).
  exact (Hh _ examples.client _ "budget" examples.flakyNet [] Hv Hargs).
Defined.

(** ** Aggregation: the exclusion rule, splits, month buckets *)

Lemma fold_left_skip {A B} (f : A -> B -> A) (x : B) (l1 l2 : list B) (a : A) :
  (forall a', f a' x = a') -> fold_left f (l1 ++ x :: l2) a = fold_left f (l1 ++ l2) a.
Proof. intros H. rewrite !fold_left_app. simpl. by rewrite H. Qed.

Lemma fold_left_same_step {A B} (f : A -> B -> A) (x y : B) (l1 l2 : list B) (a : A) :
  (forall a', f a' x = f a' y) -> fold_left f (l1 ++ x :: l2) a = fold_left f (l1 ++ y :: l2) a.
Proof. intros H. rewrite !fold_left_app. simpl. by rewrite H. Qed.

Lemma isTransfer_true tx : isTransfer tx = true <-> tx_TransferAccountID tx <> "".
Proof.
  unfold isTransfer.
  destruct (String.eqb_spec (tx_TransferAccountID tx) ""); simpl; split; congruence.
Qed.

Lemma counted_flags tx : counted tx -> isTransfer tx = false /\ tx_Deleted tx = false.
Proof. intros [Ht Hd]. split; [|done]. unfold isTransfer. by rewrite Ht. Qed.

(** A soft-deleted transaction or a transfer leaves every map as it is. *)
Lemma categoryStep_excluded m tx :
  tx_Deleted tx = true \/ tx_TransferAccountID tx <> "" -> categoryStep m tx = m.
Proof. unfold categoryStep. skip_excluded isTransfer_true. Qed.

Lemma monthStep_excluded m tx :
  tx_Deleted tx = true \/ tx_TransferAccountID tx <> "" -> monthStep m tx = m.
Proof. unfold monthStep. skip_excluded isTransfer_true. Qed.

Lemma payeeStep_excluded m tx :
  tx_Deleted tx = true \/ tx_TransferAccountID tx <> "" -> payeeStep m tx = m.
Proof. unfold payeeStep. skip_excluded isTransfer_true. Qed.

(** C1. In the category, month and payee aggregation, a transaction that
    is soft-deleted or has a non-empty [transferAccountID] contributes to no
    bucket: the result is the one obtained without the transaction, whatever
    stands before and after it in the list. *)
Theorem excluded_transactions_contribute_nothing
    (before after : list Transaction) (tx : Transaction) (months : list string) :
  tx_Deleted tx = true \/ tx_TransferAccountID tx <> "" ->
  aggregateByCategory (before ++ tx :: after) = aggregateByCategory (before ++ after)
  /\ aggregateByMonth (before ++ tx :: after) months = aggregateByMonth (before ++ after) months
  /\ aggregateByPayee (before ++ tx :: after) = aggregateByPayee (before ++ after).
Proof.
  intros H. unfold aggregateByCategory, aggregateByMonth, aggregateByPayee.
  split_and!; apply fold_left_skip; intros.
  - by apply categoryStep_excluded.
  - by apply monthStep_excluded.
  - by apply payeeStep_excluded.
Qed.

(** A transfer and a soft-deleted transaction between the groceries and
    the rent: the three results are those of groceries and rent alone. *)
Lemma excluded_transactions_witness :
  let months := ["2024-01"; "2024-02"] in
  (tx_TransferAccountID examples.transfer <> "" /\ tx_Deleted examples.removed = true)
  /\ (aggregateByCategory ([examples.groceries] ++ examples.transfer :: [examples.rent])
      = aggregateByCategory ([examples.groceries] ++ [examples.rent])
      /\ aggregateByMonth ([examples.groceries] ++ examples.transfer :: [examples.rent]) months
         = aggregateByMonth ([examples.groceries] ++ [examples.rent]) months
      /\ aggregateByPayee ([examples.groceries] ++ examples.transfer :: [examples.rent])
         = aggregateByPayee ([examples.groceries] ++ [examples.rent]))
  /\ (aggregateByCategory ([examples.groceries] ++ examples.removed :: [examples.rent])
      = aggregateByCategory ([examples.groceries] ++ [examples.rent])
      /\ aggregateByMonth ([examples.groceries] ++ examples.removed :: [examples.rent]) months
         = aggregateByMonth ([examples.groceries] ++ [examples.rent]) months
      /\ aggregateByPayee ([examples.groceries] ++ examples.removed :: [examples.rent])
         = aggregateByPayee ([examples.groceries] ++ [examples.rent])).
Proof.
  cbv zeta. split_and!.
  - discriminate.
  - reflexivity.
  - apply (excluded_transactions_contribute_nothing
             [examples.groceries] [examples.rent] examples.transfer ["2024-01"; "2024-02"]).
    right. discriminate.
  - apply (excluded_transactions_contribute_nothing
             [examples.groceries] [examples.rent] examples.transfer ["2024-01"; "2024-02"]).
    right. discriminate.
  - apply (excluded_transactions_contribute_nothing
             [examples.groceries] [examples.rent] examples.transfer ["2024-01"; "2024-02"]).
    right. discriminate.
  - apply (excluded_transactions_contribute_nothing
             [examples.groceries] [examples.rent] examples.removed ["2024-01"; "2024-02"]).
    left. reflexivity.
  - apply (excluded_transactions_contribute_nothing
             [examples.groceries] [examples.rent] examples.removed ["2024-01"; "2024-02"]).
    left. reflexivity.
  - apply (excluded_transactions_contribute_nothing
             [examples.groceries] [examples.rent] examples.removed ["2024-01"; "2024-02"]).
    left. reflexivity.
Defined.

(** What a counted transaction does to the map: its whole amount goes to
    the bucket of its own category (payee). *)
Lemma categoryStep_counted m tx :
  counted tx ->
  categoryStep m tx =
    <[categoryKey tx :=
        categoryAdd (default (newCategorySummary (categoryKey tx) tx) (m !! categoryKey tx))
                    (MilliunitsToFloat (tx_Amount tx))]> m.
Proof.
  intros [Ht Hd]%counted_flags. unfold categoryStep. rewrite Ht, Hd.
  by destruct (m !! categoryKey tx).
Qed.

Lemma payeeStep_counted m tx :
  counted tx ->
  payeeStep m tx =
    <[payeeKey tx :=
        payeeAdd (default (newPayeeSummary (payeeKey tx) tx) (m !! payeeKey tx))
                 (MilliunitsToFloat (tx_Amount tx))]> m.
Proof.
  intros [Ht Hd]%counted_flags. unfold payeeStep. rewrite Ht, Hd.
  by destruct (m !! payeeKey tx).
Qed.

Lemma categoryKey_spec tx :
  categoryKey tx = if decide (tx_CategoryID tx = "") then "uncategorized" else tx_CategoryID tx.
Proof.
  unfold categoryKey. destruct (String.eqb_spec (tx_CategoryID tx) "");
    [by rewrite decide_True | by rewrite decide_False].
Qed.

Lemma payeeKey_spec tx :
  payeeKey tx = if decide (tx_PayeeID tx = "") then "no-payee" else tx_PayeeID tx.
Proof.
  unfold payeeKey. destruct (String.eqb_spec (tx_PayeeID tx) "");
    [by rewrite decide_True | by rewrite decide_False].
Qed.

(** C10. The aggregation functions never look at the splits of a
    transaction: replacing its subtransactions by any others changes none of
    the three results. A transaction that is neither deleted nor a transfer,
    split or not, adds its whole parent amount (its milliunits divided by
    1000) to one bucket: that of its own category ID, or the bucket
    "uncategorized", named "Uncategorized", when the ID is empty; the
    magnitude goes to the total outflow when the amount is negative and the
    amount to the total inflow otherwise, the amount is added to the net and
    the count grows by one, from zero when the bucket is new. The same holds
    of its payee ID, with the bucket "no-payee" named "No Payee", and of the
    bucket of its month. Every other bucket, those of the categories and
    payees of its splits included, stays as it was. *)
Theorem subtransactions_never_examined
    (before after : list Transaction) (tx : Transaction) (months : list string) :
  (forall subs,
      aggregateByCategory (before ++ with_Subtransactions subs tx :: after)
      = aggregateByCategory (before ++ tx :: after)
      /\ aggregateByMonth (before ++ with_Subtransactions subs tx :: after) months
         = aggregateByMonth (before ++ tx :: after) months
      /\ aggregateByPayee (before ++ with_Subtransactions subs tx :: after)
         = aggregateByPayee (before ++ tx :: after))
  /\ (tx_TransferAccountID tx = "" -> tx_Deleted tx = false ->
      let amount := (Float64.of_int64 (tx_Amount tx) / 1000)%float in
      let outflow total := if (amount <? 0)%float then (total + - amount)%float else total in
      let inflow total := if (amount <? 0)%float then total else (total + amount)%float in
      (let key := if decide (tx_CategoryID tx = "") then "uncategorized" else tx_CategoryID tx in
       let old := aggregateByCategory before in
       let new := aggregateByCategory (before ++ [tx]) in
       let prior := default {| cs_CategoryID := key;
                               cs_CategoryName := if decide (key = "uncategorized")
                                                  then "Uncategorized" else tx_CategoryName tx;
                               cs_CategoryGroupName := "";
                               cs_TotalOutflow := 0; cs_TotalInflow := 0; cs_Net := 0;
                               cs_TransactionCount := 0 |} (old !! key) in
       new !! key = Some {| cs_CategoryID := cs_CategoryID prior;
                            cs_CategoryName := cs_CategoryName prior;
                            cs_CategoryGroupName := cs_CategoryGroupName prior;
                            cs_TotalOutflow := outflow (cs_TotalOutflow prior);
                            cs_TotalInflow := inflow (cs_TotalInflow prior);
                            cs_Net := (cs_Net prior + amount)%float;
                            cs_TransactionCount := cs_TransactionCount prior + 1 |}
       /\ forall k, k <> key -> new !! k = old !! k)
      /\ (let key := if decide (tx_PayeeID tx = "") then "no-payee" else tx_PayeeID tx in
          let old := aggregateByPayee before in
          let new := aggregateByPayee (before ++ [tx]) in
          let prior := default {| ps_PayeeID := key;
                                  ps_PayeeName := if decide (key = "no-payee")
                                                  then "No Payee" else tx_PayeeName tx;
                                  ps_TotalOutflow := 0; ps_TotalInflow := 0; ps_Net := 0;
                                  ps_TransactionCount := 0 |} (old !! key) in
          new !! key = Some {| ps_PayeeID := ps_PayeeID prior;
                               ps_PayeeName := ps_PayeeName prior;
                               ps_TotalOutflow := outflow (ps_TotalOutflow prior);
                               ps_TotalInflow := inflow (ps_TotalInflow prior);
                               ps_Net := (ps_Net prior + amount)%float;
                               ps_TransactionCount := ps_TransactionCount prior + 1 |}
          /\ forall k, k <> key -> new !! k = old !! k)
      /\ (forall txDate bucket,
            let old := aggregateByMonth before months in
            let new := aggregateByMonth (before ++ [tx]) months in
            parseDate (tx_Date tx) = inr txDate ->
            old !! getMonthString txDate = Some bucket ->
            new !! getMonthString txDate
            = Some {| ms_Month := ms_Month bucket;
                      ms_TotalOutflow := outflow (ms_TotalOutflow bucket);
                      ms_TotalInflow := inflow (ms_TotalInflow bucket);
                      ms_Net := (ms_Net bucket + amount)%float;
                      ms_TransactionCount := ms_TransactionCount bucket + 1 |}
            /\ forall k, k <> getMonthString txDate -> new !! k = old !! k)).
Proof.
  split.
  - intros subs. unfold aggregateByCategory, aggregateByMonth, aggregateByPayee.
    split_and!; apply fold_left_same_step; intros; reflexivity.
  - intros Ht Hd. assert (Hc : counted tx) by done. cbv zeta.
    unfold aggregateByCategory, aggregateByPayee, aggregateByMonth.
    rewrite !fold_left_app. cbn [fold_left].
    rewrite categoryStep_counted, payeeStep_counted by done.
    rewrite <- categoryKey_spec, <- payeeKey_spec.
    split_and!.
    + rewrite lookup_insert_eq. f_equal. unfold categoryAdd, newCategorySummary, MilliunitsToFloat.
      destruct (fold_left categoryStep before ∅ !! categoryKey tx); simpl; [done|].
      destruct (String.eqb_spec (categoryKey tx) "uncategorized");
        [by rewrite decide_True | by rewrite decide_False].
    + intros k Hk. by rewrite lookup_insert_ne.
    + rewrite lookup_insert_eq. f_equal. unfold payeeAdd, newPayeeSummary, MilliunitsToFloat.
      destruct (fold_left payeeStep before ∅ !! payeeKey tx); simpl; [done|].
      destruct (String.eqb_spec (payeeKey tx) "no-payee");
        [by rewrite decide_True | by rewrite decide_False].
    + intros k Hk. by rewrite lookup_insert_ne.
    + intros txDate bucket Hp Hb. apply counted_flags in Hc as [Hc1 Hc2].
      unfold aggregateByMonth in Hb. set (old := fold_left monthStep before (initMonths months)) in *. unfold monthStep. rewrite Hc1, Hc2, Hp. cbv zeta. rewrite Hb. split.
      * by rewrite lookup_insert_eq.
      * intros k Hk. by rewrite lookup_insert_ne.
Qed.

(** A split transaction without category and without payee: 12 units,
    split between the baker and the butcher, after the groceries. *)
Lemma subtransactions_never_examined_witness :
  (tx_TransferAccountID examples.unassigned = "" /\ tx_Deleted examples.unassigned = false)
  /\ aggregateByCategory ([examples.groceries] ++ [examples.unassigned]) !! "uncategorized"
     = Some {| cs_CategoryID := "uncategorized"; cs_CategoryName := "Uncategorized";
               cs_CategoryGroupName := "";
               cs_TotalOutflow := 12; cs_TotalInflow := 0; cs_Net := -12;
               cs_TransactionCount := 1 |}
  /\ aggregateByCategory ([examples.groceries] ++ [examples.unassigned]) !! "bread" = None
  /\ aggregateByPayee ([examples.groceries] ++ [examples.unassigned]) !! "no-payee"
     = Some {| ps_PayeeID := "no-payee"; ps_PayeeName := "No Payee";
               ps_TotalOutflow := 12; ps_TotalInflow := 0; ps_Net := -12;
               ps_TransactionCount := 1 |}
  /\ aggregateByPayee ([examples.groceries] ++ [examples.unassigned]) !! "baker" = None.
Proof.
  split; [by split|].
  destruct (subtransactions_never_examined
              [examples.groceries] [] examples.unassigned []) as [_ H].
  destruct (H eq_refl eq_refl) as ([Hc Hco] & [Hp Hpo] & _).
  split_and!.
  - exact Hc.
  - rewrite (Hco "bread"); [reflexivity | discriminate].
  - exact Hp.
  - rewrite (Hpo "baker"); [reflexivity | discriminate].
Defined.

(** *** Month buckets *)

Lemma initMonths_from (months : list string) (acc : gmap string monthSummary) (m : string) :
  fold_left (fun summaries month => <[month := newMonthSummary month]> summaries) months acc !! m
  = if decide (m ∈ months) then Some (newMonthSummary m) else acc !! m.
Proof.
  revert acc. induction months as [|x months IH]; intros acc.
  - rewrite decide_False; [done | apply not_elem_of_nil].
  - cbn [fold_left]. rewrite IH. destruct (decide (m ∈ months)) as [Hin|Hnin].
    + rewrite decide_True; [done | by right].
    + destruct (decide (x = m)) as [->|Hne].
      * rewrite decide_True by left. by rewrite lookup_insert_eq.
      * rewrite decide_False; [by rewrite lookup_insert_ne|].
        intros [?|?]%elem_of_cons; congruence.
Qed.

Lemma initMonths_lookup months m :
  initMonths months !! m = if decide (m ∈ months) then Some (newMonthSummary m) else None.
Proof. unfold initMonths. rewrite initMonths_from. by rewrite lookup_empty. Qed.

(** A step touches the bucket of the month the transaction is counted in,
    and no other. *)
Lemma monthStep_lookup_other summaries tx m :
  monthOf tx <> Some m -> monthStep summaries tx !! m = summaries !! m.
Proof.
  unfold monthOf, monthStep. destruct (isTransfer tx); [done|].
  destruct (tx_Deleted tx); [done|].
  destruct (parseDate (tx_Date tx)) as [?|t]; [done|].
  intros Hne. destruct (summaries !! getMonthString t) eqn:E; [|done].
  rewrite lookup_insert_ne; [done | congruence].
Qed.

Lemma monthStep_skip summaries tx :
  (forall m, monthOf tx = Some m -> summaries !! m = None) -> monthStep summaries tx = summaries.
Proof.
  unfold monthOf, monthStep. destruct (isTransfer tx); [done|].
  destruct (tx_Deleted tx); [done|].
  destruct (parseDate (tx_Date tx)) as [?|t]; [done|].
  intros H. by rewrite (H _ eq_refl).
Qed.

Lemma initMonths_keyed months : month_keyed months (initMonths months).
Proof. intros m. rewrite initMonths_lookup. case_decide; [split|]; done. Qed.

Lemma monthStep_keyed months summaries tx :
  month_keyed months summaries -> month_keyed months (monthStep summaries tx).
Proof.
  intros Hk m. unfold monthStep. destruct (isTransfer tx); [apply Hk|].
  destruct (tx_Deleted tx); [apply Hk|].
  destruct (parseDate (tx_Date tx)) as [?|t]; [apply Hk|].
  destruct (summaries !! getMonthString t) as [s|] eqn:E; [|apply Hk].
  destruct (decide (getMonthString t = m)) as [<-|Hne].
  - rewrite lookup_insert_eq. specialize (Hk (getMonthString t)). rewrite E in Hk. apply Hk.
  - rewrite lookup_insert_ne by done. apply Hk.
Qed.

Lemma fold_monthStep_keyed months txs summaries :
  month_keyed months summaries -> month_keyed months (fold_left monthStep txs summaries).
Proof.
  revert summaries. induction txs as [|tx txs IH]; intros summaries Hk; simpl; [done|].
  apply IH. by apply monthStep_keyed.
Qed.

Lemma aggregateByMonth_keyed txs months : month_keyed months (aggregateByMonth txs months).
Proof. apply fold_monthStep_keyed, initMonths_keyed. Qed.

Lemma fold_monthStep_untouched txs summaries m :
  Forall (fun tx => monthOf tx <> Some m) txs ->
  fold_left monthStep txs summaries !! m = summaries !! m.
Proof.
  revert summaries. induction txs as [|tx txs IH]; intros summaries Hall; simpl; [done|].
  inversion Hall; subst. rewrite IH by done. by apply monthStep_lookup_other.
Qed.

(** Reading the buckets of some of the keyed months never misses. *)
Lemma monthData_keyed months' months summaries :
  month_keyed months summaries -> months' ⊆ months ->
  exists data, monthData summaries months' = Some data
               /\ map ms_Month data = months'
               /\ Forall2 (fun m b => summaries !! m = Some b) months' data.
Proof.
  intros Hk. induction months' as [|m months' IH]; intros Hsub.
  - exists []. repeat split. constructor.
  - destruct IH as (data & Hd & Hm & Hf); [set_solver|].
    pose proof (Hk m) as Hkm. destruct (summaries !! m) as [s|] eqn:E.
    + exists (s :: data). unfold monthData in *. cbn [mapM]. rewrite E. simpl.
      rewrite Hd. simpl. destruct Hkm as [_ ->]. rewrite Hm. repeat split. by constructor.
    + exfalso. apply Hkm, Hsub. left.
Qed.

(** C4. For every transaction list and every ordered list of months, the
    month aggregation has a bucket for exactly the supplied months, and the
    handler's read of the buckets yields one bucket per supplied month, in
    the supplied order (the read never misses, and the k-th bucket read is
    the one of the k-th month); the bucket of a month no transaction is
    counted in has all fields zero; the month of a transaction is its date
    string cut after the month; and a transaction whose date does not parse,
    or whose month is not in the list, is skipped: the result is the one
    obtained without it. *)
Theorem month_buckets (transactions : list Transaction) (months : list string) :
  (forall m, is_Some (aggregateByMonth transactions months !! m) <-> m ∈ months)
  /\ (exists data,
         monthData (aggregateByMonth transactions months) months = Some data
         /\ map ms_Month data = months
         /\ Forall2 (fun m b => aggregateByMonth transactions months !! m = Some b) months data)
  /\ (forall m, m ∈ months -> Forall (fun tx => monthOf tx <> Some m) transactions ->
         aggregateByMonth transactions months !! m = Some (newMonthSummary m))
  /\ (forall tx txDate, parseDate (tx_Date tx) = inr txDate ->
         getMonthString txDate = substring 0 7 (tx_Date tx))
  /\ (forall before tx after,
         transactions = before ++ tx :: after ->
         (forall txDate, parseDate (tx_Date tx) = inr txDate -> getMonthString txDate ∉ months) ->
         aggregateByMonth transactions months = aggregateByMonth (before ++ after) months).
Proof.
  split_and!.
  - intros m. pose proof (aggregateByMonth_keyed transactions months m) as Hk.
    destruct (aggregateByMonth transactions months !! m) as [s|].
    + split; [by intros _; apply Hk | eauto].
    + split; [by intros [? ?] | done].
  - apply (monthData_keyed months months); [apply aggregateByMonth_keyed | done].
  - intros m Hin Hall. unfold aggregateByMonth. rewrite fold_monthStep_untouched by done.
    rewrite initMonths_lookup. by rewrite decide_True.
  - intros tx txDate. apply getMonthString_prefix.
  - intros before tx after -> Hout. unfold aggregateByMonth. rewrite !fold_left_app. simpl.
    f_equal. apply monthStep_skip. intros m Hm.
    pose proof (fold_monthStep_keyed months before _ (initMonths_keyed months) m) as Hk.
    destruct (fold_left monthStep before (initMonths months) !! m) eqn:E; [|done].
    exfalso. destruct Hk as [Hin _]. unfold monthOf in Hm.
    destruct (isTransfer tx); [done|]. destruct (tx_Deleted tx); [done|].
    destruct (parseDate (tx_Date tx)) as [?|t] eqn:Ep; [done|].
    injection Hm as <-. by apply (Hout t).
Qed.

(** Three months, of which March is empty; a transaction without a
    parseable date and one of the year before are skipped. *)
Lemma month_buckets_witness :
  let months := ["2024-01"; "2024-02"; "2024-03"] in
  ((forall txDate, parseDate (tx_Date examples.undated) = inr txDate ->
                   getMonthString txDate ∉ months)
   /\ (forall txDate, parseDate (tx_Date examples.lastYear) = inr txDate ->
                      getMonthString txDate ∉ months))
  /\ aggregateByMonth [examples.groceries; examples.undated; examples.rent] months
     = aggregateByMonth [examples.groceries; examples.rent] months
  /\ aggregateByMonth [examples.groceries; examples.lastYear; examples.rent] months
     = aggregateByMonth [examples.groceries; examples.rent] months
  /\ aggregateByMonth [examples.groceries; examples.undated; examples.rent] months !! "2024-03"
     = Some (newMonthSummary "2024-03").
Proof.
  cbv zeta. set (months := ["2024-01"; "2024-02"; "2024-03"]).
  assert (Hundated : forall txDate, parseDate (tx_Date examples.undated) = inr txDate ->
                       getMonthString txDate ∉ months)
    by (intros txDate H; vm_compute in H; discriminate).
  assert (HlastYear : forall txDate, parseDate (tx_Date examples.lastYear) = inr txDate ->
                        getMonthString txDate ∉ months).
  { intros txDate H. vm_compute in H. injection H as <-.
    intros Hin. repeat (apply elem_of_cons in Hin as [Hin|Hin]; [discriminate|]).
    by apply elem_of_nil in Hin. }
  destruct (month_buckets [examples.groceries; examples.undated; examples.rent] months)
    as (_ & _ & Hzero & _ & Hout).
  destruct (month_buckets [examples.groceries; examples.lastYear; examples.rent] months)
    as (_ & _ & _ & _ & Hout').
  split_and!.
  - exact Hundated.
  - exact HlastYear.
  - exact (Hout [examples.groceries] examples.undated [examples.rent] eq_refl Hundated).
  - exact (Hout' [examples.groceries] examples.lastYear [examples.rent] eq_refl HlastYear).
  - apply Hzero; [set_solver|].
    repeat constructor; vm_compute; discriminate.
Defined.

(** ** The client: retries, terminal errors, point lookups *)

Section doRequest_facts.
Variable http_NewRequest_error : string -> string -> option error.
Context `{!JsonUnmarshal APIErrorResponse}.
Context {B R : Type} `{!JsonMarshal B}.
Variable c : Client.
Variables method path : string.
Variable body : option B.
Variable result : option (JsonUnmarshal R).

#[local] Abbreviation doRequest_from :=
  (doRequest_from http_NewRequest_error c method path body result).
#[local] Abbreviation doRequest :=
  (doRequest http_NewRequest_error c method path body result).
#[local] Abbreviation requestOf := (requestOf c method path body).
#[local] Abbreviation sendable := (sendable http_NewRequest_error method path body).
#[local] Abbreviation finish := (finish (R := R) result).

(** One iteration of the loop, on a call that can reach the network. *)
Lemma doRequest_from_step jsonBody fuel attempt lastErr net h :
  sendable jsonBody -> 0 <= attempt ->
  let req := requestOf jsonBody in
  let out := net (h ++ backoff attempt) req in
  doRequest_from (S fuel) attempt lastErr net h =
    match out with
    | Net.DoFails _ | Net.ReadFails _ _ =>
        doRequest_from fuel (attempt + 1) (Some (transientError out)) net
          (h ++ backoff attempt ++ [Net.Exchange req out])
    | Net.Responds StatusCode _ =>
        if decide (StatusCode = 429)
        then doRequest_from fuel (attempt + 1) (Some (transientError out)) net
               (h ++ backoff attempt ++ [Net.Exchange req out])
        else (finish out, h ++ backoff attempt ++ [Net.Exchange req out])
    end.
Proof.
  intros [Hbody Hnew] Hatt req out.
  assert (Hb : (match body with
                | Some b => match json_Marshal b with
                            | inl err => inl err
                            | inr jsonBody => inr (Some jsonBody)
                            end
                | None => inr None
                end) = inr (B := option string) (A := error) jsonBody).
  { destruct body as [b|]; [destruct Hbody as (s & -> & ->)|subst]; done. }
  cbn [ynab.doRequest_from]. rewrite Hb, Hnew.
  unfold mbind, Net.IO_bind, mret, Net.IO_ret, Net.httpDo, Net.sleep.
  assert (Hh : forall (X : Type) (k : list Net.Event -> X),
             (let '(_, h') := (if 0 <? attempt
                               then fun _ (h0 : list Net.Event) =>
                                      (tt, h0 ++ [Net.Sleep (Z.shiftl 1 (attempt - 1) * Net.Second)])
                               else fun _ h0 => (tt, h0)) net h in k h')
             = k (h ++ backoff attempt)).
  { intros X k. unfold backoff. rewrite Z.shiftl_1_l.
    destruct (0 <? attempt); [done|]. by rewrite app_nil_r. }
  rewrite Hh. subst out req. unfold ynab.requestOf. rewrite <- !app_assoc.
  destruct (net (h ++ backoff attempt) _) as [err|st err|st respBody]; try done.
  destruct (decide (st = 429)); [done|].
  unfold ynab.finish, terminalError. destruct (400 <=? st).
  - destruct (json_Unmarshal respBody) as [?|apiErr]; [done|]. by destruct (decide _).
  - destruct result as [u|]; [|done]. by destruct (u respBody).
Qed.

(** A transient outcome: the error is kept and the loop goes on. *)
Lemma doRequest_from_transient jsonBody fuel attempt lastErr net h out :
  sendable jsonBody -> 0 <= attempt ->
  net (h ++ backoff attempt) (requestOf jsonBody) = out -> transient out ->
  doRequest_from (S fuel) attempt lastErr net h
  = doRequest_from fuel (attempt + 1) (Some (transientError out)) net
      (h ++ backoff attempt ++ [Net.Exchange (requestOf jsonBody) out]).
Proof.
  intros Hs Hatt Hout Ht. rewrite (doRequest_from_step jsonBody) by done. cbv zeta.
  rewrite Hout. destruct out; try done. simpl in Ht. by rewrite decide_True.
Qed.

(** Any other outcome ends the call at once. *)
Lemma doRequest_from_final jsonBody fuel attempt lastErr net h out :
  sendable jsonBody -> 0 <= attempt ->
  net (h ++ backoff attempt) (requestOf jsonBody) = out -> ~ transient out ->
  doRequest_from (S fuel) attempt lastErr net h
  = (finish out, h ++ backoff attempt ++ [Net.Exchange (requestOf jsonBody) out]).
Proof.
  intros Hs Hatt Hout Ht. rewrite (doRequest_from_step jsonBody) by done. cbv zeta.
  rewrite Hout. destruct out; simpl in Ht; try done. by rewrite decide_False.
Qed.

Lemma transient_dec out : {transient out} + {~ transient out}.
Proof. destruct out; simpl; [by left | by left | apply decide; apply _]. Qed.

(** Every run of the loop: transient outcomes only, until the attempts run
    out or an outcome ends the call. *)
Lemma doRequest_from_runs jsonBody fuel attempt lastErr net h :
  sendable jsonBody -> 0 <= attempt ->
  let req := requestOf jsonBody in
  exists pre, Forall transient pre
    /\ ((length pre = fuel
         /\ doRequest_from fuel attempt lastErr net h
            = (inl (exhausted (lastErrAfter lastErr pre)), h ++ schedule req attempt pre))
        \/ (exists out, ~ transient out /\ (length pre < fuel)%nat
             /\ doRequest_from fuel attempt lastErr net h
                = (finish out, h ++ schedule req attempt (pre ++ [out])))).
Proof.
  intros Hs Hatt. cbv zeta. set (req := requestOf jsonBody). revert attempt lastErr h Hatt.
  induction fuel as [|fuel IH]; intros attempt lastErr h Hatt.
  - exists []. split; [constructor|]. left. split; [done|]. simpl. by rewrite app_nil_r.
  - set (out := net (h ++ backoff attempt) req).
    destruct (transient_dec out) as [Ht|Hnt].
    + destruct (IH (attempt + 1) (Some (transientError out))
                  (h ++ backoff attempt ++ [Net.Exchange req out])) as (pre & Hpre & Hrun);
        [lia|].
      exists (out :: pre). split; [by constructor|].
      rewrite (doRequest_from_transient jsonBody _ _ _ _ _ out) by done.
      fold req. cbn [schedule].
      destruct Hrun as [[Hlen ->] | (o & Ho & Hlen & ->)].
      * left. split; [simpl; lia|]. simpl lastErrAfter. by rewrite <- !app_assoc.
      * right. exists o. split; [done|]. split; [simpl; lia|].
        rewrite <- app_comm_cons. cbn [schedule]. by rewrite <- !app_assoc.
    + exists []. split; [constructor|]. right. exists out. split; [done|].
      split; [simpl; lia|].
      by rewrite (doRequest_from_final jsonBody _ _ _ _ _ out).
Qed.

(** C2. For a call that can reach the network: the attempts before the
    last all had a transient outcome (network failure, read failure or 429),
    every attempt after the first is preceded by a sleep of [2^(attempt-1)]
    seconds, and there are at most 3 attempts; after 3 transient outcomes the
    call fails with the error [exhausted], which wraps the error of the last
    transient outcome under the message "request failed after 3 attempts: ".
    In particular, two transient outcomes followed by a success return the
    decoded result after the events exchange, sleep 1s, exchange, sleep 2s,
    exchange, and three transient outcomes return that error after the same
    two sleeps. *)
Theorem retry_policy jsonBody net h :
  sendable jsonBody ->
  let req := requestOf jsonBody in
  (exists pre, Forall transient pre
     /\ ((length pre = 3%nat
          /\ doRequest net h
             = (inl (exhausted (lastErrAfter None pre)), h ++ schedule req 0 pre))
         \/ (exists out, ~ transient out /\ (length pre < 3)%nat
              /\ doRequest net h = (finish out, h ++ schedule req 0 (pre ++ [out])))))
  /\ (forall o1 o2 StatusCode respBody unmarshal r,
        net h req = o1 -> transient o1 ->
        net (h ++ [Net.Exchange req o1; Net.Sleep (1 * Net.Second)]) req = o2 -> transient o2 ->
        net (h ++ [Net.Exchange req o1; Net.Sleep (1 * Net.Second);
                   Net.Exchange req o2; Net.Sleep (2 * Net.Second)]) req
          = Net.Responds StatusCode respBody ->
        StatusCode < 400 -> result = Some unmarshal -> unmarshal respBody = inr r ->
        doRequest net h
        = (inr (Some r),
           h ++ [Net.Exchange req o1; Net.Sleep (1 * Net.Second);
                 Net.Exchange req o2; Net.Sleep (2 * Net.Second);
                 Net.Exchange req (Net.Responds StatusCode respBody)]))
  /\ (forall o1 o2 o3,
        net h req = o1 -> transient o1 ->
        net (h ++ [Net.Exchange req o1; Net.Sleep (1 * Net.Second)]) req = o2 -> transient o2 ->
        net (h ++ [Net.Exchange req o1; Net.Sleep (1 * Net.Second);
                   Net.Exchange req o2; Net.Sleep (2 * Net.Second)]) req = o3 ->
        transient o3 ->
        doRequest net h
        = (inl (Wrapf ("request failed after 3 attempts: " +:+ Error (transientError o3))
                      (transientError o3)),
           h ++ [Net.Exchange req o1; Net.Sleep (1 * Net.Second);
                 Net.Exchange req o2; Net.Sleep (2 * Net.Second);
                 Net.Exchange req o3]))
  /\ (forall lastErr pre out e,
        lastErrAfter lastErr (pre ++ [out]) = Some (transientError out)
        /\ Error (exhausted (Some e)) = "request failed after 3 attempts: " +:+ Error e
        /\ Unwrap (exhausted (Some e)) = Some e).
Proof.
  intros Hs. cbv zeta. set (req := requestOf jsonBody). split_and!.
  - apply (doRequest_from_runs jsonBody); [done | lia].
  - intros o1 o2 st respBody unmarshal r Ho1 Ht1 Ho2 Ht2 Ho3 Hst Hres Hr.
    unfold ynab.doRequest. change (Z.to_nat maxRetries) with 3%nat.
    rewrite (doRequest_from_transient jsonBody _ _ _ _ _ o1);
      [|done|lia|by rewrite app_nil_r|done].
    rewrite (doRequest_from_transient jsonBody _ _ _ _ _ o2);
      [|done|lia|by rewrite <- app_assoc|done].
    rewrite (doRequest_from_final jsonBody _ _ _ _ _ (Net.Responds st respBody));
      [|done|lia|by rewrite <- !app_assoc|simpl; lia].
    rewrite <- !app_assoc. simpl.
    replace (400 <=? st) with false by (symmetry; apply Z.leb_gt; lia).
    rewrite Hres, Hr. done.
  - intros o1 o2 o3 Ho1 Ht1 Ho2 Ht2 Ho3 Ht3.
    unfold ynab.doRequest. change (Z.to_nat maxRetries) with 3%nat.
    rewrite (doRequest_from_transient jsonBody _ _ _ _ _ o1);
      [|done|lia|by rewrite app_nil_r|done].
    rewrite (doRequest_from_transient jsonBody _ _ _ _ _ o2);
      [|done|lia|by rewrite <- app_assoc|done].
    rewrite (doRequest_from_transient jsonBody _ _ _ _ _ o3);
      [|done|lia|by rewrite <- !app_assoc|done].
    rewrite <- !app_assoc. done.
  - intros lastErr pre out e. split_and!; [|done..].
    unfold lastErrAfter. by rewrite fold_left_app.
Qed.

(** C3. A response with a status of 400 or more other than 429 ends the
    call at once, on the first attempt (one exchange, no sleep) as on a later
    one (nothing after that attempt's exchange), with the error of
    [terminalError]: it carries the detail of the error body when the body
    parses and the detail is not empty, and the numeric status otherwise. *)
Theorem terminal_http_error jsonBody net h StatusCode respBody :
  sendable jsonBody -> 400 <= StatusCode -> StatusCode <> 429 ->
  let req := requestOf jsonBody in
  let out := Net.Responds StatusCode respBody in
  let err := terminalError StatusCode respBody in
  (net h req = out -> doRequest net h = (inl err, h ++ [Net.Exchange req out]))
  /\ (forall fuel attempt lastErr,
        0 <= attempt -> net (h ++ backoff attempt) req = out ->
        doRequest_from (S fuel) attempt lastErr net h
        = (inl err, h ++ backoff attempt ++ [Net.Exchange req out]))
  /\ (forall apiErr, json_Unmarshal respBody = inr apiErr -> err_Detail apiErr <> "" ->
        err = Errorf ("YNAB API error (" +:+ fmt_d StatusCode +:+ "): " +:+ err_Detail apiErr))
  /\ ((forall apiErr, json_Unmarshal respBody = inr apiErr -> err_Detail apiErr = "") ->
        err = Errorf ("YNAB API error: status " +:+ fmt_d StatusCode)).
Proof.
  intros Hs Hst Hne. cbv zeta. set (req := requestOf jsonBody).
  set (out := Net.Responds StatusCode respBody).
  assert (Hnt : ~ transient out) by done.
  assert (Hfin : finish out = inl (terminalError StatusCode respBody)).
  { unfold ynab.finish, out.
    by replace (400 <=? StatusCode) with true by (symmetry; apply Z.leb_le; lia). }
  split_and!.
  - intros Ho. unfold ynab.doRequest. change (Z.to_nat maxRetries) with 3%nat.
    rewrite (doRequest_from_final jsonBody _ _ _ _ _ out); [|done|lia|by rewrite app_nil_r|done].
    by rewrite Hfin.
  - intros fuel attempt lastErr Hatt Ho.
    rewrite (doRequest_from_final jsonBody _ _ _ _ _ out) by done. by rewrite Hfin.
  - intros apiErr Hu Hd. unfold terminalError. rewrite Hu. by rewrite decide_False.
  - intros Hd. unfold terminalError. destruct (json_Unmarshal respBody) as [?|apiErr] eqn:E; [done|].
    by rewrite decide_True by by apply Hd.
Qed.

(** Every error of [doRequest] starts as one of its messages does. *)
Lemma doRequest_from_error fuel attempt lastErr net h e h' :
  doRequest_from fuel attempt lastErr net h = (inl e, h') -> fromDoRequest e.
Proof.
  revert attempt lastErr h. induction fuel as [|fuel IH]; intros attempt lastErr h.
  - simpl. intros [= <- _]. unfold exhausted, Errorf_w.
    destruct lastErr; eexists; left; simpl; reflexivity.
  - cbn [ynab.doRequest_from].
    unfold mbind, Net.IO_bind, mret, Net.IO_ret, Net.httpDo, Net.sleep.
    destruct (0 <? attempt); cbv beta iota zeta;
      (destruct body as [b|]; [destruct (json_Marshal b) as [err|jsonBody]|]);
      try (intros [= <- _]; eexists; right; left; reflexivity);
      (destruct (http_NewRequest_error method (baseURL +:+ path)) as [err|];
       [intros [= <- _]; eexists; right; left; reflexivity|]);
      (match goal with
       | |- context [net ?hh ?rq] =>
           destruct (net hh rq) as [err|st err|st respBody]; [apply IH | apply IH |]
       end);
      (destruct (decide (st = 429)); [apply IH|]);
      (destruct (400 <=? st);
       [destruct (json_Unmarshal respBody) as [?|apiErr];
          [|destruct (decide (err_Detail apiErr = ""))];
          intros [= <- _]; eexists; right; right; reflexivity
       |destruct result as [u|]; [|done]; destruct (u respBody); [|done];
        intros [= <- _]; eexists; right; left; reflexivity]).
Qed.

End doRequest_facts.

(** A GET over the flaky network of the examples succeeds on the third
    attempt, after sleeps of one and two seconds; over the network that is
    down it gives up after the third attempt. *)
Lemma retry_policy_witness :
  let req := requestOf examples.client "GET" "/budgets" (None : option Empty_set) None in
  let refused := Net.DoFails (Errorf "dial tcp: connection refused") in
  sendable examples.acceptAll "GET" "/budgets" (None : option Empty_set)
    (JsonMarshal0 := no_body) None
  /\ Net.run (doRequest examples.acceptAll (JsonUnmarshal0 := examples.decodeAPIError)
                (JsonMarshal0 := no_body) examples.client "GET" "/budgets" None
                (Some examples.decodeText)) examples.flakyNet
     = (inr (Some "ok"),
        [Net.Exchange req refused; Net.Sleep (1 * Net.Second);
         Net.Exchange req (Net.Responds 429 ""); Net.Sleep (2 * Net.Second);
         Net.Exchange req (Net.Responds 200 "ok")])
  /\ Net.sleeps (snd (Net.run (doRequest examples.acceptAll
                                (JsonUnmarshal0 := examples.decodeAPIError)
                                (JsonMarshal0 := no_body) examples.client "GET" "/budgets" None
                                (Some examples.decodeText)) examples.flakyNet))
     = [1 * Net.Second; 2 * Net.Second]
  /\ Net.run (doRequest examples.acceptAll (JsonUnmarshal0 := examples.decodeAPIError)
                (JsonMarshal0 := no_body) examples.client "GET" "/budgets" None
                (Some examples.decodeText)) examples.downNet
     = (inl (Wrapf "request failed after 3 attempts: request failed: dial tcp: connection refused"
               (Wrapf "request failed: dial tcp: connection refused"
                  (Errorf "dial tcp: connection refused"))),
        [Net.Exchange req refused; Net.Sleep (1 * Net.Second);
         Net.Exchange req refused; Net.Sleep (2 * Net.Second);
         Net.Exchange req refused]).
Proof.
  cbv zeta.
  assert (Hs : sendable examples.acceptAll "GET" "/budgets" (None : option Empty_set)
                 (JsonMarshal0 := no_body) None) by (by split).
  assert (Hflaky := proj1 (proj2
            (retry_policy examples.acceptAll (JsonUnmarshal0 := examples.decodeAPIError)
               (JsonMarshal0 := no_body) examples.client "GET" "/budgets" None
               (Some examples.decodeText) None examples.flakyNet [] Hs))
            _ _ 200 "ok" examples.decodeText "ok" eq_refl I eq_refl eq_refl eq_refl
            eq_refl eq_refl eq_refl).
  split; [exact Hs|]. split; [exact Hflaky|]. split.
  - unfold Net.run. rewrite Hflaky. reflexivity.
  - destruct (retry_policy examples.acceptAll (JsonUnmarshal0 := examples.decodeAPIError)
                (JsonMarshal0 := no_body) examples.client "GET" "/budgets" None
                (Some examples.decodeText) None examples.downNet [] Hs) as (_ & _ & Hdown & _).
    exact (Hdown _ _ _ eq_refl I eq_refl I eq_refl I).
Defined.

(** The 404 of the specification: one exchange, and the detail of the body
    in the error. *)
Lemma terminal_http_error_witness :
  let req := requestOf examples.client "GET" "/budgets/b/transactions/t"
               (None : option Empty_set) None in
  (sendable examples.acceptAll "GET" "/budgets/b/transactions/t" (None : option Empty_set)
     (JsonMarshal0 := no_body) None
   /\ 400 <= 404 /\ 404 <> 429)
  /\ Net.run (doRequest examples.acceptAll (JsonUnmarshal0 := examples.decodeAPIError)
                (JsonMarshal0 := no_body) examples.client "GET" "/budgets/b/transactions/t"
                None (Some examples.decodeText)) examples.notFoundNet
     = (inl (Errorf "YNAB API error (404): transaction not found"),
        [Net.Exchange req (Net.Responds 404 examples.notFoundBody)]).
Proof.
  cbv zeta.
  assert (Hs : sendable examples.acceptAll "GET" "/budgets/b/transactions/t"
                 (None : option Empty_set) (JsonMarshal0 := no_body) None) by (by split).
  split; [split_and!; [exact Hs | lia | lia]|].
  destruct (terminal_http_error examples.acceptAll (JsonUnmarshal0 := examples.decodeAPIError)
              (JsonMarshal0 := no_body) examples.client "GET" "/budgets/b/transactions/t" None
              (Some examples.decodeText) None examples.notFoundNet [] 404 examples.notFoundBody
              Hs ltac:(lia) ltac:(lia)) as (Hfirst & _).
  exact (Hfirst eq_refl).
Defined.

Section lookup_facts.
Variable http_NewRequest_error : string -> string -> option error.
Context `{!JsonUnmarshal APIErrorResponse} `{!JsonUnmarshal AccountsResponse}
        `{!JsonUnmarshal CategoriesResponse} `{!JsonUnmarshal PayeesResponse}.

#[local] Abbreviation ListAccounts := (ListAccounts http_NewRequest_error).
#[local] Abbreviation GetAccount := (GetAccount http_NewRequest_error).
#[local] Abbreviation ListCategories := (ListCategories http_NewRequest_error).
#[local] Abbreviation GetCategory := (GetCategory http_NewRequest_error).
#[local] Abbreviation ListPayees := (ListPayees http_NewRequest_error).
#[local] Abbreviation GetPayee := (GetPayee http_NewRequest_error).

(** The message of a not-found error never starts like an error of
    [doRequest]. *)
Lemma fromDoRequest_not_notFound e :
  fromDoRequest e ->
  forall id, Error e <> "account not found: " +:+ id
             /\ Error e <> "category not found: " +:+ id
             /\ Error e <> "payee not found: " +:+ id.
Proof.
  intros (rest & [H | [H | H]]) id; rewrite H; split_and!; discriminate.
Qed.

Lemma get_error {R} c path (result : option (JsonUnmarshal R)) net h e h' :
  get http_NewRequest_error c path result net h = (inl e, h') -> fromDoRequest e.
Proof. apply doRequest_from_error. Qed.

Lemma ListAccounts_error c budgetID net h e h' :
  ListAccounts c budgetID net h = (inl e, h') -> fromDoRequest e.
Proof.
  unfold ynab.ListAccounts. unfold_io.
  destruct (get _ _ _ _ net h) as [[err|resp] h1] eqn:E; intros [= <- _].
  by eapply get_error.
Qed.

Lemma ListCategories_error c budgetID net h e h' :
  ListCategories c budgetID net h = (inl e, h') -> fromDoRequest e.
Proof.
  unfold ynab.ListCategories. unfold_io.
  destruct (get _ _ _ _ net h) as [[err|resp] h1] eqn:E; intros [= <- _].
  by eapply get_error.
Qed.

Lemma ListPayees_error c budgetID net h e h' :
  ListPayees c budgetID net h = (inl e, h') -> fromDoRequest e.
Proof.
  unfold ynab.ListPayees. unfold_io.
  destruct (get _ _ _ _ net h) as [[err|resp] h1] eqn:E; intros [= <- _].
  by eapply get_error.
Qed.

(** The scans return the first entity with the ID, and nothing when no
    entity has it. *)
Lemma scanAccounts_first pre a post :
  Forall (fun a' => acc_ID a' <> acc_ID a) pre ->
  scanAccounts (pre ++ a :: post) (acc_ID a) = Some a.
Proof. scan_past. Qed.

Lemma scanAccounts_none accounts id :
  Forall (fun a => acc_ID a <> id) accounts -> scanAccounts accounts id = None.
Proof. scan_past. Qed.

Lemma scanCategories_first pre a post :
  Forall (fun a' => cat_ID a' <> cat_ID a) pre ->
  scanCategories (pre ++ a :: post) (cat_ID a) = Some a.
Proof. scan_past. Qed.

Lemma scanCategories_none categories id :
  Forall (fun a => cat_ID a <> id) categories -> scanCategories categories id = None.
Proof. scan_past. Qed.

Lemma scanCategories_app l1 l2 id :
  scanCategories (l1 ++ l2) id
  = match scanCategories l1 id with Some a => Some a | None => scanCategories l2 id end.
Proof. induction l1 as [|x l1 IH]; simpl; [done|]. by destruct (decide _). Qed.

(** The nested loops visit the categories of all groups in order. *)
Lemma scanGroups_concat groups id :
  scanGroups groups id = scanCategories (concat (map grp_Categories groups)) id.
Proof.
  induction groups as [|g groups IH]; simpl; [done|].
  rewrite scanCategories_app, IH. done.
Qed.

Lemma scanPayees_first pre a post :
  Forall (fun a' => payee_ID a' <> payee_ID a) pre ->
  scanPayees (pre ++ a :: post) (payee_ID a) = Some a.
Proof. scan_past. Qed.

Lemma scanPayees_none payees id :
  Forall (fun a => payee_ID a <> id) payees -> scanPayees payees id = None.
Proof. scan_past. Qed.

(** With unique IDs, an entity of the list is the first with its ID. *)
Lemma unique_is_first {A} (f : A -> string) (l : list A) (a : A) :
  a ∈ l -> NoDup (map f l) ->
  exists pre post, l = pre ++ a :: post /\ Forall (fun x => f x <> f a) pre.
Proof.
  intros (pre & post & ->)%list_elem_of_split Hnd. exists pre, post. split; [done|].
  rewrite map_app in Hnd. apply NoDup_app in Hnd as (_ & Hdisj & _).
  apply Forall_forall. intros x Hx Heq. apply (Hdisj (f x)).
  - apply list_elem_of_fmap. eauto.
  - simpl. rewrite Heq. left.
Qed.

(** C8. [GetAccount], [GetCategory] and [GetPayee] cause exactly the events
    of the list operation. When the list fails they return its error, whose
    message is never that of a not-found error. When it succeeds and no
    entity has the ID they return the error ["<kind> not found: <id>"];
    otherwise they return the first entity of the list (for categories: of
    the groups' categories, in order) that has the ID, which is every entity
    with the ID when the IDs of the list are unique, whatever its [Deleted]
    flag says: no field but the ID is read. *)
Theorem point_lookups (c : Client) (budgetID id : string) (net : Net.Network)
    (h : list Net.Event) :
  (let '(listed, h1) := ListAccounts c budgetID net h in
   let '(got, h2) := GetAccount c budgetID id net h in
   h2 = h1
   /\ match listed with
      | inl err =>
          got = inl err
          /\ forall id', Error err <> "account not found: " +:+ id'
      | inr accounts =>
          (Forall (fun a => acc_ID a <> id) accounts ->
           got = inl (Errorf ("account not found: " +:+ id)))
          /\ (forall pre a post,
                accounts = pre ++ a :: post -> acc_ID a = id ->
                Forall (fun a' => acc_ID a' <> id) pre -> got = inr a)
          /\ (forall a, a ∈ accounts -> acc_ID a = id ->
                NoDup (map acc_ID accounts) -> got = inr a)
      end)
  /\ (let '(listed, h1) := ListCategories c budgetID net h in
      let '(got, h2) := GetCategory c budgetID id net h in
      h2 = h1
      /\ match listed with
         | inl err =>
             got = inl err
             /\ forall id', Error err <> "category not found: " +:+ id'
         | inr groups =>
             let categories := concat (map grp_Categories groups) in
             (Forall (fun a => cat_ID a <> id) categories ->
              got = inl (Errorf ("category not found: " +:+ id)))
             /\ (forall pre a post,
                   categories = pre ++ a :: post -> cat_ID a = id ->
                   Forall (fun a' => cat_ID a' <> id) pre -> got = inr a)
             /\ (forall a, a ∈ categories -> cat_ID a = id ->
                   NoDup (map cat_ID categories) -> got = inr a)
         end)
  /\ (let '(listed, h1) := ListPayees c budgetID net h in
      let '(got, h2) := GetPayee c budgetID id net h in
      h2 = h1
      /\ match listed with
         | inl err =>
             got = inl err
             /\ forall id', Error err <> "payee not found: " +:+ id'
         | inr payees =>
             (Forall (fun a => payee_ID a <> id) payees ->
              got = inl (Errorf ("payee not found: " +:+ id)))
             /\ (forall pre a post,
                   payees = pre ++ a :: post -> payee_ID a = id ->
                   Forall (fun a' => payee_ID a' <> id) pre -> got = inr a)
             /\ (forall a, a ∈ payees -> payee_ID a = id ->
                   NoDup (map payee_ID payees) -> got = inr a)
         end).
Proof.
  split_and!.
  - unfold ynab.GetAccount. unfold_io.
    destruct (ListAccounts c budgetID net h) as [[err|accounts] h1] eqn:E.
    + split; [done|]. split; [done|]. intros id'.
      by apply (fromDoRequest_not_notFound err (ListAccounts_error _ _ _ _ _ _ E) id').
    + assert (Hfirst : forall pre a post,
                accounts = pre ++ a :: post -> acc_ID a = id ->
                Forall (fun a' => acc_ID a' <> id) pre -> scanAccounts accounts id = Some a).
      { intros pre a post -> <- Hpre. by apply scanAccounts_first. }
      destruct (scanAccounts accounts id) as [a|] eqn:Es; (split; [done|]); split_and!.
      * intros Hnone. by rewrite scanAccounts_none in Es.
      * intros pre a' post Heq Hid Hpre. specialize (Hfirst pre a' post Heq Hid Hpre). congruence.
      * intros a' Hin Hid Hnd.
        destruct (unique_is_first acc_ID accounts a' Hin Hnd) as (pre & post & Heq & Hpre).
        rewrite Hid in Hpre. specialize (Hfirst pre a' post Heq Hid Hpre). congruence.
      * done.
      * intros pre a' post Heq Hid Hpre. specialize (Hfirst pre a' post Heq Hid Hpre). congruence.
      * intros a' Hin Hid Hnd.
        destruct (unique_is_first acc_ID accounts a' Hin Hnd) as (pre & post & Heq & Hpre).
        rewrite Hid in Hpre. specialize (Hfirst pre a' post Heq Hid Hpre). congruence.
  - unfold ynab.GetCategory. unfold_io.
    destruct (ListCategories c budgetID net h) as [[err|groups] h1] eqn:E.
    + split; [done|]. split; [done|]. intros id'.
      by apply (fromDoRequest_not_notFound err (ListCategories_error _ _ _ _ _ _ E) id').
    + cbv zeta. rewrite scanGroups_concat.
      set (categories := concat (map grp_Categories groups)).
      assert (Hfirst : forall pre a post,
                categories = pre ++ a :: post -> cat_ID a = id ->
                Forall (fun a' => cat_ID a' <> id) pre -> scanCategories categories id = Some a).
      { intros pre a post -> <- Hpre. by apply scanCategories_first. }
      destruct (scanCategories categories id) as [a|] eqn:Es; (split; [done|]); split_and!.
      * intros Hnone. by rewrite scanCategories_none in Es.
      * intros pre a' post Heq Hid Hpre. specialize (Hfirst pre a' post Heq Hid Hpre). congruence.
      * intros a' Hin Hid Hnd.
        destruct (unique_is_first cat_ID categories a' Hin Hnd) as (pre & post & Heq & Hpre).
        rewrite Hid in Hpre. specialize (Hfirst pre a' post Heq Hid Hpre). congruence.
      * done.
      * intros pre a' post Heq Hid Hpre. specialize (Hfirst pre a' post Heq Hid Hpre). congruence.
      * intros a' Hin Hid Hnd.
        destruct (unique_is_first cat_ID categories a' Hin Hnd) as (pre & post & Heq & Hpre).
        rewrite Hid in Hpre. specialize (Hfirst pre a' post Heq Hid Hpre). congruence.
  - unfold ynab.GetPayee. unfold_io.
    destruct (ListPayees c budgetID net h) as [[err|payees] h1] eqn:E.
    + split; [done|]. split; [done|]. intros id'.
      by apply (fromDoRequest_not_notFound err (ListPayees_error _ _ _ _ _ _ E) id').
    + assert (Hfirst : forall pre a post,
                payees = pre ++ a :: post -> payee_ID a = id ->
                Forall (fun a' => payee_ID a' <> id) pre -> scanPayees payees id = Some a).
      { intros pre a post -> <- Hpre. by apply scanPayees_first. }
      destruct (scanPayees payees id) as [a|] eqn:Es; (split; [done|]); split_and!.
      * intros Hnone. by rewrite scanPayees_none in Es.
      * intros pre a' post Heq Hid Hpre. specialize (Hfirst pre a' post Heq Hid Hpre). congruence.
      * intros a' Hin Hid Hnd.
        destruct (unique_is_first payee_ID payees a' Hin Hnd) as (pre & post & Heq & Hpre).
        rewrite Hid in Hpre. specialize (Hfirst pre a' post Heq Hid Hpre). congruence.
      * done.
      * intros pre a' post Heq Hid Hpre. specialize (Hfirst pre a' post Heq Hid Hpre). congruence.
      * intros a' Hin Hid Hnd.
        destruct (unique_is_first payee_ID payees a' Hin Hnd) as (pre & post & Heq & Hpre).
        rewrite Hid in Hpre. specialize (Hfirst pre a' post Heq Hid Hpre). congruence.
Qed.

End lookup_facts.

(** ** float64: sums of magnitudes and their order *)

Lemma nonneg_class_SF f : Float64.nonneg_class f <-> Float64.SFnonneg (Prim2SF f).
Proof. reflexivity. Qed.

(** *** Rounding a non-negative mantissa never yields NaN *)

Lemma shr_1_nonneg mrs : 0 <= shr_m mrs -> 0 <= shr_m (shr_1 mrs).
Proof. destruct mrs as [[|[p|p|]|p] r s]; simpl; lia. Qed.

Lemma iter_shr_1_nonneg p mrs :
  0 <= shr_m mrs -> 0 <= shr_m (SpecFloat.iter_pos shr_1 p mrs).
Proof.
  revert mrs. induction p as [p IH|p IH|]; intros mrs H; simpl.
  - apply IH, IH, shr_1_nonneg, H.
  - apply IH, IH, H.
  - apply shr_1_nonneg, H.
Qed.

Lemma shr_nonneg mrs e n : 0 <= shr_m mrs -> 0 <= shr_m (fst (shr mrs e n)).
Proof. destruct n; simpl; [done| |done]. apply iter_shr_1_nonneg. Qed.

Lemma shr_record_of_loc_m m l : shr_m (shr_record_of_loc m l) = m.
Proof. by destruct l as [|[]]. Qed.

Lemma shr_fexp_nonneg m e l : 0 <= m -> 0 <= shr_m (fst (shr_fexp prec emax m e l)).
Proof. intros H. apply shr_nonneg. by rewrite shr_record_of_loc_m. Qed.

Lemma round_nearest_even_nonneg mx lx : 0 <= mx -> 0 <= round_nearest_even mx lx.
Proof. destruct lx as [|[]]; simpl; [done| |done|lia]. destruct (Z.even mx); lia. Qed.

Lemma binary_round_aux_sign sx mx ex lx :
  0 <= mx ->
  match binary_round_aux prec emax sx mx ex lx with
  | S754_zero s | S754_finite s _ _ | S754_infinity s => s = sx
  | S754_nan => False
  end.
Proof.
  intros H. unfold binary_round_aux.
  pose proof (shr_fexp_nonneg mx ex lx H) as H1.
  destruct (shr_fexp prec emax mx ex lx) as [mrs' e']. simpl in H1.
  pose proof (shr_fexp_nonneg _ e' loc_Exact
                (round_nearest_even_nonneg _ (loc_of_shr_record mrs') H1)) as H2.
  destruct (shr_fexp prec emax _ e' loc_Exact) as [mrs'' e'']. simpl in H2.
  destruct (shr_m mrs'') as [|m|m]; [done| |lia].
  by destruct (e'' <=? emax - prec).
Qed.

Lemma binary_round_sign sx mx ex :
  match binary_round prec emax sx mx ex with
  | S754_zero s | S754_finite s _ _ | S754_infinity s => s = sx
  | S754_nan => False
  end.
Proof.
  unfold binary_round. destruct (shl_align _ _ _) as [mz ez].
  apply binary_round_aux_sign. lia.
Qed.

Lemma SFadd_nonneg x y :
  Float64.SFnonneg x -> Float64.SFnonneg y -> Float64.SFnonneg (SF64add x y).
Proof.
  destruct x as [[]|[]| |[] mx ex], y as [[]|[]| |[] my ey]; simpl; try done.
  intros _ _. unfold SF64add, SFadd. simpl cond_Zopp. unfold binary_normalize.
  change (Z.pos ?a + Z.pos ?b) with (Z.pos (a + b)). cbv beta iota.
  pose proof (binary_round_sign false
                (fst (shl_align mx ex (Z.min ex ey)) + fst (shl_align my ey (Z.min ex ey)))
                (Z.min ex ey)) as H.
  by destruct (binary_round _ _ _ _ _) as [?|?| |? ? ?]; subst.
Qed.

Lemma zero_nonneg : Float64.nonneg_class 0.
Proof. by vm_compute. Qed.

(** The sum of two non-negative floats is one: never NaN, never negative. *)
Lemma add_nonneg x y :
  Float64.nonneg_class x -> Float64.nonneg_class y -> Float64.nonneg_class (x + y).
Proof. rewrite !nonneg_class_SF, FloatAxioms.add_spec. apply SFadd_nonneg. Qed.

(** The magnitude of a negative float. *)
Lemma opp_negative_nonneg a : (a <? 0)%float = true -> Float64.nonneg_class (- a).
Proof.
  rewrite nonneg_class_SF, FloatAxioms.opp_spec, FloatAxioms.ltb_spec.
  change (Prim2SF 0) with (S754_zero false).
  by destruct (Prim2SF a) as [[]|[]| |[] m e].
Qed.

(** *** The order on non-negative floats *)

Lemma SFltb_key x y :
  Float64.SFnonneg x -> Float64.SFnonneg y ->
  (SFltb x y = true <-> Float64.lex_lt (Float64.key x) (Float64.key y)).
Proof.
  destruct x as [[]|[]| |[] mx ex], y as [[]|[]| |[] my ey]; simpl; try done;
    intros _ _; unfold SFltb; simpl; try (split; [done | lia]); try (split; [lia | done]).
  change (Pos.compare_cont Eq mx my) with (mx ?= my)%positive.
  destruct (Z.compare_spec ex ey); [destruct (Pos.compare_spec mx my)| |];
    split; try done; try lia.
Qed.

Lemma SFleb_key x y :
  Float64.SFnonneg x -> Float64.SFnonneg y ->
  (SFleb x y = true <-> ~ Float64.lex_lt (Float64.key y) (Float64.key x)).
Proof.
  destruct x as [[]|[]| |[] mx ex], y as [[]|[]| |[] my ey]; simpl; try done;
    intros _ _; unfold SFleb; simpl; try (split; [lia | done]); try (split; [done | lia]).
  change (Pos.compare_cont Eq mx my) with (mx ?= my)%positive.
  destruct (Z.compare_spec ex ey); [destruct (Pos.compare_spec mx my)| |];
    split; try done; try lia.
Qed.

(** On non-negative floats, [<=] is total and transitive. *)
Lemma ltb_false_leb x y :
  Float64.nonneg_class x -> Float64.nonneg_class y ->
  (x <? y)%float = false -> (y <=? x)%float = true.
Proof.
  rewrite !nonneg_class_SF, FloatAxioms.ltb_spec, FloatAxioms.leb_spec. intros Hx Hy H.
  apply SFleb_key; [done..|]. intros Hlt. apply (SFltb_key _ _ Hx Hy) in Hlt. congruence.
Qed.

Lemma leb_trans x y z :
  Float64.nonneg_class x -> Float64.nonneg_class y -> Float64.nonneg_class z ->
  (x <=? y)%float = true -> (y <=? z)%float = true -> (x <=? z)%float = true.
Proof.
  rewrite !nonneg_class_SF, !FloatAxioms.leb_spec. intros Hx Hy Hz.
  rewrite !SFleb_key by done.
  destruct (Float64.key (Prim2SF x)) as [[? ?] ?], (Float64.key (Prim2SF y)) as [[? ?] ?],
    (Float64.key (Prim2SF z)) as [[? ?] ?]. unfold Float64.lex_lt. lia.
Qed.

Lemma ltb_asym x y : (x <? y)%float = true -> (y <? x)%float = false.
Proof.
  rewrite !FloatAxioms.ltb_spec. unfold SFltb.
  destruct (Prim2SF x) as [[]|[]| |[] mx ex], (Prim2SF y) as [[]|[]| |[] my ey]; simpl;
    try done;
    change (Pos.compare_cont Eq mx my) with (mx ?= my)%positive;
    change (Pos.compare_cont Eq my mx) with (my ?= mx)%positive;
    rewrite (Z.compare_antisym ex ey), (Pos.compare_antisym mx my);
    destruct (ex ?= ey); simpl; try done; by destruct (mx ?= my)%positive.
Qed.

(** ** sort.Slice: a sorted permutation *)

Lemma StronglySorted_snoc {A} (R : A -> A -> Prop) l a :
  StronglySorted R l -> Forall (fun x => R x a) l -> StronglySorted R (l ++ [a]).
Proof.
  induction 1 as [|b l Hs IH Hall]; intros Ha; simpl.
  - repeat constructor.
  - apply Forall_cons in Ha as [Hba Ha]. constructor; [by apply IH|].
    apply Forall_app. split; [done|]. by constructor.
Qed.

Lemma StronglySorted_rev {A} (R : A -> A -> Prop) l :
  StronglySorted (fun a b => R b a) l -> StronglySorted R (rev l).
Proof.
  induction 1 as [|a l Hs IH Hall]; simpl; [constructor|].
  apply StronglySorted_snoc; [done|]. by apply Forall_rev.
Qed.

Lemma StronglySorted_take {A} (R : A -> A -> Prop) n l :
  StronglySorted R l -> StronglySorted R (take n l).
Proof.
  intros Hs. revert n. induction Hs as [|a l Hs IH Hall]; intros [|n]; simpl;
    try constructor; [apply IH|].
  rewrite Forall_forall in Hall |- *. intros x Hx. apply Hall.
  by apply (subseteq_take n l).
Qed.

Section sorting.
Context {A : Type} (less : A -> A -> bool).
(** [ge x y]: [x] may stand before [y]; [P] holds of the elements sorted. *)
Variable ge : A -> A -> Prop.
Variable P : A -> Prop.
Hypothesis less_false : forall x y, P x -> P y -> less x y = false -> ge y x.
Hypothesis less_true : forall x y, P x -> P y -> less x y = true -> ge x y.
Hypothesis ge_trans : forall x y z, P x -> P y -> P z -> ge x y -> ge y z -> ge x z.

Lemma sink_perm x revPrefix : sort.sink less x revPrefix ≡ₚ x :: revPrefix.
Proof.
  induction revPrefix as [|y rest IH]; simpl; [done|].
  destruct (less x y); [|done]. rewrite IH. apply perm_swap.
Qed.

Lemma Slice_perm data : sort.Slice less data ≡ₚ data.
Proof.
  unfold sort.Slice. rewrite <- Permutation_rev.
  assert (H : forall acc, fold_left (fun revPrefix x => sort.sink less x revPrefix) data acc
                          ≡ₚ data ++ acc).
  { induction data as [|x data IH]; intros acc; simpl; [done|].
    rewrite IH, sink_perm. by rewrite Permutation_middle. }
  rewrite H. by rewrite app_nil_r.
Qed.

(** Sinking keeps the reversed prefix ascending. *)
Lemma sink_sorted x revPrefix :
  P x -> Forall P revPrefix ->
  StronglySorted (fun a b => ge b a) revPrefix ->
  StronglySorted (fun a b => ge b a) (sort.sink less x revPrefix).
Proof.
  intros Hx. induction revPrefix as [|y rest IH]; intros HP Hs; simpl.
  - repeat constructor.
  - apply Forall_cons in HP as [Hy HP]. apply StronglySorted_inv in Hs as [Hs Hall].
    destruct (less x y) eqn:E.
    + constructor; [by apply IH|].
      rewrite sink_perm. constructor; [by apply less_true | done].
    + constructor; [by constructor|].
      assert (Hyx : ge y x) by by apply less_false.
      constructor; [done|].
      rewrite Forall_forall in Hall, HP |- *. intros z Hz.
      apply (ge_trans z y x); auto.
Qed.

Lemma Slice_sorted data :
  Forall P data -> StronglySorted ge (sort.Slice less data).
Proof.
  intros HP. unfold sort.Slice.
  assert (H : forall acc, Forall P acc -> StronglySorted (fun a b => ge b a) acc ->
               StronglySorted (fun a b => ge b a)
                 (fold_left (fun revPrefix x => sort.sink less x revPrefix) data acc)).
  { induction HP as [|x data Hx HP IH]; intros acc Hacc Hs; simpl; [done|].
    apply IH; [|by apply sink_sorted].
    rewrite sink_perm. by constructor. }
  specialize (H [] (Forall_nil_2 _) (SSorted_nil _)).
  by apply StronglySorted_rev.
Qed.
End sorting.

(** ** The payee summary: ranking and the top N *)

Lemma payeeAdd_ok key s amount : payee_ok key s -> payee_ok key (payeeAdd s amount).
Proof.
  intros (Hid & Hout & Hname). split_and!; simpl; [done| |done].
  destruct (amount <? 0)%float eqn:E; [|done].
  apply add_nonneg; [done|]. by apply opp_negative_nonneg.
Qed.

Lemma newPayeeSummary_ok key tx : payee_ok key (newPayeeSummary key tx).
Proof. split_and!; simpl; [done|apply zero_nonneg|]. intros ->. done. Qed.

Lemma payeeStep_ok m tx : map_Forall payee_ok m -> map_Forall payee_ok (payeeStep m tx).
Proof.
  intros Hm. unfold payeeStep. destruct (isTransfer tx); [done|].
  destruct (tx_Deleted tx); [done|].
  apply map_Forall_insert_2; [|done]. apply payeeAdd_ok.
  destruct (m !! payeeKey tx) as [s|] eqn:E; [by apply (Hm _ _ E)|].
  apply newPayeeSummary_ok.
Qed.

(** Every payee bucket carries its key, a total outflow that is a sum of
    magnitudes, and the name "No Payee" under the synthetic key. *)
Lemma aggregateByPayee_ok txs : map_Forall payee_ok (aggregateByPayee txs).
Proof.
  unfold aggregateByPayee.
  assert (H : forall m, map_Forall payee_ok m -> map_Forall payee_ok (fold_left payeeStep txs m)).
  { induction txs as [|tx txs IH]; intros m Hm; simpl; [done|]. by apply IH, payeeStep_ok. }
  apply H, map_Forall_empty.
Qed.

(** A bucket, once created, stays. *)
Lemma payeeStep_keeps m tx k : is_Some (m !! k) -> is_Some (payeeStep m tx !! k).
Proof.
  intros Hk. unfold payeeStep. destruct (isTransfer tx); [done|].
  destruct (tx_Deleted tx); [done|].
  destruct (decide (payeeKey tx = k)) as [->|Hne].
  - rewrite lookup_insert_eq. eauto.
  - by rewrite lookup_insert_ne.
Qed.

Lemma fold_payeeStep_keeps txs m k :
  is_Some (m !! k) -> is_Some (fold_left payeeStep txs m !! k).
Proof.
  revert m. induction txs as [|tx txs IH]; intros m Hk; simpl; [done|].
  by apply IH, payeeStep_keeps.
Qed.

Lemma aggregateByPayee_bucket txs tx :
  tx ∈ txs -> counted tx -> is_Some (aggregateByPayee txs !! payeeKey tx).
Proof.
  intros (l1 & l2 & ->)%list_elem_of_split Hc.
  unfold aggregateByPayee. rewrite fold_left_app. simpl.
  apply fold_payeeStep_keeps. rewrite payeeStep_counted by done.
  rewrite lookup_insert_eq. eauto.
Qed.

Lemma limitTo_take {A} (topN : Z) (l : list A) :
  0 <= topN -> limitTo topN l = take (Z.to_nat topN) l.
Proof.
  intros H. unfold limitTo. destruct (Z.ltb_spec topN (Z.of_nat (length l))); [done|].
  rewrite take_ge; [done | lia].
Qed.

Lemma topN_of_spec args :
  topN_of args
  = match args !! "top_n" with
    | Some (ArgNumber n) => if Float64.to_int64 n <? 1 then 20 else Float64.to_int64 n
    | _ => 20
    end.
Proof. unfold topN_of, numberArg. by destruct (args !! "top_n") as [[]|]. Qed.

Lemma topN_of_pos args : 1 <= topN_of args.
Proof.
  rewrite topN_of_spec. destruct (args !! "top_n") as [[]|]; try lia.
  destruct (Z.ltb_spec (Float64.to_int64 n) 1); lia.
Qed.

Section payee_facts.
Variable rangeOrder : forall V, gmap string V -> list (string * V).
Hypothesis rangeOrder_perm : forall V (m : gmap string V), rangeOrder V m ≡ₚ map_to_list m.

Lemma ranged_ok txs :
  Forall (fun kv => payee_ok kv.1 kv.2) (rangeOrder _ (aggregateByPayee txs)).
Proof.
  rewrite rangeOrder_perm. apply Forall_forall. intros [k s] Hin.
  apply elem_of_map_to_list in Hin. by apply (aggregateByPayee_ok txs k s).
Qed.

(** C9, as the code has it. For every transaction list, every argument bag
    and every order in which the map is ranged over: N is 20 when [top_n] is
    absent, not a number, or has an integer part below 1, and the integer
    part of [top_n] otherwise; so N is at least 1. The payees returned are
    the first N of the buckets sorted by total outflow, descending; there are
    at most N of them. A counted transaction with an empty payee ID makes a
    bucket under the key "no-payee", and that bucket's name is "No Payee". *)
Theorem payee_ranking (args : gmap string Arg) (transactions : list Transaction) :
  let N := topN_of args in
  let payees := rankPayees rangeOrder N transactions in
  (N = match args !! "top_n" with
       | Some (ArgNumber n) => if Float64.to_int64 n <? 1 then 20 else Float64.to_int64 n
       | _ => 20
       end)
  /\ 1 <= N
  /\ Z.of_nat (length payees) <= N
  /\ StronglySorted by_outflow_desc payees
  /\ (exists all, all ≡ₚ map snd (map_to_list (aggregateByPayee transactions))
                  /\ StronglySorted by_outflow_desc all
                  /\ payees = take (Z.to_nat N) all)
  /\ (forall tx, tx ∈ transactions -> counted tx -> tx_PayeeID tx = "" ->
         exists s, aggregateByPayee transactions !! "no-payee" = Some s
                   /\ ps_PayeeID s = "no-payee" /\ ps_PayeeName s = "No Payee").
Proof.
  intros N payees.
  set (less := fun pi pj : payeeSummary => (ps_TotalOutflow pj <? ps_TotalOutflow pi)%float).
  set (collected := map snd (rangeOrder _ (aggregateByPayee transactions))).
  assert (Hcls : Forall (fun s => Float64.nonneg_class (ps_TotalOutflow s)) collected).
  { unfold collected. apply Forall_map.
    eapply Forall_impl; [apply ranged_ok|]. by intros [k s] (_ & H & _). }
  assert (Hsorted : StronglySorted by_outflow_desc (sort.Slice less collected)).
  { apply (Slice_sorted less by_outflow_desc
             (fun s => Float64.nonneg_class (ps_TotalOutflow s))); [| | |done].
    - intros x y Hx Hy Hl. unfold by_outflow_desc. by apply ltb_false_leb.
    - intros x y Hx Hy Hl. unfold by_outflow_desc, less in *.
      apply ltb_false_leb; [done..|]. by apply ltb_asym.
    - intros x y z Hx Hy Hz Hxy Hyz. unfold by_outflow_desc in *.
      by apply (leb_trans _ (ps_TotalOutflow y)). }
  assert (HN : 1 <= N) by apply topN_of_pos.
  assert (Hp : payees = take (Z.to_nat N) (sort.Slice less collected)).
  { unfold payees, rankPayees. by rewrite limitTo_take by lia. }
  split_and!.
  - apply topN_of_spec.
  - done.
  - rewrite Hp, length_take. lia.
  - rewrite Hp. by apply StronglySorted_take.
  - exists (sort.Slice less collected). split_and!; [|done|done].
    rewrite Slice_perm. unfold collected. by rewrite rangeOrder_perm.
  - intros tx Hin Hc Hid.
    destruct (aggregateByPayee_bucket transactions tx Hin Hc) as [s Hs].
    assert (Hk : payeeKey tx = "no-payee") by (unfold payeeKey; by rewrite Hid).
    rewrite Hk in Hs. exists s. split; [done|].
    destruct (aggregateByPayee_ok transactions _ _ Hs) as (Hi & _ & Hn). auto.
Qed.
End payee_facts.

(** Three counted transactions, ranged over in the order of [map_to_list],
    with [top_n = 1]: one payee comes back. *)
Lemma payee_ranking_witness :
  (forall V (m : gmap string V), examples.listOrder V m ≡ₚ map_to_list m)
  /\ topN_of examples.oneTopN = 1
  /\ Z.of_nat (length (rankPayees examples.listOrder (topN_of examples.oneTopN)
                         [examples.groceries; examples.salary; examples.rent])) <= 1
  /\ StronglySorted by_outflow_desc
       (rankPayees examples.listOrder (topN_of examples.oneTopN)
          [examples.groceries; examples.salary; examples.rent]).
Proof.
  assert (Hperm : forall V (m : gmap string V), examples.listOrder V m ≡ₚ map_to_list m)
    by reflexivity.
  destruct (payee_ranking examples.listOrder Hperm examples.oneTopN
              [examples.groceries; examples.salary; examples.rent])
    as (HN & _ & Hlen & Hsorted & _).
  assert (H1 : topN_of examples.oneTopN = 1) by (by vm_compute).
  split_and!; [exact Hperm | exact H1 | | exact Hsorted].
  rewrite H1 in Hlen. exact Hlen.
Defined.

(** C9, as the specification words it, fails: with [top_n = 0] the minimum
    of 1 would allow one bucket, and the code returns two, because it falls
    back to the default of 20. *)
Lemma top_n_zero_is_not_raised_to_one :
  let payees := rankPayees examples.listOrder (topN_of examples.zeroTopN)
                  [examples.groceries; examples.rent] in
  spec_topN examples.zeroTopN = 1
  /\ topN_of examples.zeroTopN = 20
  /\ length payees = 2%nat
  /\ (Z.of_nat (length payees) <=? spec_topN examples.zeroTopN) = false.
Proof. by vm_compute. Qed.

(** ** The account balances snapshot *)

Lemma balances_from accounts bs on off :
  fold_left balancesStep accounts (bs, on, off)
  = (bs ++ map balanceOf (filter listed accounts),
     sumBalances on (filter (inTotals true) accounts),
     sumBalances off (filter (inTotals false) accounts)).
Proof.
  revert bs on off. induction accounts as [|a accounts IH]; intros bs on off.
  - simpl. by rewrite app_nil_r.
  - cbn [fold_left]. unfold balancesStep at 2.
    destruct (acc_Deleted a) eqn:Ed.
    { rewrite IH. rewrite !filter_cons_False; [done|..]; unfold inTotals, listed; rewrite Ed;
        try done; by intros []. }
    rewrite (filter_cons_True listed) by done.
    destruct (acc_Closed a) eqn:Ec; simpl negb; cbv iota.
    { rewrite IH. rewrite !filter_cons_False;
        [|unfold inTotals; rewrite Ec; by intros (?&?&?)..].
      by rewrite <- app_assoc. }
    destruct (acc_OnBudget a) eqn:Eo; rewrite IH.
    + rewrite (filter_cons_True (inTotals true)) by done.
      rewrite (filter_cons_False (inTotals false))
        by (unfold inTotals; rewrite Eo; by intros (?&?&?)).
      by rewrite <- app_assoc.
    + rewrite (filter_cons_False (inTotals true))
        by (unfold inTotals; rewrite Eo; by intros (?&?&?)).
      rewrite (filter_cons_True (inTotals false)) by done.
      by rewrite <- app_assoc.
Qed.

(** C7. For every account list, the snapshot lists the accounts that are
    not deleted, in order, each with its three balances divided by 1000; the
    on-budget and off-budget totals are the sums of the displayed balances
    of the accounts that are neither deleted nor closed, split by the
    on-budget flag; the net worth is the sum of the two totals. For the
    accounts A, B, C of the specification the totals are 100, 50 and 150, and
    C is listed, closed, with the balance 99999/1000 (the float nearest to
    99.999). *)
Theorem balances_snapshot (accounts : list Account) :
  let result := accountBalances accounts in
  br_accounts result = map balanceOf (filter listed accounts)
  /\ (forall a, ab_CurrentBalance (balanceOf a) = (Float64.of_int64 (acc_Balance a) / 1000)%float
                /\ ab_ClearedBalance (balanceOf a)
                   = (Float64.of_int64 (acc_ClearedBalance a) / 1000)%float
                /\ ab_UnclearedBalance (balanceOf a)
                   = (Float64.of_int64 (acc_UnclearedBalance a) / 1000)%float)
  /\ br_total_on_budget result = sumBalances 0 (filter (inTotals true) accounts)
  /\ br_total_off_budget result = sumBalances 0 (filter (inTotals false) accounts)
  /\ br_net_worth result = (br_total_on_budget result + br_total_off_budget result)%float
  /\ (let scenario := accountBalances examples.scenarioAccounts in
      br_total_on_budget scenario = 100%float
      /\ br_total_off_budget scenario = 50%float
      /\ br_net_worth scenario = 150%float
      /\ map (fun b => (ab_AccountID b, ab_CurrentBalance b, ab_Closed b)) (br_accounts scenario)
         = [("A", 100%float, false); ("B", 50%float, false);
            ("C", 0x1.8ffef9db22d0ep+6%float, true)]).
Proof.
  cbv zeta. split_and!; try (unfold accountBalances; by rewrite balances_from); try done.
  all: vm_compute; reflexivity.
Qed.

(** ** The unit conversion helpers *)

(** C6, at a display amount the round trip loses. The float nearest to
    2.01, which is also [MilliunitsToFloat 2010], times 1000 is the float
    just below 2010, and the integer cast cuts it to 2009: the round trip
    returns 2.009 and not 2.01. (The amount 45.67 of the specification does
    round-trip.) *)
Theorem round_trip_loses_a_milliunit :
  let x := 0x1.0147ae147ae14p+1%float in
  x = MilliunitsToFloat 2010
  /\ (x * 1000)%float = 0x1.f67ffffffffffp+10%float
  /\ FloatToMilliunits x = 2009
  /\ MilliunitsToFloat (FloatToMilliunits x) = MilliunitsToFloat 2009
  /\ (MilliunitsToFloat (FloatToMilliunits x) =? x)%float = false
  /\ FloatToMilliunits (MilliunitsToFloat 45670) = 45670.
Proof. cbv zeta. split_and!; vm_compute; reflexivity. Qed.

(** ** Point lookups: an example *)

(** The soft-deleted payee of the examples is found by its ID; an unknown
    ID is reported as not found. *)
Example GetPayee_finds_deleted :
  fst (Net.run (GetPayee examples.acceptAll (JsonUnmarshal0 := examples.decodeAPIError)
                  (JsonUnmarshal3 := examples.decodePayees) examples.client "budget" "p2")
               examples.okNet)
  = inr examples.closedShop
  /\ payee_Deleted examples.closedShop = true
  /\ fst (Net.run (GetPayee examples.acceptAll (JsonUnmarshal0 := examples.decodeAPIError)
                     (JsonUnmarshal3 := examples.decodePayees) examples.client "budget" "p9")
                  examples.okNet)
     = inl (Errorf "payee not found: p9").
Proof. by vm_compute. Qed.

(** * Further properties of the helpers and the handlers *)

(** ** Months: parsing, the last N months *)

Lemma Parse_month_inv value t :
  time.Parse_month value = inr t ->
  0 <= time.Year t <= 9999 /\ 1 <= time.Month t <= 12 /\ time.Day t = 1
  /\ value = time.Format_month t.
Proof.
  unfold time.Parse_month.
  destruct (time.getLongYear value) as [[year v1]|] eqn:E1; [|done].
  destruct (time.skipDash v1) as [v2|] eqn:E2; [|done].
  destruct (time.getnum_fixed v2) as [[month v3]|] eqn:E3; [|done].
  destruct ((month <=? 0) || (12 <? month)) eqn:Em; [done|].
  destruct (String.eqb_spec v3 ""); [|done]. simpl.
  intros [= <-]. apply orb_false_elim in Em as [Em1 Em2].
  apply getLongYear_inv in E1 as [Hy ->]. apply skipDash_inv in E2 as ->.
  apply getnum_fixed_inv in E3 as [_ ->]. subst v3. simpl.
  split; [lia|]. split; [lia|]. split; [done|].
  unfold time.Format_month. simpl. rewrite ?append_assoc. by rewrite append_empty_r.
Qed.

Lemma Parse_month_Format t :
  0 <= time.Year t <= 9999 -> 1 <= time.Month t <= 12 ->
  time.Parse_month (time.Format_month t)
  = inr {| time.Year := time.Year t; time.Month := time.Month t; time.Day := 1 |}.
Proof.
  intros Hy Hm. unfold time.Parse_month, time.Format_month. rewrite ?append_assoc.
  rewrite getLongYear_fmt4 by done. rewrite skipDash_dash.
  rewrite <- (append_empty_r (time.fmt2 (time.Month t))).
  rewrite getnum_fixed_fmt2 by lia.
  replace ((time.Month t <=? 0) || (12 <? time.Month t)) with false
    by (symmetry; apply orb_false_intro; lia).
  done.
Qed.

Lemma Format_month_nonempty t : time.Format_month t <> "".
Proof. unfold time.Format_month, time.fmt4. by rewrite !append_String. Qed.

(** X1. [parseMonth] accepts exactly the strings [getMonthString] writes:
    it returns a date exactly when the string is the four-digit year, a
    dash and the two-digit month of that date, and the date is the first
    day of that month; so parsing the month string of any date gives the
    first day of its month. *)
Theorem parseMonth_round_trip (monthStr : string) (t : time.Time) :
  (parseMonth monthStr = inr t <->
     0 <= time.Year t <= 9999 /\ 1 <= time.Month t <= 12 /\ time.Day t = 1
     /\ monthStr = getMonthString t)
  /\ (time.ValidDate t ->
      parseMonth (getMonthString t)
      = inr {| time.Year := time.Year t; time.Month := time.Month t; time.Day := 1 |}).
Proof.
  assert (Hfwd : forall t', 0 <= time.Year t' <= 9999 -> 1 <= time.Month t' <= 12 ->
            parseMonth (getMonthString t')
            = inr {| time.Year := time.Year t'; time.Month := time.Month t'; time.Day := 1 |}).
  { intros t' Hy Hm. unfold parseMonth, getMonthString.
    destruct (String.eqb_spec (time.Format_month t') "") as [E|_];
      [by apply Format_month_nonempty in E|].
    by rewrite Parse_month_Format. }
  split.
  - split.
    + unfold parseMonth. destruct (String.eqb_spec monthStr ""); [done|].
      destruct (time.Parse_month monthStr) as [err|t'] eqn:E; [done|].
      intros [= <-]. by apply Parse_month_inv.
    + intros (Hy & Hm & Hd & ->). rewrite Hfwd by done. destruct t; simpl in *. by subst.
  - intros (Hy & Hm & _). by apply Hfwd.
Qed.

(** Filling a slice front to back, index by index, is a map. *)
Lemma fill_in_order {A} (g : nat -> A) (d : A) (filled : list A) (a b : nat) :
  length filled = a ->
  fold_left (fun l j => <[j := g j]> l) (seq a b) (filled ++ replicate b d)
  = filled ++ map g (seq a b).
Proof.
  revert a filled. induction b as [|b IH]; intros a filled Hlen; [done|].
  simpl. rewrite insert_app_r_alt by lia. replace (a - length filled)%nat with 0%nat by lia.
  simpl. rewrite (cons_middle (g a) filled), app_assoc.
  rewrite IH by (rewrite length_app; simpl; lia). by rewrite <- app_assoc.
Qed.

Lemma fold_left_fmap {A B C} (f : A -> C -> A) (g : B -> C) (l : list B) (a : A) :
  fold_left f (map g l) a = fold_left (fun a x => f a (g x)) l a.
Proof. revert a. induction l as [|x l IH]; intros a; [done|]. simpl. apply IH. Qed.

Lemma fold_left_pointwise {A B} (f g : A -> B -> A) (l : list B) (a : A) :
  (forall a x, f a x = g a x) -> fold_left f l a = fold_left g l a.
Proof.
  intros Hfg. revert a. induction l as [|x l IH]; intros a; [done|]. simpl. by rewrite Hfg, IH.
Qed.

Lemma countdown_nat (k : nat) :
  countdown (Z.of_nat k) = map (fun j : nat => Z.of_nat k - 1 - Z.of_nat j) (seq 0 k).
Proof.
  unfold countdown, seqZ. rewrite Nat2Z.id.
  induction k as [|k IH]; [done|].
  rewrite seq_S at 1. rewrite fmap_app, rev_app_distr. simpl rev. simpl app.
  rewrite IH. cbn [seq map]. f_equal; [lia|].
  rewrite <- seq_shift, map_map. apply map_ext. intros j. lia.
Qed.

Lemma countdown_map n :
  0 <= n -> countdown n = map (fun j : nat => n - 1 - Z.of_nat j) (seq 0 (Z.to_nat n)).
Proof.
  intros Hn. rewrite <- (Z2Nat.id n) at 1 by done. rewrite countdown_nat.
  apply map_ext. intros j. lia.
Qed.

(** The list [getLastNMonths] builds, entry by entry. *)
Lemma getLastNMonths_map now n :
  getLastNMonths now n
  = map (fun j : nat => getMonthString (time.AddDate_months now (- (clampMonths n - 1 - Z.of_nat j))))
        (seq 0 (Z.to_nat (clampMonths n))).
Proof.
  unfold getLastNMonths.
  assert (Hc : (if 24 <? (if n <? 1 then 1 else n) then 24 else if n <? 1 then 1 else n)
               = clampMonths n).
  { unfold clampMonths. destruct (Z.ltb_spec n 1); [destruct (Z.ltb_spec 24 1)|destruct (Z.ltb_spec 24 n)]; lia. }
  rewrite Hc. set (c := clampMonths n).
  assert (0 <= c) by (unfold c, clampMonths; lia).
  rewrite countdown_map by done. rewrite fold_left_fmap.
  rewrite (fold_left_pointwise _
             (fun l j => <[j := getMonthString (time.AddDate_months now (- (c - 1 - Z.of_nat j)))]> l)).
  2:{ intros l j. f_equal. lia. }
  apply (fill_in_order _ "" [] 0). done.
Qed.

Lemma daysIn_ge m y : 28 <= time.daysIn m y.
Proof. unfold time.daysIn. repeat case_match; lia. Qed.

Lemma daysIn_12 y : time.daysIn 12 y = 31.
Proof. reflexivity. Qed.

(** No day runs over when the day exists in the month arrived at. *)
Lemma AddDate_months_fits t k :
  time.Day t <= time.daysIn ((time.Month t - 1 + k) mod 12 + 1)
                            (time.Year t + (time.Month t - 1 + k) / 12) ->
  time.AddDate_months t k
  = {| time.Year := (monthIndex t + k) / 12; time.Month := (monthIndex t + k) mod 12 + 1;
       time.Day := time.Day t |}.
Proof.
  intros H. unfold time.AddDate_months. cbv zeta.
  destruct (Z.leb_spec (time.Day t)
              (time.daysIn ((time.Month t - 1 + k) mod 12 + 1)
                 (time.Year t + (time.Month t - 1 + k) / 12))); [|lia].
  unfold monthIndex. f_equal; div_lia.
Qed.

(** A day past the end of the month arrived at runs on into the month
    after it. *)
Lemma AddDate_months_overflows t k :
  time.Day t <= 31 ->
  time.daysIn ((time.Month t - 1 + k) mod 12 + 1)
              (time.Year t + (time.Month t - 1 + k) / 12) < time.Day t ->
  time.AddDate_months t k
  = {| time.Year := (monthIndex t + k + 1) / 12; time.Month := (monthIndex t + k + 1) mod 12 + 1;
       time.Day := time.Day t
                   - time.daysIn ((time.Month t - 1 + k) mod 12 + 1)
                                 (time.Year t + (time.Month t - 1 + k) / 12) |}.
Proof.
  intros Hd H. unfold time.AddDate_months. cbv zeta.
  destruct (Z.leb_spec (time.Day t)
              (time.daysIn ((time.Month t - 1 + k) mod 12 + 1)
                 (time.Year t + (time.Month t - 1 + k) / 12))); [lia|].
  destruct (Z.ltb_spec ((time.Month t - 1 + k) mod 12 + 1) 12) as [Hlt|Hge].
  - unfold monthIndex. f_equal; div_lia.
  - assert (Hm : (time.Month t - 1 + k) mod 12 + 1 = 12) by div_lia.
    rewrite Hm in H. rewrite daysIn_12 in H. lia.
Qed.

(** [AddDate] agrees with the day count: the date it returns is the first
    of the month arrived at plus the days of the date, less one. *)
Lemma AddDate_months_unixDays t k :
  1 <= time.Day t <= 31 ->
  time.unixDays (time.AddDate_months t k)
  = time.unixDays {| time.Year := (monthIndex t + k) / 12;
                     time.Month := (monthIndex t + k) mod 12 + 1; time.Day := 1 |}
    + (time.Day t - 1).
Proof.
  intros Hd.
  destruct (Z.le_gt_cases (time.Day t)
              (time.daysIn ((time.Month t - 1 + k) mod 12 + 1)
                 (time.Year t + (time.Month t - 1 + k) / 12))) as [Hfit|Hover].
  - rewrite AddDate_months_fits by done. unfold time.unixDays. simpl. lia.
  - rewrite AddDate_months_overflows by lia.
    replace (time.Year t + (time.Month t - 1 + k) / 12) with ((monthIndex t + k) / 12) in *
      by (unfold monthIndex; div_lia).
    replace ((time.Month t - 1 + k) mod 12) with ((monthIndex t + k) mod 12) in *
      by (unfold monthIndex; div_lia).
    set (i := monthIndex t + k) in *.
    assert (Hi : i = 12 * (i / 12) + i mod 12) by div_lia.
    assert (Hr : 0 <= i mod 12 < 12) by div_lia.
    set (y := i / 12) in *. set (m := i mod 12) in *.
    replace ((i + 1) / 12) with (if m =? 11 then y + 1 else y)
      by (destruct (Z.eqb_spec m 11); div_lia).
    replace ((i + 1) mod 12) with (if m =? 11 then 0 else m + 1)
      by (destruct (Z.eqb_spec m 11); div_lia).
    assert (m = 0 \/ m = 1 \/ m = 2 \/ m = 3 \/ m = 4 \/ m = 5 \/ m = 6 \/ m = 7 \/ m = 8
            \/ m = 9 \/ m = 10 \/ m = 11) as Hcases by lia.
    clearbody m y. clear Hi Hr i.
    unfold time.unixDays, time.daysIn, time.isLeap in *.
    destruct Hcases as [->|[->|[->|[->|[->|[->|[->|[->|[->|[->|[->| ->]]]]]]]]]]]; simpl in *;
      repeat match goal with
             | H : context [?a =? ?b] |- _ => destruct (Z.eqb_spec a b); simpl in H
             | |- context [?a =? ?b] => destruct (Z.eqb_spec a b); simpl
             end;
      simpl in *; div_lia.
Qed.

Lemma parseMonth_Format t :
  0 <= time.Year t <= 9999 -> 1 <= time.Month t <= 12 ->
  parseMonth (getMonthString t)
  = inr {| time.Year := time.Year t; time.Month := time.Month t; time.Day := 1 |}.
Proof.
  intros Hy Hm. unfold parseMonth, getMonthString.
  destruct (String.eqb_spec (time.Format_month t) "") as [E|_];
    [by apply Format_month_nonempty in E|].
  by rewrite Parse_month_Format.
Qed.

Lemma clampMonths_range n : 1 <= clampMonths n <= 24.
Proof. unfold clampMonths. lia. Qed.

Lemma monthIndex_split t :
  1 <= time.Month t <= 12 ->
  monthIndex t / 12 = time.Year t /\ monthIndex t mod 12 + 1 = time.Month t.
Proof. unfold monthIndex. intros H. split; div_lia. Qed.

(** The date [AddDate] arrives at, for 0 to 23 months back from a valid
    date: a month of the years 0 to 9999 when the year of the date is
    at least 2. *)
Lemma AddDate_months_back now k :
  time.ValidDate now -> 2 <= time.Year now -> -23 <= k <= 0 ->
  let r := time.AddDate_months now k in
  0 <= time.Year r <= 9999 /\ 1 <= time.Month r <= 12.
Proof.
  intros (Hy & Hm & Hd) Hy2 Hk. cbv zeta.
  pose proof (daysIn_le (time.Month now) (time.Year now)).
  destruct (Z.le_gt_cases (time.Day now)
              (time.daysIn ((time.Month now - 1 + k) mod 12 + 1)
                 (time.Year now + (time.Month now - 1 + k) / 12))) as [Hfit|Hover].
  - rewrite AddDate_months_fits by done. simpl. unfold monthIndex. split; div_lia.
  - assert (k <> 0).
    { intros ->. replace (time.Month now - 1 + 0) with (time.Month now - 1) in Hover by lia.
      replace ((time.Month now - 1) mod 12 + 1) with (time.Month now) in Hover by div_lia.
      replace ((time.Month now - 1) / 12) with 0 in Hover by div_lia.
      rewrite Z.add_0_r in Hover. lia. }
    rewrite AddDate_months_overflows by lia. simpl. unfold monthIndex. split; div_lia.
Qed.

Lemma AddDate_months_0 now : time.ValidDate now -> time.AddDate_months now 0 = now.
Proof.
  intros (Hy & Hm & Hd). rewrite AddDate_months_fits.
  - rewrite Z.add_0_r. destruct (monthIndex_split now Hm) as [-> ->]. by destruct now.
  - replace (time.Month now - 1 + 0) with (time.Month now - 1) by lia.
    replace ((time.Month now - 1) mod 12 + 1) with (time.Month now) by div_lia.
    replace ((time.Month now - 1) / 12) with 0 by div_lia.
    rewrite Z.add_0_r. lia.
Qed.

(** X2. [getLastNMonths] returns the number of months asked for, brought
    into 1..24, so never an empty list; the last entry is the current
    month; every entry is a month string [parseMonth] accepts, and with
    ["-01"] appended it is the date of the first day of that month. *)
Theorem getLastNMonths_shape (now : time.Time) (n : Z) :
  time.ValidDate now -> 2 <= time.Year now ->
  length (getLastNMonths now n) = Z.to_nat (clampMonths n)
  /\ 1 <= clampMonths n <= 24
  /\ (1 <= n <= 24 -> clampMonths n = n)
  /\ last (getLastNMonths now n) = Some (getCurrentMonth now)
  /\ Forall (fun month => exists t, parseMonth month = inr t
                                    /\ parseDate (month +:+ "-01") = inr t)
            (getLastNMonths now n).
Proof.
  intros Hv Hy2. pose proof (clampMonths_range n) as Hc.
  rewrite getLastNMonths_map. set (c := clampMonths n) in *.
  split_and!.
  - by rewrite length_map, length_seq.
  - lia.
  - lia.
  - intros Hn. unfold c, clampMonths. lia.
  - replace (Z.to_nat c) with (S (Z.to_nat c - 1)) by lia.
    rewrite seq_S, map_app. simpl. rewrite last_snoc. do 2 f_equal.
    replace (- (c - 1 - Z.of_nat (Z.to_nat c - 1))) with 0 by lia.
    by rewrite AddDate_months_0.
  - apply List.Forall_forall. intros month [j [<- Hj]]%in_map_iff. apply in_seq in Hj.
    destruct (AddDate_months_back now (- (c - 1 - Z.of_nat j)) Hv Hy2) as [Hy Hm]; [lia|].
    set (r := time.AddDate_months now (- (c - 1 - Z.of_nat j))) in *.
    exists {| time.Year := time.Year r; time.Month := time.Month r; time.Day := 1 |}.
    split; [by apply parseMonth_Format|].
    apply parseDate_valid. split.
    + unfold time.ValidDate. simpl. pose proof (daysIn_ge (time.Month r) (time.Year r)). lia.
    + unfold getMonthString, time.Format_date, time.Format_month. simpl.
      by rewrite !append_assoc.
Qed.

Lemma getMonthString_ofMonthIndex i d :
  getMonthString {| time.Year := i / 12; time.Month := i mod 12 + 1; time.Day := d |}
  = getMonthString (ofMonthIndex i).
Proof. reflexivity. Qed.

Lemma getMonthString_ofMonthIndex_inj i j :
  0 <= i < 120000 -> 0 <= j < 120000 ->
  getMonthString (ofMonthIndex i) = getMonthString (ofMonthIndex j) -> i = j.
Proof.
  intros Hi Hj E.
  assert (Hpi := parseMonth_Format (ofMonthIndex i)).
  assert (Hpj := parseMonth_Format (ofMonthIndex j)).
  simpl in Hpi, Hpj. rewrite E in Hpi.
  rewrite Hpj in Hpi by div_lia. specialize (Hpi ltac:(div_lia) ltac:(div_lia)).
  injection Hpi as E1 E2. div_lia.
Qed.

(** X3. On a day every month has (the 1st to the 28th), [getLastNMonths]
    returns the current month and the months just before it, oldest
    first, each once. *)
Theorem getLastNMonths_consecutive (now : time.Time) (n : Z) :
  time.ValidDate now -> 2 <= time.Year now -> time.Day now <= 28 ->
  getLastNMonths now n
  = map (fun j : nat =>
           getMonthString (ofMonthIndex (monthIndex now - (clampMonths n - 1 - Z.of_nat j))))
        (seq 0 (Z.to_nat (clampMonths n)))
  /\ NoDup (getLastNMonths now n).
Proof.
  intros (Hy & Hm & Hd) Hy2 H28. pose proof (clampMonths_range n) as Hc.
  assert (E : getLastNMonths now n
              = map (fun j : nat =>
                       getMonthString
                         (ofMonthIndex (monthIndex now - (clampMonths n - 1 - Z.of_nat j))))
                    (seq 0 (Z.to_nat (clampMonths n)))).
  { rewrite getLastNMonths_map. apply map_ext. intros j.
    rewrite AddDate_months_fits.
    - rewrite getMonthString_ofMonthIndex. do 2 f_equal; lia.
    - pose proof (daysIn_ge ((time.Month now - 1 + - (clampMonths n - 1 - Z.of_nat j)) mod 12 + 1)
                    (time.Year now
                     + (time.Month now - 1 + - (clampMonths n - 1 - Z.of_nat j)) / 12)).
      lia. }
  split; [exact E|]. rewrite E.
  apply (NoDup_fmap_2_strong
           (fun j : nat =>
              getMonthString (ofMonthIndex (monthIndex now - (clampMonths n - 1 - Z.of_nat j))))).
  - intros j1 j2 Hj1%elem_of_seq Hj2%elem_of_seq Heq.
    apply getMonthString_ofMonthIndex_inj in Heq; unfold monthIndex in *; lia.
  - apply NoDup_seq.
Qed.

Lemma getLastNMonths_consecutive_witness :
  let now := {| time.Year := 2024; time.Month := 3; time.Day := 15 |} in
  (time.ValidDate now /\ 2 <= time.Year now /\ time.Day now <= 28)
  /\ getLastNMonths now 3 = ["2024-01"; "2024-02"; "2024-03"]
  /\ NoDup (getLastNMonths now 3).
Proof.
  cbv zeta.
  assert (Hv : time.ValidDate {| time.Year := 2024; time.Month := 3; time.Day := 15 |})
    by (unfold time.ValidDate, time.daysIn; simpl; lia).
  split; [split; [exact Hv | split; simpl; lia]|].
  destruct (getLastNMonths_consecutive {| time.Year := 2024; time.Month := 3; time.Day := 15 |} 3
              Hv ltac:(simpl; lia) ltac:(simpl; lia)) as [E Hnd].
  split; [rewrite E; reflexivity | exact Hnd].
Defined.

(** X4. On a day the month before does not have (the 31st after a month
    of 30 days, the 29th to the 31st of March), the entry for one month
    back is the current month again: the current month is listed twice and
    the month before it is missing. *)
Theorem getLastNMonths_repeats_month (now : time.Time) (n : Z) :
  time.ValidDate now -> 2 <= n -> previousMonthDays now < time.Day now ->
  exists older,
    getLastNMonths now n = older ++ [getCurrentMonth now; getCurrentMonth now]
    /\ length older = Z.to_nat (clampMonths n - 2).
Proof.
  intros (Hy & Hm & Hd) Hn Hprev. pose proof (daysIn_le (time.Month now) (time.Year now)).
  rewrite getLastNMonths_map.
  assert (Hc : 2 <= clampMonths n) by (unfold clampMonths; lia).
  set (c := clampMonths n) in *.
  replace (Z.to_nat c) with (Z.to_nat (c - 2) + 2)%nat by lia.
  rewrite seq_app, map_app. eexists. split; [f_equal|by rewrite length_map, length_seq].
  simpl. f_equal; [|f_equal].
  - replace (- (c - 1 - Z.of_nat (Z.to_nat (c - 2)))) with (-1) by lia.
    assert (Hp : time.daysIn ((time.Month now - 1 + -1) mod 12 + 1)
                   (time.Year now + (time.Month now - 1 + -1) / 12) = previousMonthDays now).
    { unfold previousMonthDays. destruct (Z.eqb_spec (time.Month now) 1) as [->|Hne].
      - reflexivity.
      - f_equal; div_lia. }
    rewrite AddDate_months_overflows by lia.
    replace (monthIndex now + -1 + 1) with (monthIndex now) by lia.
    destruct (monthIndex_split now Hm) as [-> ->]. reflexivity.
  - replace (- (c - 1 - Z.of_nat (S (Z.to_nat (c - 2))))) with 0 by lia.
    by rewrite AddDate_months_0.
Qed.

Lemma getLastNMonths_repeats_month_witness :
  let now := {| time.Year := 2024; time.Month := 3; time.Day := 31 |} in
  (time.ValidDate now /\ 2 <= 2 /\ previousMonthDays now < time.Day now)
  /\ getLastNMonths now 2 = ["2024-03"; "2024-03"]
  /\ exists older,
       getLastNMonths now 2 = older ++ [getCurrentMonth now; getCurrentMonth now]
       /\ length older = Z.to_nat (clampMonths 2 - 2).
Proof.
  cbv zeta.
  assert (Hv : time.ValidDate {| time.Year := 2024; time.Month := 3; time.Day := 31 |})
    by (unfold time.ValidDate, time.daysIn; simpl; lia).
  assert (Hp : previousMonthDays {| time.Year := 2024; time.Month := 3; time.Day := 31 |}
               < time.Day {| time.Year := 2024; time.Month := 3; time.Day := 31 |})
    by (vm_compute; reflexivity).
  split; [split; [exact Hv | split; [lia | exact Hp]]|].
  split; [reflexivity|].
  exact (getLastNMonths_repeats_month _ 2 Hv ltac:(lia) Hp).
Defined.

Lemma collectMonths_None (summaries : gmap string monthSummary) (months : list string) :
  fold_left (fun st month =>
               match st with
               | None => None
               | Some (monthData, totalOutflow, totalInflow) =>
                   match summaries !! month with
                   | None => None
                   | Some summary =>
                       Some (monthData ++ [summary],
                             (totalOutflow + ms_TotalOutflow summary)%float,
                             (totalInflow + ms_TotalInflow summary)%float)
                   end
               end) months None = None (A := list monthSummary * float * float).
Proof. induction months as [|m months IH]; [done|]. simpl. apply IH. Qed.

Lemma collectMonths_from (summaries : gmap string monthSummary) (months : list string) acc o i :
  fold_left (fun st month =>
               match st with
               | None => None
               | Some (monthData, totalOutflow, totalInflow) =>
                   match summaries !! month with
                   | None => None
                   | Some summary =>
                       Some (monthData ++ [summary],
                             (totalOutflow + ms_TotalOutflow summary)%float,
                             (totalInflow + ms_TotalInflow summary)%float)
                   end
               end) months (Some (acc, o, i))
  = match monthData summaries months with
    | Some data =>
        Some (acc ++ data,
              fold_left (fun total b => (total + ms_TotalOutflow b)%float) data o,
              fold_left (fun total b => (total + ms_TotalInflow b)%float) data i)
    | None => None
    end.
Proof.
  revert acc o i. induction months as [|m months IH]; intros acc o i.
  - simpl. by rewrite app_nil_r.
  - unfold monthData in *. cbn [fold_left mapM]. destruct (summaries !! m) as [s|] eqn:E.
    + rewrite IH. simpl. destruct (mapM _ months) as [data|]; simpl; [|done].
      by rewrite <- app_assoc.
    + simpl. apply collectMonths_None.
Qed.

(** The collection loop reads what [monthData] reads, and adds up the
    outflows and the inflows on the way. *)
Lemma collectMonths_monthData summaries months :
  collectMonths summaries months
  = match monthData summaries months with
    | Some data => Some (data, sumOutflow data, sumInflow data)
    | None => None
    end.
Proof. unfold collectMonths. by rewrite collectMonths_from. Qed.

Lemma filterCategory_from categoryID transactions filtered :
  fold_left (fun filtered tx =>
               if decide (tx_CategoryID tx = categoryID) then filtered ++ [tx] else filtered)
            transactions filtered
  = filtered ++ filter (fun tx => tx_CategoryID tx = categoryID) transactions.
Proof.
  revert filtered. induction transactions as [|tx txs IH]; intros filtered; simpl.
  - by rewrite app_nil_r.
  - rewrite IH. rewrite filter_cons. destruct (decide (tx_CategoryID tx = categoryID)); [|done].
    by rewrite <- app_assoc.
Qed.

Lemma filterCategory_filter categoryID transactions :
  filterCategory categoryID transactions
  = filter (fun tx => tx_CategoryID tx = categoryID) transactions.
Proof. unfold filterCategory. by rewrite filterCategory_from. Qed.

Lemma getLastNMonths_cons now n :
  exists oldest rest, getLastNMonths now n = oldest :: rest.
Proof.
  rewrite getLastNMonths_map. pose proof (clampMonths_range n).
  replace (Z.to_nat (clampMonths n)) with (S (Z.to_nat (clampMonths n) - 1)) by lia.
  simpl. eauto.
Qed.

Section month_handler_facts.
Variable http_NewRequest_error : string -> string -> option error.
Variable url_QueryEscape : string -> string.
Context `{!JsonUnmarshal APIErrorResponse} `{!JsonUnmarshal CategoriesResponse}
        `{!JsonUnmarshal TransactionsResponse}.

#[local] Abbreviation getSpendingByMonth_result :=
  (getSpendingByMonth_result http_NewRequest_error url_QueryEscape).
#[local] Abbreviation transactionsCall := (transactionsCall http_NewRequest_error url_QueryEscape).
#[local] Abbreviation GetCategory := (GetCategory http_NewRequest_error).

Lemma account_routing client args budgetID query :
  (let '(accountID, ok) := stringArg args "account_id" in
   if ok && negb (String.eqb accountID "")
   then ListAccountTransactions http_NewRequest_error url_QueryEscape client budgetID accountID query
   else ListTransactions http_NewRequest_error url_QueryEscape client budgetID query)
  = transactionsCall client args budgetID query.
Proof.
  unfold tools.transactionsCall, optionalArg, stringArg.
  destruct (args !! "account_id") as [[s| |]|]; try done. simpl. by destruct (String.eqb s "").
Qed.

(** The collection loop finds a bucket for every requested month. *)
Lemma collectMonths_aggregate transactions months :
  exists data,
    collectMonths (aggregateByMonth transactions months) months
    = Some (data, sumOutflow data, sumInflow data)
    /\ map ms_Month data = months
    /\ Forall2 (fun m b => aggregateByMonth transactions months !! m = Some b) months data.
Proof.
  destruct (monthData_keyed months months (aggregateByMonth transactions months))
    as (data & Hd & Hm & Hf); [apply aggregateByMonth_keyed | done |].
  exists data. rewrite collectMonths_monthData, Hd. done.
Qed.

(** X5. [get_spending_by_month] never dereferences a missing bucket: for
    every clock, argument map and behaviour of the network the handler
    returns (a result or an error result); the read [summaries[month]] of
    its loop always finds the bucket [aggregateByMonth] made for the
    month. *)
Theorem spending_by_month_never_panics (now : time.Time) (client : Client)
    (args : gmap string Arg) (net : Net.Network) (h : list Net.Event) :
  exists r h', getSpendingByMonth_result now client args net h = (Returns r, h').
Proof.
  unfold tools.getSpendingByMonth_result.
  destruct (stringArg args "budget_id") as [budgetID ok].
  destruct (negb ok || String.eqb budgetID ""); [by eexists _, _|].
  destruct (numberArg args "num_months") as [f ok'].
  destruct (negb ok'); [by eexists _, _|].
  destruct ((Float64.to_int64 f <? 1) || (24 <? Float64.to_int64 f)); [by eexists _, _|].
  unfold_io.
  match goal with
  | |- context [let '(a, h') := ?m net h in _] => destruct (m net h) as [[early|[categoryName categoryID]] h1]
  end; [by eexists _, _|].
  destruct (getLastNMonths now (Float64.to_int64 f)) as [|oldest rest] eqn:Em; [by eexists _, _|].
  rewrite account_routing.
  destruct (transactionsCall _ _ _ _ net h1) as [[err|txs] h2]; [by eexists _, _|].
  rewrite <- Em.
  match goal with
  | |- context [collectMonths (aggregateByMonth ?t ?m) ?m] =>
      destruct (collectMonths_aggregate t m) as (data & -> & _)
  end.
  destruct (0 <? Float64.to_int64 f); by eexists _, _.
Qed.

(** X6. With a budget and a number of months from 1 to 24, once the
    category lookup (made only when [category_id] is given) and the fetch
    of the transactions succeed, the handler returns one bucket per month
    of [getLastNMonths], oldest first, read from the aggregation of the
    fetched transactions (of those of the category, when one is given),
    the name of the category or "All Categories", and as averages the sums
    of the buckets divided by the number of months. The fetch asks for the
    transactions since the first day of the oldest month. *)
Theorem spending_by_month_months (now : time.Time) (client : Client) (args : gmap string Arg)
    (net : Net.Network) (h h1 h2 : list Net.Event) (budgetID : string) (f : float)
    (category : Category) (txs : list Transaction) :
  args !! "budget_id" = Some (ArgString budgetID) -> budgetID <> "" ->
  args !! "num_months" = Some (ArgNumber f) ->
  1 <= Float64.to_int64 f <= 24 ->
  let numMonths := Float64.to_int64 f in
  let months := getLastNMonths now numMonths in
  let query := {| q_SinceDate := hd "" months +:+ "-01"; q_Type := "" |} in
  match optionalArg args "category_id" with
  | Some categoryID => GetCategory client budgetID categoryID net h = (inr category, h1)
  | None => h1 = h
  end ->
  transactionsCall client args budgetID (Some query) net h1 = (inr txs, h2) ->
  let counted := match optionalArg args "category_id" with
                 | Some categoryID => filter (fun tx => tx_CategoryID tx = categoryID) txs
                 | None => txs
                 end in
  exists data,
    getSpendingByMonth_result now client args net h
    = (Returns (inr {| mr_months := data;
                       mr_category_name := match optionalArg args "category_id" with
                                           | Some _ => cat_Name category
                                           | None => "All Categories"
                                           end;
                       mr_average_monthly_outflow :=
                         (sumOutflow data / Float64.of_int64 numMonths)%float;
                       mr_average_monthly_inflow :=
                         (sumInflow data / Float64.of_int64 numMonths)%float |}), h2)
    /\ length data = Z.to_nat numMonths
    /\ map ms_Month data = months
    /\ Forall2 (fun m b => aggregateByMonth counted months !! m = Some b) months data.
Proof.
  intros Hb Hbne Hn Hrange. cbv zeta. intros Hcat Hfetch.
  set (months := getLastNMonths now (Float64.to_int64 f)) in *.
  set (counted := match optionalArg args "category_id" with
                  | Some categoryID => filter (fun tx => tx_CategoryID tx = categoryID) txs
                  | None => txs
                  end).
  destruct (collectMonths_aggregate counted months) as (data & Hcollect & Hm & Hf).
  exists data. split_and!; [|by rewrite <- (length_map ms_Month), Hm; unfold months;
                              rewrite getLastNMonths_map, length_map, length_seq;
                              unfold clampMonths; f_equal; lia | done | done].
  unfold tools.getSpendingByMonth_result, stringArg at 1, numberArg.
  rewrite Hb, Hn. cbv beta iota. rewrite eqb_empty_false by done. cbn [negb orb].
  replace ((Float64.to_int64 f <? 1) || (24 <? Float64.to_int64 f)) with false
    by (symmetry; apply orb_false_intro; lia).
  unfold_io.
  match goal with
  | |- context [let '(a, h') := ?m net h in _] =>
      assert (Hnamed :
        m net h
        = ((inr (match optionalArg args "category_id" with
                 | Some _ => cat_Name category
                 | None => "All Categories"
                 end,
                 match optionalArg args "category_id" with Some c => c | None => "" end)
            : CallToolResult + string * string), h1))
  end.
  { unfold optionalArg, stringArg in *.
    destruct (args !! "category_id") as [[s| |]|]; simpl in *; try (by subst).
    destruct (String.eqb s ""); simpl in *; [by subst|]. by rewrite Hcat. }
  rewrite Hnamed. fold months.
  destruct (getLastNMonths_cons now (Float64.to_int64 f)) as (oldest & rest & Em).
  fold months in Em. rewrite Em in Hfetch |- *. simpl hd in Hfetch.
  rewrite account_routing, Hfetch. rewrite <- Em.
  assert (Hcounted :
    (if negb (String.eqb match optionalArg args "category_id" with Some c => c | None => "" end "")
     then filterCategory match optionalArg args "category_id" with Some c => c | None => "" end txs
     else txs) = counted).
  { unfold counted, optionalArg, stringArg.
    destruct (args !! "category_id") as [[s| |]|]; simpl; try done.
    destruct (String.eqb s "") eqn:E; simpl; [done|]. rewrite E. simpl.
    apply filterCategory_filter. }
  rewrite Hcounted, Hcollect.
  by replace (0 <? Float64.to_int64 f) with true by (symmetry; apply Z.ltb_lt; lia).
Qed.
End month_handler_facts.

Lemma not_After txDate untilTime :
  negb (time.After txDate untilTime) = (time.unixDays txDate <=? time.unixDays untilTime).
Proof.
  unfold time.After, time.unixNano, Net.Hour, Net.Second.
  destruct (Z.ltb_spec (time.unixDays untilTime * 24 * (3600 * 1000000000))
              (time.unixDays txDate * 24 * (3600 * 1000000000)));
    destruct (Z.leb_spec (time.unixDays txDate) (time.unixDays untilTime)); simpl; lia.
Qed.

Lemma filterUntil_from untilTime transactions filteredTxs :
  fold_left (fun filteredTxs tx =>
               match parseDate (tx_Date tx) with
               | inl _ => filteredTxs
               | inr txDate =>
                   if negb (time.After txDate untilTime) then filteredTxs ++ [tx]
                   else filteredTxs
               end) transactions filteredTxs
  = filteredTxs ++ List.filter (keptUntil untilTime) transactions.
Proof.
  revert filteredTxs. induction transactions as [|tx txs IH]; intros filteredTxs; simpl.
  - by rewrite app_nil_r.
  - rewrite IH. unfold keptUntil at 2. destruct (parseDate (tx_Date tx)) as [err|txDate]; [done|].
    rewrite not_After. destruct (time.unixDays txDate <=? time.unixDays untilTime); [|done].
    by rewrite <- app_assoc.
Qed.

(** The loop keeps, in their order, the transactions dated on or before
    [untilTime]. *)
Lemma filterUntil_filter untilTime transactions :
  filterUntil untilTime transactions = List.filter (keptUntil untilTime) transactions.
Proof. unfold filterUntil. by rewrite filterUntil_from. Qed.

Lemma categoryAdd_ok key s amount : category_ok key s -> category_ok key (categoryAdd s amount).
Proof.
  intros (Hid & Hout & Hgrp & Hname). split_and!; simpl; [done| |done|done].
  destruct (amount <? 0)%float eqn:E; [|done].
  apply add_nonneg; [done|]. by apply opp_negative_nonneg.
Qed.

Lemma newCategorySummary_ok key tx : category_ok key (newCategorySummary key tx).
Proof. split_and!; simpl; [done|apply zero_nonneg|done|]. intros ->. done. Qed.

Lemma categoryStep_ok m tx : map_Forall category_ok m -> map_Forall category_ok (categoryStep m tx).
Proof.
  intros Hm. unfold categoryStep. destruct (isTransfer tx); [done|].
  destruct (tx_Deleted tx); [done|].
  apply map_Forall_insert_2; [|done]. apply categoryAdd_ok.
  destruct (m !! categoryKey tx) as [s|] eqn:E; [by apply (Hm _ _ E)|].
  apply newCategorySummary_ok.
Qed.

Lemma aggregateByCategory_ok txs : map_Forall category_ok (aggregateByCategory txs).
Proof.
  unfold aggregateByCategory.
  assert (H : forall m, map_Forall category_ok m
                        -> map_Forall category_ok (fold_left categoryStep txs m)).
  { induction txs as [|tx txs IH]; intros m Hm; simpl; [done|]. by apply IH, categoryStep_ok. }
  apply H, map_Forall_empty.
Qed.

(** The collection loop of [get_spending_by_category]: the summaries in
    the order ranged over, and the two sums. *)
Lemma collectCategories_from (entries : list (string * categorySummary)) categories o i :
  fold_left (fun '(categories, totalOutflow, totalInflow) '(_, summary) =>
               (categories ++ [summary],
                (totalOutflow + cs_TotalOutflow summary)%float,
                (totalInflow + cs_TotalInflow summary)%float))
            entries (categories, o, i)
  = (categories ++ map snd entries,
     fold_left (fun total s => (total + cs_TotalOutflow s)%float) (map snd entries) o,
     fold_left (fun total s => (total + cs_TotalInflow s)%float) (map snd entries) i).
Proof.
  revert categories o i. induction entries as [|[k s] entries IH]; intros categories o i; simpl.
  - by rewrite app_nil_r.
  - rewrite IH. by rewrite <- app_assoc.
Qed.

Section range_handler_facts.
Variable http_NewRequest_error : string -> string -> option error.
Variable url_QueryEscape : string -> string.
Context `{!JsonUnmarshal APIErrorResponse} `{!JsonUnmarshal TransactionsResponse}.
Variable rangeOrder : forall V, gmap string V -> list (string * V).
Hypothesis rangeOrder_perm : forall V (m : gmap string V), rangeOrder V m ≡ₚ map_to_list m.

#[local] Abbreviation getSpendingByCategory_result :=
  (getSpendingByCategory_result http_NewRequest_error url_QueryEscape rangeOrder).
#[local] Abbreviation getPayeeSummary_result :=
  (getPayeeSummary_result http_NewRequest_error url_QueryEscape rangeOrder).
#[local] Abbreviation transactionsCall := (transactionsCall http_NewRequest_error url_QueryEscape).
#[local] Abbreviation ListTransactions := (ListTransactions http_NewRequest_error url_QueryEscape).

(** X7. With its three required arguments and a valid date range, once
    the fetch succeeds (the transactions of the account when [account_id]
    is given, of the budget otherwise, since the start date),
    [get_spending_by_category] returns the buckets of [aggregateByCategory]
    over the fetched transactions dated on or before the end date: each
    bucket once, sorted by descending total outflow, the totals being the
    sums over the buckets in the order the map was walked. The group name
    of every bucket is empty: nothing fills it in. *)
Theorem spending_by_category_result (client : Client) (args : gmap string Arg)
    (net : Net.Network) (h h' : list Net.Event) (budgetID sinceDate untilDate : string)
    (transactions : list Transaction) :
  requiredArgs args budgetID sinceDate untilDate ->
  validateDateRange sinceDate untilDate = None ->
  transactionsCall client args budgetID (Some {| q_SinceDate := sinceDate; q_Type := "" |}) net h
  = (inr transactions, h') ->
  exists untilTime r,
    parseDate untilDate = inr untilTime
    /\ getSpendingByCategory_result client args net h = (inr r, h')
    /\ let buckets := aggregateByCategory (List.filter (keptUntil untilTime) transactions) in
       cr_categories r ≡ₚ map snd (map_to_list buckets)
       /\ StronglySorted by_category_outflow_desc (cr_categories r)
       /\ Forall (fun c => cs_CategoryGroupName c = "") (cr_categories r)
       /\ cr_total_outflow r
          = fold_left (fun total s => (total + cs_TotalOutflow s)%float)
                      (map snd (rangeOrder _ buckets)) 0%float
       /\ cr_total_inflow r
          = fold_left (fun total s => (total + cs_TotalInflow s)%float)
                      (map snd (rangeOrder _ buckets)) 0%float
       /\ cr_date_range r = (sinceDate, untilDate).
Proof.
  intros (Hb & Hbne & Hs & Hsne & Hu & Hune) Hv Hfetch.
  apply validateDateRange_None in Hv as (since & untilTime & Hps & Hpu & Hr).
  set (buckets := aggregateByCategory (List.filter (keptUntil untilTime) transactions)).
  set (less := fun ci cj : categorySummary => (cs_TotalOutflow cj <? cs_TotalOutflow ci)%float).
  set (collected := map snd (rangeOrder _ buckets)).
  assert (Hok : Forall (fun s => Float64.nonneg_class (cs_TotalOutflow s)
                                 /\ cs_CategoryGroupName s = "") collected).
  { unfold collected. apply Forall_map. rewrite rangeOrder_perm. apply Forall_forall.
    intros [k s] Hin. apply elem_of_map_to_list in Hin.
    destruct (aggregateByCategory_ok _ k s Hin) as (_ & ? & ? & _). done. }
  exists untilTime,
    {| cr_categories := sort.Slice less collected;
       cr_total_outflow := fold_left (fun total s => (total + cs_TotalOutflow s)%float)
                                     collected 0%float;
       cr_total_inflow := fold_left (fun total s => (total + cs_TotalInflow s)%float)
                                    collected 0%float;
       cr_date_range := (sinceDate, untilDate) |}.
  split; [done|]. split.
  - unfold tools.getSpendingByCategory_result, stringArg at 1 2 3.
    rewrite Hb, Hs, Hu. cbv beta iota. rewrite !eqb_empty_false by done. cbn [negb orb].
    assert (Hv : validateDateRange sinceDate untilDate = None).
    { apply validateDateRange_None. eauto. }
    rewrite Hv. unfold_io. rewrite account_routing, Hfetch, Hpu.
    rewrite filterUntil_filter. fold buckets.
    rewrite collectCategories_from. fold collected. done.
  - cbv zeta. cbn [cr_categories cr_total_outflow cr_total_inflow cr_date_range].
    split_and!; try done.
    + rewrite Slice_perm. unfold collected. by rewrite rangeOrder_perm.
    + apply (Slice_sorted less by_category_outflow_desc
               (fun s => Float64.nonneg_class (cs_TotalOutflow s))).
      * intros x y Hx Hy Hl. unfold by_category_outflow_desc. by apply ltb_false_leb.
      * intros x y Hx Hy Hl. unfold by_category_outflow_desc, less in *.
        apply ltb_false_leb; [done..|]. by apply ltb_asym.
      * intros x y z Hx Hy Hz Hxy Hyz. unfold by_category_outflow_desc in *.
        by apply (leb_trans _ (cs_TotalOutflow y)).
      * eapply Forall_impl; [exact Hok|]. by intros s [? _].
    + assert (Hperm : sort.Slice less collected ≡ₚ collected) by apply Slice_perm.
      rewrite Hperm. eapply Forall_impl; [exact Hok|]. by intros s [_ ?].
Qed.

(** X8. With its three required arguments and a valid date range,
    [get_payee_summary] fetches the transactions of the whole budget since
    the start date (an [account_id] argument is not read) and returns the
    ranking of [rankPayees] over those dated on or before the end date:
    the end date is applied after the fetch, not sent to the API. *)
Theorem payee_summary_result (client : Client) (args : gmap string Arg)
    (net : Net.Network) (h h' : list Net.Event) (budgetID sinceDate untilDate : string)
    (transactions : list Transaction) :
  requiredArgs args budgetID sinceDate untilDate ->
  validateDateRange sinceDate untilDate = None ->
  ListTransactions client budgetID (Some {| q_SinceDate := sinceDate; q_Type := "" |}) net h
  = (inr transactions, h') ->
  exists untilTime,
    parseDate untilDate = inr untilTime
    /\ getPayeeSummary_result client args net h
       = (inr {| pr_payees := rankPayees rangeOrder (topN_of args)
                                (List.filter (keptUntil untilTime) transactions);
                 pr_date_range := (sinceDate, untilDate) |}, h').
Proof.
  intros (Hb & Hbne & Hs & Hsne & Hu & Hune) Hv Hfetch.
  pose proof Hv as Hv'.
  apply validateDateRange_None in Hv as (since & untilTime & Hps & Hpu & Hr).
  exists untilTime. split; [done|].
  unfold tools.getPayeeSummary_result, stringArg at 1 2 3.
  rewrite Hb, Hs, Hu. cbv beta iota. rewrite !eqb_empty_false by done. cbn [negb orb].
  rewrite Hv'. unfold_io. rewrite Hfetch, Hpu. by rewrite filterUntil_filter.
Qed.
End range_handler_facts.

(** ** The budget summary *)

Lemma summaryCategories_from categories cats :
  fold_left summaryCategoriesStep cats categories
  = categories ++ map summaryCategory (List.filter visibleCategory cats).
Proof.
  revert categories. induction cats as [|c cats IH]; intros categories; simpl.
  - by rewrite app_nil_r.
  - rewrite IH. unfold summaryCategoriesStep, visibleCategory.
    destruct (cat_Deleted c || cat_Hidden c); simpl; [done|]. by rewrite <- app_assoc.
Qed.

Lemma summaryGroups_from categoryGroups groups :
  fold_left summaryGroupsStep groups categoryGroups = categoryGroups ++ omap shownGroup groups.
Proof.
  revert categoryGroups. induction groups as [|g groups IH]; intros categoryGroups; simpl.
  - by rewrite app_nil_r.
  - rewrite IH. unfold summaryGroupsStep, shownGroup, visibleGroup.
    destruct (grp_Deleted g || grp_Hidden g); simpl; [done|].
    rewrite summaryCategories_from. simpl.
    destruct (map summaryCategory (List.filter visibleCategory (grp_Categories g))); simpl; [done|].
    by rewrite <- app_assoc.
Qed.

Lemma optionalArg_Some args key v : optionalArg args key = Some v -> v <> "".
Proof.
  unfold optionalArg, stringArg. destruct (args !! key) as [[s| |]|]; simpl; try done.
  destruct (String.eqb_spec s ""); simpl; [done|]. by intros [= <-].
Qed.

Section budget_summary_facts.
Variable http_NewRequest_error : string -> string -> option error.
Context `{!JsonUnmarshal APIErrorResponse} `{!JsonUnmarshal BudgetDetailResponse}.

#[local] Abbreviation getBudgetSummary_result :=
  (getBudgetSummary_result http_NewRequest_error).
#[local] Abbreviation GetBudget := (GetBudget http_NewRequest_error).

(** X9. [get_budget_summary] checks the month before it fetches anything: a
    month [parseMonth] rejects ends the call with that error and no network
    event. Otherwise the budget is fetched by its ID alone, and the result
    carries the month given (the current month when none is given) next to
    the groups of the fetched budget: one entry for every category group
    that is neither deleted nor hidden and has a category that is neither,
    in order, each with exactly those categories, in order. The month
    changes nothing but the field that echoes it. *)
Theorem budget_summary_result (now : time.Time) (client : Client) (args : gmap string Arg)
    (net : Net.Network) (h : list Net.Event) (budgetID : string) :
  args !! "budget_id" = Some (ArgString budgetID) -> budgetID <> "" ->
  (forall monthArg err,
      optionalArg args "month" = Some monthArg -> parseMonth monthArg = inl err ->
      getBudgetSummary_result now client args net h
      = (inl (NewToolResultError ("Invalid month format: " +:+ Error err)), h))
  /\ (forall month,
        match optionalArg args "month" with
        | Some monthArg => month = monthArg /\ exists t, parseMonth monthArg = inr t
        | None => month = getCurrentMonth now
        end ->
        (forall err h',
            GetBudget client budgetID net h = (inl err, h') ->
            getBudgetSummary_result now client args net h
            = (inl (NewToolResultError ("Failed to fetch budget: " +:+ Error err)), h'))
        /\ (forall budget h',
              GetBudget client budgetID net h = (inr budget, h') ->
              getBudgetSummary_result now client args net h
              = (inr {| bs_month := month;
                        bs_category_groups := omap shownGroup (bud_CategoryGroups budget);
                        bs_age_of_money := None;
                        bs_to_be_budgeted := None |}, h')
              /\ Forall (fun g => bg_categories g <> [])
                        (omap shownGroup (bud_CategoryGroups budget)))).
Proof.
  intros Hb Hbne.
  assert (Hstart :
    getBudgetSummary_result now client args net h
    = match (match optionalArg args "month" with
             | Some monthArg =>
                 match parseMonth monthArg with
                 | inl err => inl (NewToolResultError ("Invalid month format: " +:+ Error err))
                 | inr _ => inr monthArg
                 end
             | None => inr (getCurrentMonth now)
             end) with
      | inl early => (inl early, h)
      | inr month =>
          let '(r, h') := GetBudget client budgetID net h in
          match r with
          | inl err => (inl (NewToolResultError ("Failed to fetch budget: " +:+ Error err)), h')
          | inr budget =>
              (inr {| bs_month := month;
                      bs_category_groups :=
                        fold_left summaryGroupsStep (bud_CategoryGroups budget) [];
                      bs_age_of_money := None;
                      bs_to_be_budgeted := None |}, h')
          end
      end).
  { unfold tools.getBudgetSummary_result, stringArg at 1. rewrite Hb. cbv beta iota.
    rewrite eqb_empty_false by done. cbn [negb orb].
    destruct (optionalArg args "month") as [monthArg|].
    - destruct (parseMonth monthArg); [done|]. unfold_io.
      destruct (GetBudget client budgetID net h) as [[err|budget] h']; done.
    - unfold_io. destruct (GetBudget client budgetID net h) as [[err|budget] h']; done. }
  split.
  - intros monthArg err Hm Hp. rewrite Hstart, Hm, Hp. done.
  - intros month Hmonth.
    assert (Hsel : (match optionalArg args "month" with
                    | Some monthArg =>
                        match parseMonth monthArg with
                        | inl err =>
                            inl (NewToolResultError ("Invalid month format: " +:+ Error err))
                        | inr _ => inr monthArg
                        end
                    | None => inr (getCurrentMonth now)
                    end) = (inr month : CallToolResult + string)).
    { destruct (optionalArg args "month") as [monthArg|].
      - destruct Hmonth as [-> [t ->]]. done.
      - by subst. }
    rewrite Hstart, Hsel. split.
    + intros err h' ->. done.
    + intros budget h' ->. rewrite summaryGroups_from. simpl. split; [done|].
      apply Forall_forall. intros g [g0 [_ Hg]]%list_elem_of_omap.
      unfold shownGroup in Hg. destruct (visibleGroup g0); [|done].
      destruct (map summaryCategory _) eqn:E; [done|]. by injection Hg as <-.
Qed.
End budget_summary_facts.
(** ** The write path: a POST is sent again after a transient outcome *)

Section write_facts.
Variable http_NewRequest_error : string -> string -> option error.
Context `{!JsonUnmarshal APIErrorResponse} `{!JsonUnmarshal TransactionResponse}.
Context `{!JsonMarshal CreateTransactionRequest}.

#[local] Abbreviation createTransaction := (createTransaction http_NewRequest_error).

(** A run of the loop only adds to the history. *)
Lemma doRequest_from_extends {B R} `{!JsonMarshal B} c method path (body : option B)
    (result : option (JsonUnmarshal R)) jsonBody fuel attempt lastErr net h :
  sendable http_NewRequest_error method path body jsonBody -> 0 <= attempt ->
  exists rest,
    snd (doRequest_from http_NewRequest_error c method path body result fuel attempt lastErr net h)
    = h ++ rest.
Proof.
  intros Hs Hatt.
  destruct (doRequest_from_runs http_NewRequest_error c method path body result
              jsonBody fuel attempt lastErr net h Hs Hatt) as (pre & _ & [[_ ->] | (o & _ & _ & ->)]);
    simpl; eauto.
Qed.

(** X10. [create_transaction] sends its POST again when the first attempt
    ends in a transient outcome: a network error, the status 429, or a
    response that arrived but whose body could not be read. The second
    POST is the same request, body included, one second later. *)
Theorem create_transaction_resends (now : time.Time) (client : Client) (args : gmap string Arg)
    (net : Net.Network) (h : list Net.Event) (budgetID accountID : string) (amount : float)
    (jsonBody : string) :
  args !! "budget_id" = Some (ArgString budgetID) -> budgetID <> "" ->
  args !! "account_id" = Some (ArgString accountID) -> accountID <> "" ->
  args !! "amount" = Some (ArgNumber amount) ->
  json_Marshal (createRequest (time.Format_date now) args accountID amount) = inr jsonBody ->
  http_NewRequest_error "POST" (baseURL +:+ "/budgets/" +:+ budgetID +:+ "/transactions") = None ->
  let post := {| Net.req_Method := "POST";
                 Net.req_URL := baseURL +:+ "/budgets/" +:+ budgetID +:+ "/transactions";
                 Net.req_Header := [("Authorization", "Bearer " +:+ accessToken client);
                                    ("Content-Type", "application/json");
                                    ("Accept", "application/json")];
                 Net.req_Body := Some jsonBody |} in
  transient (net h post) ->
  exists rest,
    snd (createTransaction now client args net h)
    = h ++ [Net.Exchange post (net h post); Net.Sleep (1 * Net.Second);
            Net.Exchange post
              (net (h ++ [Net.Exchange post (net h post); Net.Sleep (1 * Net.Second)]) post)]
        ++ rest.
Proof.
  intros Hb Hbne Ha Hane Hamt Hm Hnew. cbv zeta. intros Ht.
  set (req := createRequest (time.Format_date now) args accountID amount) in *.
  set (path := "/budgets/" +:+ budgetID +:+ "/transactions") in *.
  assert (Hs : sendable http_NewRequest_error "POST" path (Some req) (Some jsonBody)).
  { split; [by exists jsonBody | done]. }
  set (post := requestOf client "POST" path (Some req) (Some jsonBody)).
  change {| Net.req_Method := "POST"; Net.req_URL := baseURL +:+ path;
            Net.req_Header := [("Authorization", "Bearer " +:+ accessToken client);
                               ("Content-Type", "application/json");
                               ("Accept", "application/json")];
            Net.req_Body := Some jsonBody |} with post in *.
  set (h1 := h ++ [Net.Exchange post (net h post); Net.Sleep (1 * Net.Second)]).
  set (out2 := net h1 post).
  assert (Hrun : exists rest r,
             doRequest http_NewRequest_error client "POST" path (Some req)
               (Some (json_Unmarshal (A := TransactionResponse))) net h
             = (r, h ++ [Net.Exchange post (net h post); Net.Sleep (1 * Net.Second);
                         Net.Exchange post out2] ++ rest)).
  { unfold doRequest. change (Z.to_nat maxRetries) with 3%nat.
    rewrite (doRequest_from_transient _ _ _ _ _ _ (Some jsonBody) _ _ _ _ _ (net h post));
      [|done|lia|by rewrite app_nil_r|done].
    simpl backoff. simpl app at 1.
    pose proof (doRequest_from_step http_NewRequest_error client "POST" path (Some req)
                  (Some (json_Unmarshal (A := TransactionResponse))) (Some jsonBody)
                  1 (0 + 1) (Some (transientError (net h post))) net
                  (h ++ [Net.Exchange post (net h post)]) Hs ltac:(lia)) as Hstep.
    cbv zeta in Hstep. fold post in Hstep.
    change (backoff (0 + 1)) with [Net.Sleep (1 * Net.Second)] in Hstep.
    rewrite <- !app_assoc in Hstep. simpl app in Hstep. fold h1 in Hstep. fold out2 in Hstep.
    fold post. rewrite Hstep. clear Hstep.
    assert (Hcont : forall lastErr,
              exists rest r,
                doRequest_from http_NewRequest_error client "POST" path (Some req)
                  (Some (json_Unmarshal (A := TransactionResponse))) 1 (0 + 1 + 1) lastErr net
                  (h ++ [Net.Exchange post (net h post); Net.Sleep (1 * Net.Second);
                         Net.Exchange post out2])
                = (r, h ++ [Net.Exchange post (net h post); Net.Sleep (1 * Net.Second);
                            Net.Exchange post out2] ++ rest)).
    { intros lastErr.
      destruct (doRequest_from_extends client "POST" path (Some req)
                  (Some (json_Unmarshal (A := TransactionResponse))) (Some jsonBody)
                  1 (0 + 1 + 1) lastErr net
                  (h ++ [Net.Exchange post (net h post); Net.Sleep (1 * Net.Second);
                         Net.Exchange post out2]) Hs ltac:(lia)) as [rest Hrest].
      destruct (doRequest_from _ _ _ _ _ _ _ _ _ _ _) as [r h'] eqn:E. simpl in Hrest. subst h'.
      exists rest, r. by rewrite <- app_assoc. }
    destruct out2 as [err|st err|st respBody].
    - apply Hcont.
    - apply Hcont.
    - destruct (decide (st = 429)); [apply Hcont|]. exists []. eexists. by rewrite app_nil_r. }
  destruct Hrun as (rest & r & Hrun). exists rest.
  unfold tools.createTransaction, stringArg, numberArg. rewrite Hb, Ha, Hamt. cbv beta iota.
  rewrite !eqb_empty_false by done. cbn [negb orb]. fold req.
  unfold CreateTransaction, ynab.post. fold path. unfold_io. rewrite Hrun.
  by destruct r.
Qed.
End write_facts.
(** ** The text tools: what is listed and what is added up *)

Lemma wrap_range z : - 2 ^ 63 <= Int64.wrap z <= 2 ^ 63 - 1.
Proof. unfold Int64.wrap. div_lia. Qed.

Lemma wrap_small z : - 2 ^ 63 <= z <= 2 ^ 63 - 1 -> Int64.wrap z = z.
Proof. unfold Int64.wrap. intros H. div_lia. Qed.

Lemma wrap_add_l a b : Int64.wrap (Int64.wrap a + b) = Int64.wrap (a + b).
Proof.
  unfold Int64.wrap. f_equal.
  replace ((a + 2 ^ 63) mod 2 ^ 64 - 2 ^ 63 + b + 2 ^ 63)
    with ((a + 2 ^ 63) mod 2 ^ 64 + b) by lia.
  rewrite Zplus_mod_idemp_l. f_equal. lia.
Qed.

(** Adding up [int64] values one by one gives the exact sum, wrapped
    once. *)
Lemma add_fold {A} (f : A -> Z) (l : list A) (a : Z) :
  fold_left (fun total x => Int64.add total (f x)) l (Int64.wrap a)
  = Int64.wrap (a + sumZ f l).
Proof.
  revert a. induction l as [|x l IH]; intros a; simpl.
  - by rewrite Z.add_0_r.
  - unfold Int64.add at 2. rewrite wrap_add_l, IH. f_equal. lia.
Qed.

Lemma sumZ_cons {A} (f : A -> Z) x l : sumZ f (x :: l) = f x + sumZ f l.
Proof. reflexivity. Qed.

Lemma sumZ_app {A} (f : A -> Z) l1 l2 : sumZ f (l1 ++ l2) = sumZ f l1 + sumZ f l2.
Proof. induction l1 as [|x l1 IH]; [done|]. rewrite <- app_comm_cons, !sumZ_cons, IH. lia. Qed.

Lemma concatStrings_app l1 l2 :
  concatStrings (l1 ++ l2) = concatStrings l1 +:+ concatStrings l2.
Proof.
  induction l1 as [|x l1 IH]; simpl; [done|].
  change (concatStrings (x :: l1 ++ l2)) with (x +:+ concatStrings (l1 ++ l2)).
  change (concatStrings (x :: l1)) with (x +:+ concatStrings l1).
  by rewrite IH, append_assoc.
Qed.

Lemma concatStrings_cons x l : concatStrings (x :: l) = x +:+ concatStrings l.
Proof. reflexivity. Qed.

Lemma indexedFrom_cons {A} i0 (x : A) l :
  indexedFrom i0 (x :: l) = (i0, x) :: indexedFrom (i0 + 1) l.
Proof.
  unfold indexedFrom. rewrite imap_cons. f_equal; [f_equal; lia|].
  apply imap_ext. intros k y _. simpl. f_equal. lia.
Qed.


Lemma filter_snd_indexedFrom {A} (p : A -> bool) i0 (l : list A) :
  map snd (List.filter (fun ix => p (snd ix)) (indexedFrom i0 l)) = List.filter p l.
Proof.
  revert i0. induction l as [|x l IH]; intros i0; [done|].
  rewrite indexedFrom_cons. simpl. destruct (p x); simpl; by rewrite IH.
Qed.

(** *** list_accounts *)




Lemma wrap_0 : Int64.wrap 0 = 0.
Proof. reflexivity. Qed.


(** *** list_transactions *)



(** *** list_payees *)





(** *** list_categories *)




(** *** get_budget_details *)

Lemma budgetAccounts_from accounts result on off :
  fold_left budgetAccountsStep accounts (result, Int64.wrap on, Int64.wrap off)
  = (result +:+ concatStrings (map (fun a => budgetAccountLine a "")
                                   (List.filter openAccount accounts)),
     Int64.wrap (on + sumZ acc_Balance
                        (List.filter (fun a => openAccount a && acc_OnBudget a) accounts)),
     Int64.wrap (off + sumZ acc_Balance
                         (List.filter (fun a => openAccount a && negb (acc_OnBudget a))
                            accounts))).
Proof.
  revert result on off. induction accounts as [|a accounts IH]; intros result on off.
  - simpl. by rewrite append_empty_r, !Z.add_0_r.
  - cbn [fold_left List.filter]. unfold budgetAccountsStep at 2.
    change (openAccount a) with (negb (acc_Deleted a || acc_Closed a)).
    destruct (acc_Deleted a) eqn:Ed, (acc_Closed a) eqn:Ec; cbn [orb negb andb];
      try apply IH.
    destruct (acc_OnBudget a); cbn [negb];
      unfold Int64.add; rewrite wrap_add_l, IH; cbn [map];
      rewrite sumZ_cons, concatStrings_cons, append_assoc; tuple_eq.
Qed.

Lemma budgetGroups_from groups result :
  fold_left budgetGroupsStep groups result
  = result +:+ concatStrings (map budgetGroupLine (List.filter visibleGroup groups)).
Proof.
  revert result. induction groups as [|g groups IH]; intros result.
  - simpl. by rewrite append_empty_r.
  - cbn [fold_left List.filter]. unfold budgetGroupsStep at 2.
    change (visibleGroup g) with (negb (grp_Deleted g || grp_Hidden g)).
    destruct (grp_Deleted g || grp_Hidden g); cbn [negb]; [apply IH|].
    rewrite IH. cbn [map]. by rewrite concatStrings_cons, append_assoc.
Qed.

Lemma activePayees_from payees n :
  fold_left (fun activePayees payee =>
               if negb (payee_Deleted payee) then activePayees + 1 else activePayees)
            payees n
  = n + Z.of_nat (length (List.filter livePayee payees)).
Proof.
  revert n. induction payees as [|p payees IH]; intros n; simpl; [lia|].
  rewrite IH. unfold livePayee at 2. destruct (payee_Deleted p); simpl; lia.
Qed.

(** X15. The text of [get_budget_details]. The accounts section counts
    every account in its heading, but writes a line only for the accounts
    that are neither deleted nor closed, and adds only their balances to
    the on-budget and the off-budget total; no line ever carries the status
    " [CLOSED]", since a closed account is skipped before the status is
    looked at. The groups section writes a line for every category group
    that is neither deleted nor hidden, and the payees counted are those
    not deleted. A section is left out when the budget has no account, no
    group, or no payee at all. *)
Theorem budget_details_text (budget : Budget) :
  let accounts := bud_Accounts budget in
  let groups := bud_CategoryGroups budget in
  let payees := bud_Payees budget in
  budgetDetailsText budget
  = "Budget: " +:+ bud_Name budget +:+ fmt.nl
    +:+ "ID: " +:+ bud_ID budget +:+ fmt.nl
    +:+ "Last Modified: " +:+ bud_LastModifiedOn budget +:+ fmt.nl
    +:+ "First Month: " +:+ bud_FirstMonth budget +:+ fmt.nl
    +:+ "Last Month: " +:+ bud_LastMonth budget +:+ fmt.nl +:+ fmt.nl
    +:+ match bud_CurrencyFormat budget with
        | Some currencyFormat =>
            "Currency: " +:+ cf_ISOCode currencyFormat +:+ " ("
            +:+ cf_CurrencySymbol currencyFormat +:+ ")" +:+ fmt.nl +:+ fmt.nl
        | None => ""
        end
    +:+ (if (0 <? length accounts)%nat then
           "Accounts (" +:+ fmt_d (Z.of_nat (length accounts)) +:+ "):" +:+ fmt.nl
           +:+ concatStrings (map (fun a => budgetAccountLine a "")
                                  (List.filter openAccount accounts))
           +:+ fmt.nl +:+ "On Budget Total: "
           +:+ FormatCurrency
                 (Int64.wrap (sumZ acc_Balance
                                (List.filter (fun a => openAccount a && acc_OnBudget a)
                                   accounts)))
           +:+ fmt.nl +:+ "Off Budget Total: "
           +:+ FormatCurrency
                 (Int64.wrap (sumZ acc_Balance
                                (List.filter (fun a => openAccount a && negb (acc_OnBudget a))
                                   accounts)))
           +:+ fmt.nl +:+ fmt.nl
         else "")
    +:+ (if (0 <? length groups)%nat then
           "Category Groups (" +:+ fmt_d (Z.of_nat (length groups)) +:+ "):" +:+ fmt.nl
           +:+ concatStrings (map budgetGroupLine (List.filter visibleGroup groups))
           +:+ fmt.nl
         else "")
    +:+ (if (0 <? length payees)%nat then
           "Total Payees: " +:+ fmt_d (Z.of_nat (length (List.filter livePayee payees)))
           +:+ fmt.nl
         else "").
Proof.
  cbv zeta. unfold budgetDetailsText.
  assert (Hacc : forall result,
            fold_left budgetAccountsStep (bud_Accounts budget) (result, 0, 0)
            = (result +:+ concatStrings (map (fun a => budgetAccountLine a "")
                                             (List.filter openAccount (bud_Accounts budget))),
               Int64.wrap (sumZ acc_Balance
                             (List.filter (fun a => openAccount a && acc_OnBudget a)
                                (bud_Accounts budget))),
               Int64.wrap (sumZ acc_Balance
                             (List.filter (fun a => openAccount a && negb (acc_OnBudget a))
                                (bud_Accounts budget))))).
  { intros result. pose proof (budgetAccounts_from (bud_Accounts budget) result 0 0) as Hloop.
    rewrite wrap_0 in Hloop. by rewrite Hloop, !Z.add_0_l. }
  rewrite Hacc, budgetGroups_from. unfold activePayees. rewrite activePayees_from, Z.add_0_l.
  destruct (bud_CurrencyFormat budget) as [cf|];
    destruct (0 <? length (bud_Accounts budget))%nat;
    destruct (0 <? length (bud_CategoryGroups budget))%nat;
    destruct (0 <? length (bud_Payees budget))%nat;
    rewrite ?append_assoc, ?append_empty_r; reflexivity.
Qed.
Lemma getLastNMonths_shape_witness :
  (time.ValidDate examples.feb10 /\ 2 <= time.Year examples.feb10)
  /\ getLastNMonths examples.feb10 30 = getLastNMonths examples.feb10 24
  /\ length (getLastNMonths examples.feb10 30) = 24%nat
  /\ last (getLastNMonths examples.feb10 30) = Some "2024-02".
Proof.
  assert (Hv : time.ValidDate examples.feb10)
    by (unfold time.ValidDate, time.daysIn; simpl; lia).
  assert (Hy : 2 <= time.Year examples.feb10) by (simpl; lia).
  destruct (getLastNMonths_shape examples.feb10 30 Hv Hy) as (Hlen & _ & _ & Hlast & _).
  split; [by split|]. split; [reflexivity|]. split; [exact Hlen | exact Hlast].
Defined.

(** Two months back from 10 February 2024, for the category "food": the
    category is looked up, the transactions since 1 January are fetched,
    and the one transaction of the category is counted in January. *)
Lemma spending_by_month_months_witness :
  let categories := requestOf examples.client "GET" "/budgets/budget/categories"
                      (None : option Empty_set) None in
  let transactions := requestOf examples.client "GET"
                        "/budgets/budget/transactions?since_date=2024-01-01"
                        (None : option Empty_set) None in
  exists data,
    Net.run (@getSpendingByMonth_result examples.acceptAll id examples.decodeAPIError
               examples.decodeCategories examples.decodeTransactions
               examples.feb10 examples.client examples.monthArgs) examples.okNet
    = (Returns (inr {| mr_months := data; mr_category_name := "Food";
                       mr_average_monthly_outflow := (sumOutflow data / 2)%float;
                       mr_average_monthly_inflow := (sumInflow data / 2)%float |}),
       [Net.Exchange categories (Net.Responds 200 "{}");
        Net.Exchange transactions (Net.Responds 200 "{}")])
    /\ map ms_Month data = ["2024-01"; "2024-02"]
    /\ map ms_TransactionCount data = [1; 0].
Proof.
  cbv zeta.
  destruct (@spending_by_month_months examples.acceptAll id examples.decodeAPIError
              examples.decodeCategories examples.decodeTransactions
              examples.feb10 examples.client examples.monthArgs examples.okNet []
              [Net.Exchange (requestOf examples.client "GET" "/budgets/budget/categories"
                               (None : option Empty_set) None) (Net.Responds 200 "{}")]
              [Net.Exchange (requestOf examples.client "GET" "/budgets/budget/categories"
                               (None : option Empty_set) None) (Net.Responds 200 "{}");
               Net.Exchange (requestOf examples.client "GET"
                               "/budgets/budget/transactions?since_date=2024-01-01"
                               (None : option Empty_set) None) (Net.Responds 200 "{}")]
              "budget" 2%float examples.food [examples.groceries; examples.rent]
              ltac:(vm_compute; reflexivity) ltac:(discriminate) ltac:(vm_compute; reflexivity)
              ltac:(by vm_compute) ltac:(vm_compute; reflexivity) ltac:(vm_compute; reflexivity))
    as (data & Hrun & Hlen & Hm & Hf).
  exists data. split; [exact Hrun|]. split; [exact Hm|].
  destruct data as [|b1 [|b2 [|b3 data]]]; try discriminate.
  inversion Hf as [|? ? ? ? H1 Hf']; subst. inversion Hf' as [|? ? ? ? H2 _]; subst.
  vm_compute in H1, H2. injection H1 as <-. injection H2 as <-. reflexivity.
Defined.

(** The first quarter of 2024 by category: the transactions since
    1 January are fetched once, and the two categories come back with the
    larger outflow first. *)
Lemma spending_by_category_result_witness :
  (forall V (m : gmap string V), examples.listOrder V m ≡ₚ map_to_list m)
  /\ exists untilTime r,
       parseDate "2024-03-31" = inr untilTime
       /\ Net.run (@getSpendingByCategory_result examples.acceptAll id
                     examples.decodeAPIError examples.decodeTransactions
                     examples.listOrder examples.client examples.noTopN) examples.okNet
          = (inr r,
             [Net.Exchange (requestOf examples.client "GET"
                              "/budgets/budget/transactions?since_date=2024-01-01"
                              (None : option Empty_set) None) (Net.Responds 200 "{}")])
       /\ StronglySorted by_category_outflow_desc (cr_categories r)
       /\ Forall (fun c => cs_CategoryGroupName c = "") (cr_categories r)
       /\ cr_date_range r = ("2024-01-01", "2024-03-31").
Proof.
  assert (Hperm : forall V (m : gmap string V), examples.listOrder V m ≡ₚ map_to_list m)
    by reflexivity.
  split; [exact Hperm|].
  destruct (@spending_by_category_result examples.acceptAll id
              examples.decodeAPIError examples.decodeTransactions
              examples.listOrder Hperm examples.client examples.noTopN examples.okNet []
              [Net.Exchange (requestOf examples.client "GET"
                               "/budgets/budget/transactions?since_date=2024-01-01"
                               (None : option Empty_set) None) (Net.Responds 200 "{}")]
              "budget" "2024-01-01" "2024-03-31" [examples.groceries; examples.rent]
              ltac:(by vm_compute) ltac:(vm_compute; reflexivity) ltac:(vm_compute; reflexivity))
    as (untilTime & r & Hu & Hrun & _ & Hsorted & Hgroup & _ & _ & Hrange).
  exists untilTime, r. split_and!; done.
Defined.

(** The same quarter by payee. *)
Lemma payee_summary_result_witness :
  exists untilTime,
    parseDate "2024-03-31" = inr untilTime
    /\ Net.run (@getPayeeSummary_result examples.acceptAll id
                  examples.decodeAPIError examples.decodeTransactions
                  examples.listOrder examples.client examples.noTopN) examples.okNet
       = (inr {| pr_payees := rankPayees examples.listOrder 20
                                (List.filter (keptUntil untilTime)
                                   [examples.groceries; examples.rent]);
                 pr_date_range := ("2024-01-01", "2024-03-31") |},
          [Net.Exchange (requestOf examples.client "GET"
                           "/budgets/budget/transactions?since_date=2024-01-01"
                           (None : option Empty_set) None) (Net.Responds 200 "{}")]).
Proof.
  destruct (@payee_summary_result examples.acceptAll id
              examples.decodeAPIError examples.decodeTransactions
              examples.listOrder examples.client examples.noTopN examples.okNet []
              [Net.Exchange (requestOf examples.client "GET"
                               "/budgets/budget/transactions?since_date=2024-01-01"
                               (None : option Empty_set) None) (Net.Responds 200 "{}")]
              "budget" "2024-01-01" "2024-03-31" [examples.groceries; examples.rent]
              ltac:(by vm_compute) ltac:(vm_compute; reflexivity) ltac:(vm_compute; reflexivity))
    as (untilTime & Hu & Hrun).
  exists untilTime. split; [exact Hu|]. exact Hrun.
Defined.
(** A summary asked for November 2023: the budget is fetched by its ID,
    the month comes back as given, and of the two groups the one whose only
    category is hidden is left out, as is the hidden category of the
    other. *)
Lemma budget_summary_result_witness :
  (examples.summaryArgs !! "budget_id" = Some (ArgString "budget") /\ "budget" <> "")
  /\ exists r,
       Net.run (@getBudgetSummary_result examples.acceptAll examples.decodeAPIError
                  examples.decodeBudget examples.mar15 examples.client examples.summaryArgs) examples.okNet
       = (inr r, [Net.Exchange (requestOf examples.client "GET" "/budgets/budget"
                                  (None : option Empty_set) None) (Net.Responds 200 "{}")])
       /\ bs_month r = "2023-11"
       /\ map bg_category_group_name (bs_category_groups r) = ["Everyday"]
       /\ map (fun g => map bc_category_name (bg_categories g)) (bs_category_groups r)
          = [["Food"; "Housing"]].
Proof.
  assert (Hb : examples.summaryArgs !! "budget_id" = Some (ArgString "budget"))
    by (vm_compute; reflexivity).
  assert (Hne : "budget" <> "") by discriminate.
  split; [by split|].
  destruct (@budget_summary_result examples.acceptAll examples.decodeAPIError
              examples.decodeBudget examples.mar15 examples.client examples.summaryArgs examples.okNet [] "budget"
              Hb Hne) as [_ Hvalid].
  destruct (Hvalid "2023-11") as [_ Hfetched].
  { replace (optionalArg examples.summaryArgs "month") with (Some "2023-11")
      by (vm_compute; reflexivity).
    split; [done|]. eexists. vm_compute. reflexivity. }
  destruct (Hfetched examples.household
              [Net.Exchange (requestOf examples.client "GET" "/budgets/budget"
                               (None : option Empty_set) None) (Net.Responds 200 "{}")]
              ltac:(vm_compute; reflexivity)) as [Hrun _].
  eexists. split; [exact Hrun|]. split; [reflexivity|]. split; vm_compute; reflexivity.
Defined.

(** A transaction is created over a network whose first response cannot
    be read: the POST is sent twice. *)
Lemma create_transaction_resends_witness :
  let post := {| Net.req_Method := "POST";
                 Net.req_URL := "https://api.ynab.com/v1/budgets/budget/transactions";
                 Net.req_Header := [("Authorization", "Bearer token");
                                    ("Content-Type", "application/json");
                                    ("Accept", "application/json")];
                 Net.req_Body := Some "{}" |} in
  transient (examples.halfReadNet [] post)
  /\ Net.run (@createTransaction examples.acceptAll examples.decodeAPIError
                examples.decodeTransaction examples.encodeCreate
                examples.mar15 examples.client examples.createArgs) examples.halfReadNet
     = (NewToolResultText
          ("Transaction created successfully!" +:+ fmt.nl +:+ fmt.nl
           +:+ writtenTransactionText examples.groceries),
        [Net.Exchange post (Net.ReadFails 201 (Errorf "unexpected EOF"));
         Net.Sleep (1 * Net.Second);
         Net.Exchange post (Net.Responds 201 "{}")]).
Proof.
  cbv zeta.
  destruct (@create_transaction_resends examples.acceptAll examples.decodeAPIError
              examples.decodeTransaction examples.encodeCreate
              examples.mar15 examples.client examples.createArgs examples.halfReadNet []
              "budget" "acct" (-45.5)%float "{}"
              ltac:(vm_compute; reflexivity) ltac:(discriminate)
              ltac:(vm_compute; reflexivity) ltac:(discriminate)
              ltac:(vm_compute; reflexivity) eq_refl eq_refl I) as [rest Hrest].
  split; [exact I|]. vm_compute. reflexivity.
Defined.

(** ** The aggregation, bucket by bucket *)

Lemma fold_categoryStep_lookup txs (m : gmap string categorySummary) k :
  fold_left categoryStep txs m !! k
  = bucketFrom categoryAdd (newCategorySummary k) (m !! k) (List.filter (inCategory k) txs).
Proof.
  revert m. induction txs as [|tx txs IH]; intros m; simpl.
  - by destruct (m !! k).
  - rewrite IH. unfold categoryStep, inCategory at 2.
    destruct (isTransfer tx); [done|]. destruct (tx_Deleted tx); [done|]. cbn [negb andb].
    destruct (String.eqb_spec (categoryKey tx) k) as [E|E].
    + rewrite E, lookup_insert_eq. by destruct (m !! k).
    + by rewrite lookup_insert_ne.
Qed.

Lemma fold_payeeStep_lookup txs (m : gmap string payeeSummary) k :
  fold_left payeeStep txs m !! k
  = bucketFrom payeeAdd (newPayeeSummary k) (m !! k) (List.filter (inPayee k) txs).
Proof.
  revert m. induction txs as [|tx txs IH]; intros m; simpl.
  - by destruct (m !! k).
  - rewrite IH. unfold payeeStep, inPayee at 2.
    destruct (isTransfer tx); [done|]. destruct (tx_Deleted tx); [done|]. cbn [negb andb].
    destruct (String.eqb_spec (payeeKey tx) k) as [E|E].
    + rewrite E, lookup_insert_eq. by destruct (m !! k).
    + by rewrite lookup_insert_ne.
Qed.

Lemma fold_monthStep_lookup txs (m : gmap string monthSummary) k :
  fold_left monthStep txs m !! k
  = match m !! k with
    | Some s => Some (fold_left monthAdd (map amountOf (List.filter (inMonth k) txs)) s)
    | None => None
    end.
Proof.
  revert m. induction txs as [|tx txs IH]; intros m; simpl.
  - by destruct (m !! k).
  - rewrite IH. unfold monthStep, inMonth at 2, monthOf.
    destruct (isTransfer tx); [done|]. destruct (tx_Deleted tx); [done|].
    destruct (parseDate (tx_Date tx)) as [err|txDate]; [done|].
    destruct (String.eqb_spec (getMonthString txDate) k) as [E|E].
    + rewrite E. destruct (m !! k) as [s|] eqn:Ek; [|by rewrite Ek].
      by rewrite lookup_insert_eq.
    + destruct (m !! getMonthString txDate) eqn:Em; [|done].
      by rewrite lookup_insert_ne.
Qed.

Lemma categoryAdd_count amounts s :
  cs_TransactionCount (fold_left categoryAdd amounts s)
  = cs_TransactionCount s + Z.of_nat (length amounts)
  /\ cs_CategoryID (fold_left categoryAdd amounts s) = cs_CategoryID s
  /\ cs_CategoryName (fold_left categoryAdd amounts s) = cs_CategoryName s.
Proof.
  revert s. induction amounts as [|a amounts IH]; intros s; simpl; [split; [lia|done]|].
  destruct (IH (categoryAdd s a)) as (-> & -> & ->). simpl. split; [lia|done].
Qed.

Lemma payeeAdd_count amounts s :
  ps_TransactionCount (fold_left payeeAdd amounts s)
  = ps_TransactionCount s + Z.of_nat (length amounts)
  /\ ps_PayeeID (fold_left payeeAdd amounts s) = ps_PayeeID s
  /\ ps_PayeeName (fold_left payeeAdd amounts s) = ps_PayeeName s.
Proof.
  revert s. induction amounts as [|a amounts IH]; intros s; simpl; [split; [lia|done]|].
  destruct (IH (payeeAdd s a)) as (-> & -> & ->). simpl. split; [lia|done].
Qed.

Lemma monthAdd_count amounts s :
  ms_TransactionCount (fold_left monthAdd amounts s)
  = ms_TransactionCount s + Z.of_nat (length amounts).
Proof.
  revert s. induction amounts as [|a amounts IH]; intros s; simpl; [lia|].
  rewrite IH. simpl. lia.
Qed.

(** X16. Every bucket of an aggregation is made from its own transactions
    alone. The category (payee) bucket under a key exists exactly when some
    transaction that is neither deleted nor a transfer has that key; it is
    the summary made for the first such transaction, so it carries the name
    that one has, with the amounts of all of them added in the order of the
    list, and its count is their number. The bucket of a requested month is
    the zero bucket with the amounts of the transactions of that month
    added in order; no other month has a bucket. *)
Theorem aggregation_buckets (transactions : list Transaction) (months : list string)
    (k : string) :
  let ofCategory := List.filter (inCategory k) transactions in
  let ofPayee := List.filter (inPayee k) transactions in
  let ofMonth := List.filter (inMonth k) transactions in
  aggregateByCategory transactions !! k
  = match ofCategory with
    | [] => None
    | first :: _ =>
        Some (fold_left categoryAdd (map amountOf ofCategory) (newCategorySummary k first))
    end
  /\ aggregateByPayee transactions !! k
     = match ofPayee with
       | [] => None
       | first :: _ =>
           Some (fold_left payeeAdd (map amountOf ofPayee) (newPayeeSummary k first))
       end
  /\ aggregateByMonth transactions months !! k
     = (if decide (k ∈ months)
        then Some (fold_left monthAdd (map amountOf ofMonth) (newMonthSummary k))
        else None)
  /\ (forall s, aggregateByCategory transactions !! k = Some s ->
        cs_CategoryID s = k
        /\ cs_TransactionCount s = Z.of_nat (length ofCategory)
        /\ 1 <= cs_TransactionCount s
        /\ exists first, head ofCategory = Some first
             /\ cs_CategoryName s = (if String.eqb k "uncategorized" then "Uncategorized"
                                     else tx_CategoryName first))
  /\ (forall s, aggregateByPayee transactions !! k = Some s ->
        ps_PayeeID s = k
        /\ ps_TransactionCount s = Z.of_nat (length ofPayee)
        /\ 1 <= ps_TransactionCount s
        /\ exists first, head ofPayee = Some first
             /\ ps_PayeeName s = (if String.eqb k "no-payee" then "No Payee"
                                  else tx_PayeeName first))
  /\ (forall s, aggregateByMonth transactions months !! k = Some s ->
        ms_TransactionCount s = Z.of_nat (length ofMonth)).
Proof.
  cbv zeta.
  assert (Hc := fold_categoryStep_lookup transactions ∅ k).
  assert (Hp := fold_payeeStep_lookup transactions ∅ k).
  assert (Hm := fold_monthStep_lookup transactions (initMonths months) k).
  rewrite lookup_empty in Hc. rewrite lookup_empty in Hp. rewrite initMonths_lookup in Hm.
  fold (aggregateByCategory transactions) in Hc.
  fold (aggregateByPayee transactions) in Hp.
  fold (aggregateByMonth transactions months) in Hm.
  split_and!.
  - rewrite Hc. unfold bucketFrom. by destruct (List.filter _ _).
  - rewrite Hp. unfold bucketFrom. by destruct (List.filter _ _).
  - rewrite Hm. by case_decide.
  - intros s. rewrite Hc. unfold bucketFrom.
    destruct (List.filter (inCategory k) transactions) as [|first own] eqn:E; [done|].
    intros [= <-].
    change (fold_left categoryAdd (map amountOf own) _)
      with (fold_left categoryAdd (map amountOf (first :: own)) (newCategorySummary k first)).
    destruct (categoryAdd_count (map amountOf (first :: own)) (newCategorySummary k first))
      as (-> & -> & ->).
    rewrite length_map. cbn [newCategorySummary cs_TransactionCount cs_CategoryID
                              cs_CategoryName length].
    split_and!; [done|lia|lia|]. by exists first.
  - intros s. rewrite Hp. unfold bucketFrom.
    destruct (List.filter (inPayee k) transactions) as [|first own] eqn:E; [done|].
    intros [= <-].
    change (fold_left payeeAdd (map amountOf own) _)
      with (fold_left payeeAdd (map amountOf (first :: own)) (newPayeeSummary k first)).
    destruct (payeeAdd_count (map amountOf (first :: own)) (newPayeeSummary k first))
      as (-> & -> & ->).
    rewrite length_map. cbn [newPayeeSummary ps_TransactionCount ps_PayeeID
                              ps_PayeeName length].
    split_and!; [done|lia|lia|]. by exists first.
  - intros s. rewrite Hm. case_decide; [|done]. intros [= <-].
    rewrite monthAdd_count, length_map. simpl. lia.
Qed.

(** ** What a tool call sends *)

Lemma sends_ret {A} method n (a : A) : sends method n (mret a).
Proof.
  intros net h. exists []. simpl. rewrite app_nil_r. split_and!; [done|constructor|lia|].
  unfold Net.Second. lia.
Qed.

Lemma exchanges_app h1 h2 : Net.exchanges (h1 ++ h2) = Net.exchanges h1 ++ Net.exchanges h2.
Proof. apply omap_app. Qed.

Lemma sleeps_app h1 h2 : Net.sleeps (h1 ++ h2) = Net.sleeps h1 ++ Net.sleeps h2.
Proof. apply omap_app. Qed.

Lemma sends_bind {A B} method n1 n2 (m : Net.IO A) (f : A -> Net.IO B) :
  sends method n1 m -> (forall a, sends method n2 (f a)) -> sends method (n1 + n2) (m ≫= f).
Proof.
  intros Hm Hf net h. unfold_io.
  destruct (Hm net h) as (r1 & E1 & Hx1 & Hl1 & Hs1).
  destruct (m net h) as [a h1]. simpl in E1. subst h1.
  destruct (Hf a net (h ++ r1)) as (r2 & E2 & Hx2 & Hl2 & Hs2).
  exists (r1 ++ r2). rewrite E2, exchanges_app, sleeps_app, sumZ_app, length_app.
  split_and!; [by rewrite app_assoc | by apply Forall_app | lia | lia].
Qed.

Section request_budget.
Variable http_NewRequest_error : string -> string -> option error.
Variable url_QueryEscape : string -> string.
Context `{!JsonUnmarshal APIErrorResponse}.

(** From attempt [attempt >= 1] on, the loop of [doRequest] sends at most
    one request per iteration left, and sleeps [2^(attempt-1)] seconds
    before each. *)
Lemma doRequest_from_sends {B R} `{!JsonMarshal B} c method path (body : option B)
    (result : option (JsonUnmarshal R)) fuel attempt lastErr net h :
  1 <= attempt ->
  exists rest,
    snd (doRequest_from http_NewRequest_error c method path body result fuel attempt lastErr net h)
    = h ++ rest
    /\ Forall (fun e => Net.req_Method (fst e) = method) (Net.exchanges rest)
    /\ (length (Net.exchanges rest) <= fuel)%nat
    /\ sumZ id (Net.sleeps rest)
       <= (2 ^ (attempt - 1 + Z.of_nat fuel) - 2 ^ (attempt - 1)) * Net.Second.
Proof.
  revert attempt lastErr h. induction fuel as [|fuel IH]; intros attempt lastErr h Hatt.
  - exists []. simpl. rewrite app_nil_r, Z.add_0_r. split_and!; [done|constructor|lia|lia].
  - assert (Hpow : 2 ^ (attempt - 1 + Z.of_nat (S fuel)) = 2 * 2 ^ (attempt + Z.of_nat fuel - 1)).
    { rewrite <- Z.pow_succ_r by lia. f_equal. lia. }
    assert (Hpow' : 2 ^ (attempt + 1 - 1 + Z.of_nat fuel) = 2 * 2 ^ (attempt + Z.of_nat fuel - 1)).
    { rewrite <- Z.pow_succ_r by lia. f_equal. lia. }
    assert (Hpow'' : 2 ^ (attempt + 1 - 1) = 2 * 2 ^ (attempt - 1)).
    { rewrite <- Z.pow_succ_r by lia. f_equal. lia. }
    assert (Hmono : 2 ^ (attempt - 1) <= 2 ^ (attempt + Z.of_nat fuel - 1))
      by (apply Z.pow_le_mono_r; lia).
    assert (Hpos : 0 < 2 ^ (attempt - 1)) by (apply Z.pow_pos_nonneg; lia).
    assert (Hstop : forall (v : error + option R),
      exists rest,
        h ++ [Net.Sleep (Z.shiftl 1 (attempt - 1) * Net.Second)] = h ++ rest
        /\ Forall (fun e => Net.req_Method (fst e) = method) (Net.exchanges rest)
        /\ (length (Net.exchanges rest) <= S fuel)%nat
        /\ sumZ id (Net.sleeps rest)
           <= (2 ^ (attempt - 1 + Z.of_nat (S fuel)) - 2 ^ (attempt - 1)) * Net.Second).
    { intros _. eexists. split; [done|]. simpl. split_and!; [constructor|lia|].
      rewrite Z.shiftl_1_l. unfold sumZ, id. simpl. unfold Net.Second. nia. }
    assert (Hend : forall out,
      exists rest,
        (h ++ [Net.Sleep (Z.shiftl 1 (attempt - 1) * Net.Second)])
          ++ [Net.Exchange {| Net.req_Method := method; Net.req_URL := baseURL +:+ path;
                              Net.req_Header := headers c body;
                              Net.req_Body := match body with
                                              | Some b => match json_Marshal b with
                                                          | inr s => Some s
                                                          | inl _ => None
                                                          end
                                              | None => None
                                              end |} out]
        = h ++ rest
        /\ Forall (fun e => Net.req_Method (fst e) = method) (Net.exchanges rest)
        /\ (length (Net.exchanges rest) <= S fuel)%nat
        /\ sumZ id (Net.sleeps rest)
           <= (2 ^ (attempt - 1 + Z.of_nat (S fuel)) - 2 ^ (attempt - 1)) * Net.Second).
    { intros out. eexists. split; [by rewrite <- app_assoc|]. simpl.
      split_and!; [by repeat constructor|lia|].
      rewrite Z.shiftl_1_l. unfold sumZ, id. simpl. unfold Net.Second. nia. }
    assert (Hnext : forall out lastErr',
      exists rest,
        snd (doRequest_from http_NewRequest_error c method path body result fuel
               (attempt + 1) lastErr' net
               ((h ++ [Net.Sleep (Z.shiftl 1 (attempt - 1) * Net.Second)])
                  ++ [Net.Exchange {| Net.req_Method := method; Net.req_URL := baseURL +:+ path;
                                      Net.req_Header := headers c body;
                                      Net.req_Body := match body with
                                                      | Some b => match json_Marshal b with
                                                                  | inr s => Some s
                                                                  | inl _ => None
                                                                  end
                                                      | None => None
                                                      end |} out]))
        = h ++ rest
        /\ Forall (fun e => Net.req_Method (fst e) = method) (Net.exchanges rest)
        /\ (length (Net.exchanges rest) <= S fuel)%nat
        /\ sumZ id (Net.sleeps rest)
           <= (2 ^ (attempt - 1 + Z.of_nat (S fuel)) - 2 ^ (attempt - 1)) * Net.Second).
    { intros out lastErr'.
      destruct (IH (attempt + 1) lastErr'
                  ((h ++ [Net.Sleep (Z.shiftl 1 (attempt - 1) * Net.Second)])
                     ++ [Net.Exchange {| Net.req_Method := method; Net.req_URL := baseURL +:+ path;
                                         Net.req_Header := headers c body;
                                         Net.req_Body := match body with
                                                         | Some b => match json_Marshal b with
                                                                     | inr s => Some s
                                                                     | inl _ => None
                                                                     end
                                                         | None => None
                                                         end |} out]) ltac:(lia))
        as (rest & -> & Hx & Hl & Hs).
      eexists. split; [by rewrite <- !app_assoc|].
      simpl. split_and!; [by constructor|lia|].
      rewrite Z.shiftl_1_l. unfold sumZ, id in *. simpl. unfold Net.Second in *. nia. }
    cbn [doRequest_from]. unfold_io.
    replace (0 <? attempt) with true by (symmetry; apply Z.ltb_lt; lia).
    unfold Net.sleep.
    destruct body as [b|].
    + destruct (json_Marshal b) as [err|jsonBody] eqn:Ej; [apply Hstop; exact (inl err)|].
      destruct (http_NewRequest_error method (baseURL +:+ path)); [apply Hstop; exact (inr None)|].
      unfold Net.httpDo. cbv zeta.
      match goal with
      | |- context [net ?hh ?req] => destruct (net hh req) as [err|sc err|sc respBody]
      end; [apply Hnext|apply Hnext|].
      destruct (decide (sc = 429)); [apply Hnext|].
      destruct (400 <=? sc).
      * destruct (json_Unmarshal respBody) as [?|apiErr]; [apply Hend|].
        destruct (decide (err_Detail apiErr = "")); apply Hend.
      * destruct result as [unmarshal|]; [|apply Hend].
        destruct (unmarshal respBody); apply Hend.
    + destruct (http_NewRequest_error method (baseURL +:+ path)); [apply Hstop; exact (inr None)|].
      unfold Net.httpDo. cbv zeta.
      match goal with
      | |- context [net ?hh ?req] => destruct (net hh req) as [err|sc err|sc respBody]
      end; [apply Hnext|apply Hnext|].
      destruct (decide (sc = 429)); [apply Hnext|].
      destruct (400 <=? sc).
      * destruct (json_Unmarshal respBody) as [?|apiErr]; [apply Hend|].
        destruct (decide (err_Detail apiErr = "")); apply Hend.
      * destruct result as [unmarshal|]; [|apply Hend].
        destruct (unmarshal respBody); apply Hend.
Qed.

(** The loop entered at attempt 0: no sleep before the first request. *)
Lemma doRequest_from_0_sends {B R} `{!JsonMarshal B} c method path (body : option B)
    (result : option (JsonUnmarshal R)) fuel lastErr net h :
  exists rest,
    snd (doRequest_from http_NewRequest_error c method path body result (S fuel) 0 lastErr net h)
    = h ++ rest
    /\ Forall (fun e => Net.req_Method (fst e) = method) (Net.exchanges rest)
    /\ (length (Net.exchanges rest) <= S fuel)%nat
    /\ sumZ id (Net.sleeps rest) <= (2 ^ Z.of_nat fuel - 1) * Net.Second.
Proof.
  assert (Hpos : 0 < 2 ^ Z.of_nat fuel) by (apply Z.pow_pos_nonneg; lia).
  cbn [doRequest_from]. unfold_io.
  change (0 <? 0) with false. cbv iota.
  assert (Hstop : exists rest,
    h = h ++ rest
    /\ Forall (fun e => Net.req_Method (fst e) = method) (Net.exchanges rest)
    /\ (length (Net.exchanges rest) <= S fuel)%nat
    /\ sumZ id (Net.sleeps rest) <= (2 ^ Z.of_nat fuel - 1) * Net.Second).
  { exists []. rewrite app_nil_r. split_and!; [done|constructor|simpl; lia|].
    unfold sumZ, Net.Second. simpl. lia. }
  assert (Hend : forall req out, Net.req_Method req = method ->
    exists rest,
      h ++ [Net.Exchange req out] = h ++ rest
      /\ Forall (fun e => Net.req_Method (fst e) = method) (Net.exchanges rest)
      /\ (length (Net.exchanges rest) <= S fuel)%nat
      /\ sumZ id (Net.sleeps rest) <= (2 ^ Z.of_nat fuel - 1) * Net.Second).
  { intros req out Hreq. eexists. split; [done|].
    split_and!; [by repeat constructor|simpl; lia|].
    unfold sumZ, Net.Second. simpl. lia. }
  assert (Hnext : forall req out lastErr', Net.req_Method req = method ->
    exists rest,
      snd (doRequest_from http_NewRequest_error c method path body result fuel (0 + 1) lastErr'
             net (h ++ [Net.Exchange req out]))
      = h ++ rest
      /\ Forall (fun e => Net.req_Method (fst e) = method) (Net.exchanges rest)
      /\ (length (Net.exchanges rest) <= S fuel)%nat
      /\ sumZ id (Net.sleeps rest) <= (2 ^ Z.of_nat fuel - 1) * Net.Second).
  { intros req out lastErr' Hreq.
    destruct (doRequest_from_sends c method path body result fuel (0 + 1) lastErr' net
                (h ++ [Net.Exchange req out]) ltac:(lia)) as (rest & -> & Hx & Hl & Hs).
    eexists. split; [by rewrite <- app_assoc|].
    simpl. split_and!; [by constructor|lia|].
    simpl in Hs. rewrite Z.pow_0_r in Hs. exact Hs. }
  destruct body as [b|].
  - destruct (json_Marshal b) as [err|jsonBody]; [apply Hstop|].
    destruct (http_NewRequest_error method (baseURL +:+ path)); [apply Hstop|].
    unfold Net.httpDo. cbv zeta.
    match goal with
    | |- context [net ?hh ?req] => destruct (net hh req) as [err|sc err|sc respBody]
    end; [by apply Hnext|by apply Hnext|].
    destruct (decide (sc = 429)); [by apply Hnext|].
    destruct (400 <=? sc).
    + destruct (json_Unmarshal respBody) as [?|apiErr]; [by apply Hend|].
      destruct (decide (err_Detail apiErr = "")); by apply Hend.
    + destruct result as [unmarshal|]; [|by apply Hend].
      destruct (unmarshal respBody); by apply Hend.
  - destruct (http_NewRequest_error method (baseURL +:+ path)); [apply Hstop|].
    unfold Net.httpDo. cbv zeta.
    match goal with
    | |- context [net ?hh ?req] => destruct (net hh req) as [err|sc err|sc respBody]
    end; [by apply Hnext|by apply Hnext|].
    destruct (decide (sc = 429)); [by apply Hnext|].
    destruct (400 <=? sc).
    + destruct (json_Unmarshal respBody) as [?|apiErr]; [by apply Hend|].
      destruct (decide (err_Detail apiErr = "")); by apply Hend.
    + destruct result as [unmarshal|]; [|by apply Hend].
      destruct (unmarshal respBody); by apply Hend.
Qed.

(** A call of [doRequest] sends at most three requests, and sleeps one
    second and then two between them. *)
Lemma doRequest_sends {B R} `{!JsonMarshal B} c method path (body : option B)
    (result : option (JsonUnmarshal R)) :
  sends method 3 (doRequest http_NewRequest_error c method path body result).
Proof. intros net h. apply (doRequest_from_0_sends c method path body result 2). Qed.

End request_budget.

(** The steps of a handler: returns, tests, and calls of the client. *)
Ltac sends_steps :=
  repeat (cbv zeta;
    match goal with
    | |- sends _ _ (mret _) => apply sends_ret
    | |- sends _ _ (match ?x with _ => _ end) => destruct x
    | |- sends _ _ _ => solve [eauto with sends]
    | |- sends ?M 3 (_ ≫= _) => apply (sends_bind M 3 0); [|intros ?]
    | |- sends ?M 6 (_ ≫= _) => apply (sends_bind M 3 3); [|intros ?]
    end).

Create HintDb sends.

Section tool_requests.
Variable http_NewRequest_error : string -> string -> option error.
Variable url_QueryEscape : string -> string.
Context `{!JsonUnmarshal APIErrorResponse} `{!JsonUnmarshal AccountsResponse}
        `{!JsonUnmarshal CategoriesResponse} `{!JsonUnmarshal PayeesResponse}
        `{!JsonUnmarshal TransactionsResponse}.
Context `{!JsonMarshal categoryResult} `{!JsonMarshal payeeResult}
        `{!JsonMarshal balancesResult} `{!JsonMarshal monthResult}.
Context `{!JsonUnmarshal TransactionResponse} `{!JsonUnmarshal BudgetSummaryResponse}
        `{!JsonUnmarshal BudgetDetailResponse} `{!JsonUnmarshal CategoryResponse}.
Context `{!JsonMarshal CreateTransactionRequest} `{!JsonMarshal UpdateTransactionRequest}
        `{!JsonMarshal budgetSummaryResult}.
Variable rangeOrder : forall V, gmap string V -> list (string * V).

Lemma get_sends {R} c path (result : option (JsonUnmarshal R)) :
  sends "GET" 3 (get http_NewRequest_error c path result).
Proof. apply doRequest_sends. Qed.

Lemma post_sends {B R} `{!JsonMarshal B} c path (body : option B)
    (result : option (JsonUnmarshal R)) :
  sends "POST" 3 (post http_NewRequest_error c path body result).
Proof. apply doRequest_sends. Qed.

Lemma put_sends {B R} `{!JsonMarshal B} c path (body : option B)
    (result : option (JsonUnmarshal R)) :
  sends "PUT" 3 (put http_NewRequest_error c path body result).
Proof. apply doRequest_sends. Qed.

#[local] Hint Resolve get_sends post_sends put_sends : sends.

Lemma ListAccounts_sends c budgetID :
  sends "GET" 3 (ListAccounts http_NewRequest_error c budgetID).
Proof. unfold ListAccounts. sends_steps. Qed.

Lemma ListCategories_sends c budgetID :
  sends "GET" 3 (ListCategories http_NewRequest_error c budgetID).
Proof. unfold ListCategories. sends_steps. Qed.

Lemma ListPayees_sends c budgetID :
  sends "GET" 3 (ListPayees http_NewRequest_error c budgetID).
Proof. unfold ListPayees. sends_steps. Qed.

Lemma ListTransactions_sends c budgetID query :
  sends "GET" 3 (ListTransactions http_NewRequest_error url_QueryEscape c budgetID query).
Proof. unfold ListTransactions. sends_steps. Qed.

Lemma ListAccountTransactions_sends c budgetID accountID query :
  sends "GET" 3 (ListAccountTransactions http_NewRequest_error url_QueryEscape c budgetID
                   accountID query).
Proof. unfold ListAccountTransactions. sends_steps. Qed.

Lemma ListBudgets_sends c : sends "GET" 3 (ListBudgets http_NewRequest_error c).
Proof. unfold ListBudgets. sends_steps. Qed.

Lemma GetBudget_sends c budgetID : sends "GET" 3 (GetBudget http_NewRequest_error c budgetID).
Proof. unfold GetBudget. sends_steps. Qed.

Lemma GetBudgetSettings_sends c budgetID :
  sends "GET" 3 (GetBudgetSettings http_NewRequest_error c budgetID).
Proof. unfold GetBudgetSettings. sends_steps. Qed.

Lemma GetCategoryByMonth_sends c budgetID month categoryID :
  sends "GET" 3 (GetCategoryByMonth http_NewRequest_error c budgetID month categoryID).
Proof. unfold GetCategoryByMonth. sends_steps. Qed.

Lemma GetTransaction_sends c budgetID transactionID :
  sends "GET" 3 (GetTransaction http_NewRequest_error c budgetID transactionID).
Proof. unfold GetTransaction. sends_steps. Qed.

Lemma CreateTransaction_sends c budgetID req :
  sends "POST" 3 (CreateTransaction http_NewRequest_error c budgetID req).
Proof. unfold CreateTransaction. sends_steps. Qed.

Lemma UpdateTransaction_sends c budgetID transactionID req :
  sends "PUT" 3 (UpdateTransaction http_NewRequest_error c budgetID transactionID req).
Proof. unfold UpdateTransaction. sends_steps. Qed.

#[local] Hint Resolve ListAccounts_sends ListCategories_sends ListPayees_sends
  ListTransactions_sends ListAccountTransactions_sends ListBudgets_sends GetBudget_sends
  GetTransaction_sends CreateTransaction_sends UpdateTransaction_sends : sends.

Lemma GetAccount_sends c budgetID accountID :
  sends "GET" 3 (GetAccount http_NewRequest_error c budgetID accountID).
Proof. unfold GetAccount. sends_steps. Qed.

Lemma GetCategory_sends c budgetID categoryID :
  sends "GET" 3 (GetCategory http_NewRequest_error c budgetID categoryID).
Proof. unfold GetCategory. sends_steps. Qed.

Lemma GetPayee_sends c budgetID payeeID :
  sends "GET" 3 (GetPayee http_NewRequest_error c budgetID payeeID).
Proof. unfold GetPayee. sends_steps. Qed.

#[local] Hint Resolve GetAccount_sends GetCategory_sends GetPayee_sends : sends.

Lemma getSpendingByMonth_result_sends now client args :
  sends "GET" 6 (getSpendingByMonth_result http_NewRequest_error url_QueryEscape now client args).
Proof. unfold getSpendingByMonth_result. sends_steps. Qed.

Lemma getSpendingByCategory_result_sends client args :
  sends "GET" 3 (getSpendingByCategory_result http_NewRequest_error url_QueryEscape rangeOrder
                   client args).
Proof. unfold getSpendingByCategory_result. sends_steps. Qed.

Lemma getPayeeSummary_result_sends client args :
  sends "GET" 3 (getPayeeSummary_result http_NewRequest_error url_QueryEscape rangeOrder
                   client args).
Proof. unfold getPayeeSummary_result. sends_steps. Qed.

Lemma getBudgetSummary_result_sends now client args :
  sends "GET" 3 (getBudgetSummary_result http_NewRequest_error now client args).
Proof. unfold getBudgetSummary_result. sends_steps. Qed.

(** X17. What a tool call can send, whatever its arguments and whatever
    the network answers. Every tool that reads sends GET requests only, at
    most three of them (the attempts of one call of the API), and six for
    [get_spending_by_month], which may look up the category first;
    [create_transaction] sends only POST requests and [update_transaction]
    only PUT requests, at most three. A tool sleeps (backs off) for at most
    three seconds for each call of the API it makes, and no call removes or
    changes an event already in the history. *)
Theorem tool_requests (now : time.Time) (client : Client) (args : gmap string Arg) :
  sends "GET" 3 (listBudgets http_NewRequest_error client args)
  /\ sends "GET" 3 (getBudgetDetails http_NewRequest_error client args)
  /\ sends "GET" 3 (listAccounts http_NewRequest_error client args)
  /\ sends "GET" 3 (getAccountDetails http_NewRequest_error client args)
  /\ sends "GET" 3 (listTransactions http_NewRequest_error url_QueryEscape client args)
  /\ sends "GET" 3 (getTransactionDetails http_NewRequest_error client args)
  /\ sends "GET" 3 (listCategories http_NewRequest_error client args)
  /\ sends "GET" 3 (getCategoryDetails http_NewRequest_error client args)
  /\ sends "GET" 3 (listPayees http_NewRequest_error client args)
  /\ sends "GET" 3 (getSpendingByCategory http_NewRequest_error url_QueryEscape rangeOrder
                      client args)
  /\ sends "GET" 3 (getPayeeSummary http_NewRequest_error url_QueryEscape rangeOrder
                      client args)
  /\ sends "GET" 3 (getAccountBalances_result http_NewRequest_error client args)
  /\ sends "GET" 3 (getBudgetSummary http_NewRequest_error now client args)
  /\ sends "GET" 6 (getSpendingByMonth http_NewRequest_error url_QueryEscape now client args)
  /\ sends "POST" 3 (createTransaction http_NewRequest_error now client args)
  /\ sends "PUT" 3 (updateTransaction http_NewRequest_error client args).
Proof.
  split_and!.
  - unfold listBudgets. sends_steps.
  - unfold getBudgetDetails. sends_steps.
  - unfold listAccounts. sends_steps.
  - unfold getAccountDetails. sends_steps.
  - unfold listTransactions. sends_steps.
  - unfold getTransactionDetails. sends_steps.
  - unfold listCategories. sends_steps.
  - unfold getCategoryDetails. sends_steps.
  - unfold listPayees. sends_steps.
  - unfold getSpendingByCategory.
    apply (sends_bind "GET" 3 0); [apply getSpendingByCategory_result_sends|intros ?].
    sends_steps.
  - unfold getPayeeSummary.
    apply (sends_bind "GET" 3 0); [apply getPayeeSummary_result_sends|intros ?].
    sends_steps.
  - unfold getAccountBalances_result. sends_steps.
  - unfold getBudgetSummary.
    apply (sends_bind "GET" 3 0); [apply getBudgetSummary_result_sends|intros ?].
    sends_steps.
  - unfold getSpendingByMonth.
    apply (sends_bind "GET" 6 0); [apply getSpendingByMonth_result_sends|intros ?].
    sends_steps.
  - unfold createTransaction. sends_steps.
  - unfold updateTransaction. sends_steps.
Qed.

End tool_requests.

(** ** An update cannot reset a field *)

Lemma stringArg_insert_ne args k k' v : k <> k' -> stringArg (<[k := v]> args) k' = stringArg args k'.
Proof. intros Hk. unfold stringArg. by rewrite lookup_insert_ne. Qed.

Lemma stringArg_delete_ne args k k' : k <> k' -> stringArg (delete k args) k' = stringArg args k'.
Proof. intros Hk. unfold stringArg. by rewrite lookup_delete_ne. Qed.

Lemma numberArg_insert_ne args k k' v : k <> k' -> numberArg (<[k := v]> args) k' = numberArg args k'.
Proof. intros Hk. unfold numberArg. by rewrite lookup_insert_ne. Qed.

Lemma numberArg_delete_ne args k k' : k <> k' -> numberArg (delete k args) k' = numberArg args k'.
Proof. intros Hk. unfold numberArg. by rewrite lookup_delete_ne. Qed.

Lemma optionalArg_empty args k :
  optionalArg (<[k := ArgString ""]> args) k = optionalArg (delete k args) k.
Proof. unfold optionalArg, stringArg. by rewrite lookup_insert_eq, lookup_delete_eq. Qed.

Lemma optionalArg_insert_ne args k k' v :
  k <> k' -> optionalArg (<[k := v]> args) k' = optionalArg args k'.
Proof. intros Hk. unfold optionalArg. by rewrite stringArg_insert_ne. Qed.

Lemma optionalArg_delete_ne args k k' : k <> k' -> optionalArg (delete k args) k' = optionalArg args k'.
Proof. intros Hk. unfold optionalArg. by rewrite stringArg_delete_ne. Qed.

Section update_facts.
Variable http_NewRequest_error : string -> string -> option error.
Context `{!JsonUnmarshal APIErrorResponse} `{!JsonUnmarshal TransactionResponse}.
Context `{!JsonMarshal UpdateTransactionRequest}.

#[local] Abbreviation updateTransaction := (updateTransaction http_NewRequest_error).

Lemma updateTransaction_ext client args1 args2 :
  stringArg args1 "budget_id" = stringArg args2 "budget_id" ->
  stringArg args1 "transaction_id" = stringArg args2 "transaction_id" ->
  updateRequest args1 = updateRequest args2 ->
  updateTransaction client args1 = updateTransaction client args2.
Proof. intros Hb Ht Hr. unfold tools.updateTransaction. by rewrite Hb, Ht, Hr. Qed.

(** X18. [update_transaction] cannot set an amount to zero or empty a
    text field. Given an amount that comes to 0 milliunits it builds the
    request it builds without an amount, and given the empty string for
    the date, the payee name, the category, the memo or the cleared status
    it builds the request it builds without that argument: the call does
    and returns the same in both cases. *)
Theorem update_cannot_reset (client : Client) (args : gmap string Arg) (amount : float)
    (key : string) :
  FloatToMilliunits amount = 0 ->
  key ∈ ["date"; "payee_name"; "category_id"; "memo"; "cleared"] ->
  updateRequest (<["amount" := ArgNumber amount]> args) = updateRequest (delete "amount" args)
  /\ updateTransaction client (<["amount" := ArgNumber amount]> args)
     = updateTransaction client (delete "amount" args)
  /\ updateRequest (<[key := ArgString ""]> args) = updateRequest (delete key args)
  /\ updateTransaction client (<[key := ArgString ""]> args)
     = updateTransaction client (delete key args).
Proof.
  intros Hzero Hkey.
  assert (Hne : key <> "amount" /\ key <> "budget_id" /\ key <> "transaction_id").
  { repeat (apply elem_of_cons in Hkey as [->|Hkey]; [done|]). by apply elem_of_nil in Hkey. }
  destruct Hne as (Hne & Hnb & Hnt).
  assert (Hamount : updateRequest (<["amount" := ArgNumber amount]> args)
                    = updateRequest (delete "amount" args)).
  { unfold updateRequest.
    rewrite !optionalArg_insert_ne, !optionalArg_delete_ne by done.
    unfold numberArg. rewrite lookup_insert_eq, lookup_delete_eq. by rewrite Hzero. }
  assert (Htext : updateRequest (<[key := ArgString ""]> args) = updateRequest (delete key args)).
  { unfold updateRequest.
    rewrite numberArg_insert_ne, numberArg_delete_ne by done.
    assert (Hopt : forall k, optionalArg (<[key := ArgString ""]> args) k
                             = optionalArg (delete key args) k).
    { intros k. destruct (decide (key = k)) as [<-|Hk]; [apply optionalArg_empty|].
      by rewrite optionalArg_insert_ne, optionalArg_delete_ne. }
    by rewrite !Hopt. }
  split_and!; [done| |done|].
  - apply updateTransaction_ext; [| |done];
      by rewrite stringArg_insert_ne, stringArg_delete_ne.
  - apply updateTransaction_ext; [| |done];
      by rewrite stringArg_insert_ne, stringArg_delete_ne.
Qed.

End update_facts.

Lemma update_cannot_reset_witness :
  updateRequest (<["amount" := ArgNumber 0%float]> examples.createArgs)
  = updateRequest (delete "amount" examples.createArgs)
  /\ updateRequest (<["memo" := ArgString ""]> examples.createArgs)
     = updateRequest (delete "memo" examples.createArgs).
Proof.
  destruct (@update_cannot_reset examples.acceptAll examples.decodeAPIError
              examples.decodeTransaction (fun _ => inr "") examples.client examples.createArgs
              0%float "memo") as (Ha & _ & Hm & _).
  - reflexivity.
  - do 3 right. left.
  - split; [exact Ha | exact Hm].
Defined.
